(** * Enterprise project-management console: API client, endpoint probing,
      session manager and notification/loading hub

    A shallow embedding of the JavaScript sources of the web front end:

    - the API client, [api/client.js]: [joinUrl], [safeJsonParse],
      [request] and the verbs of [createApiClient];
    - the token storage, [auth/tokenStorage.js]: [getToken], [setToken],
      [clearToken];
    - the UI context, [context/UIContext.js]: [setLoading], [pushToast],
      [removeToast];
    - the auth context, [context/AuthContext.js]: [normalizeAuthResponse],
      [bestEffortGetMe], [login];
    - the projects page ([ProjectsPage]): [normalizeList],
      [validateProject], [load], [save], [archiveOrDelete];
    - the users page ([UsersPage]): [normalizeList], [validateUser],
      [loadUsers], [loadRoles], [submitInvite], [updateUserRole].

    JavaScript values are an inductive type, the asynchronous functions are
    computations in a state-and-exception monad over one [World] record
    (React state, timers, local storage and the log of what was sent to the
    backend), and the backend is an oracle that answers a request from the
    history of the requests issued before it. One invocation of a handler
    is run on its own: no other handler runs between its awaits, and the
    clock moves only where a statement says so. *)

From Stdlib Require Import String Ascii List ZArith Lia Bool.
From Stdlib Require Import DecimalString.
Import ListNotations.

Set Warnings "-register-all".

Open Scope string_scope.
Open Scope Z_scope.

(** ** Strings

    A [string] stands for the JavaScript string with the same code units;
    [ascii] carries the units 0..255. *)

Module Str.

(** The units below 256 that ECMAScript counts as white space or line
    terminator: TAB, LF, VT, FF, CR, SPACE and NBSP. This is the class that
    [String.prototype.trim] strips and the complement of the regex class
    [\S]. *)
Definition is_space (c : ascii) : bool :=
  let n := nat_of_ascii c in
  (Nat.eqb n 9 || Nat.eqb n 10 || Nat.eqb n 11 || Nat.eqb n 12
   || Nat.eqb n 13 || Nat.eqb n 32 || Nat.eqb n 160)%bool.

Fixpoint trimStart (s : string) : string :=
  match s with
  | String c r => if is_space c then trimStart r else s
  | EmptyString => EmptyString
  end.

Fixpoint rev (s : string) : string :=
  match s with
  | EmptyString => EmptyString
  | String c r => rev r ++ String c EmptyString
  end.

Definition trimEnd (s : string) : string := rev (trimStart (rev s)).

(** [s.trim()] *)
Definition trim (s : string) : string := trimEnd (trimStart s).

(** [s.length] *)
Definition length (s : string) : Z := Z.of_nat (String.length s).

(** [s.startsWith(p)] *)
Definition startsWith (s p : string) : bool := String.prefix p s.

(** [s.endsWith(p)] *)
Definition endsWith (s p : string) : bool := String.prefix (rev p) (rev s).

(** [s.slice(0, -1)]: everything but the last unit. *)
Fixpoint dropLast (s : string) : string :=
  match s with
  | EmptyString => EmptyString
  | String c EmptyString => EmptyString
  | String c r => String c (dropLast r)
  end.

(** Decimal rendering of an integer, as in a template literal. *)
Definition ofZ (n : Z) : string := NilZero.string_of_int (Z.to_int n).

Definition isEmpty (s : string) : bool :=
  match s with EmptyString => true | _ => false end.

End Str.

(** ** JavaScript values *)

Module Js.

(** The values that [JSON.parse] produces, and [undefined]. Numbers are the
    integers (ids, counts, status codes); objects are property lists in
    insertion order, and a property is read at its first entry. *)
Inductive value : Type :=
| VUndefined
| VNull
| VBool (b : bool)
| VNum (n : Z)
| VStr (s : string)
| VArr (items : list value)
| VObj (props : list (string * value)).

(** [Boolean(v)] *)
Definition truthy (v : value) : bool :=
  match v with
  | VUndefined | VNull => false
  | VBool b => b
  | VNum n => negb (n =? 0)
  | VStr s => negb (Str.isEmpty s)
  | VArr _ | VObj _ => true
  end.

(** [a || b] and [a && b] *)
Definition or (a b : value) : value := if truthy a then a else b.
Definition and (a b : value) : value := if truthy a then b else a.

Fixpoint lookup (k : string) (props : list (string * value)) : value :=
  match props with
  | [] => VUndefined
  | (k', v) :: rest => if String.eqb k k' then v else lookup k rest
  end.

(** [v.k] for the property names the sources read ([items], [data],
    [detail], [message], [error], [access_token], [token], [jwt], [id],
    [name]): none of them exists on a primitive or on an array. The sources
    guard every read whose receiver may be [null] ([data && ...], [!data],
    [selected?.id]); on list entries, which the views render and so need to
    be objects, the read is unguarded. *)
Definition get (v : value) (k : string) : value :=
  match v with
  | VObj props => lookup k props
  | _ => VUndefined
  end.


(** [typeof v === "string"] *)
Definition isString (v : value) : bool :=
  match v with VStr _ => true | _ => false end.

(** [v == null]: [null] or [undefined]. *)
Definition isNullish (v : value) : bool :=
  match v with VUndefined | VNull => true | _ => false end.

(** [{...o, k: v}]: an existing key keeps its place, a new one goes last. *)
Fixpoint setProp (k : string) (v : value) (props : list (string * value))
  : list (string * value) :=
  match props with
  | [] => [(k, v)]
  | (k', v') :: rest =>
      if String.eqb k k' then (k, v) :: rest else (k', v') :: setProp k v rest
  end.

Definition spread1 (o : value) (k : string) (v : value) : value :=
  match o with
  | VObj props => VObj (setProp k v props)
  | _ => VObj [(k, v)]
  end.

Fixpoint joinWith (sep : string) (l : list string) : string :=
  match l with
  | [] => EmptyString
  | [s] => s
  | s :: rest => s ++ sep ++ joinWith sep rest
  end.

(** [String(v)], the conversion a template literal and [new Error(v)]
    apply, for the values it converts; [convertible] below tells which
    these are. *)
Fixpoint toString (v : value) : string :=
  match v with
  | VUndefined => "undefined"
  | VNull => "null"
  | VBool true => "true"
  | VBool false => "false"
  | VNum n => Str.ofZ n
  | VStr s => s
  | VArr items =>
      joinWith ","
        (map (fun x => if isNullish x then EmptyString else toString x) items)
  | VObj _ => "[object Object]"
  end.

(** Does [String(v)] return. Converting an object calls its [toString]
    and, when that is no function, its [valueOf]. An object made by
    [JSON.parse] inherits both from [Object.prototype], unless the text
    had a [toString] key: that key is an own property whose value is no
    function, the inherited [valueOf] returns the object itself, and the
    conversion throws a [TypeError]. An array converts its elements,
    [null] to the empty string, and throws when one of them does. *)
Fixpoint convertible (v : value) : bool :=
  match v with
  | VArr items =>
      (fix go (l : list value) : bool :=
         match l with
         | [] => true
         | x :: r => convertible x && go r
         end) items
  | VObj props => negb (existsb (fun kv => String.eqb (fst kv) "toString") props)
  | _ => true
  end%bool.

(** [a === b]. Primitives compare by value. Arrays and objects compare by
    reference in JavaScript; values carry no identity here, so two of them
    are taken to be the same reference when they are the same value. *)
Fixpoint strictEq (a b : value) : bool :=
  match a, b with
  | VUndefined, VUndefined => true
  | VNull, VNull => true
  | VBool x, VBool y => Bool.eqb x y
  | VNum x, VNum y => x =? y
  | VStr x, VStr y => String.eqb x y
  | VArr xs, VArr ys =>
      (fix go (xs ys : list value) : bool :=
         match xs, ys with
         | [], [] => true
         | x :: xs', y :: ys' => strictEq x y && go xs' ys'
         | _, _ => false
         end) xs ys
  | VObj ps, VObj qs =>
      (fix go (ps qs : list (string * value)) : bool :=
         match ps, qs with
         | [], [] => true
         | (k, x) :: ps', (l, y) :: qs' =>
             String.eqb k l && strictEq x y && go ps' qs'
         | _, _ => false
         end) ps qs
  | _, _ => false
  end%bool.

End Js.

Import Js.

(** ** The world the console runs in *)

(** A thrown JavaScript [Error]: [request] adds [status] and [data] to the
    ones it raises for a non-2xx response; [fetch] rejections and errors
    made with [new Error(msg)] carry a message only. *)
Record JsError : Type := mkError {
  err_message : string;
  err_status : option Z;
  err_data : option value
}.

(** [new Error(msg)] *)
Definition newError (msg : string) : JsError := mkError msg None None.

(** What [fetch(url, init)] is called with; [req_body] is the value that
    [JSON.stringify] serialises, absent when no body is sent. *)
Record Request : Type := mkRequest {
  req_method : string;
  req_url : string;
  req_headers : list (string * string);
  req_body : option value
}.

(** How a [fetch] settles: it (or the read of the response text) rejects,
    or a response arrives with a status code and a body text. *)
Inductive FetchOutcome : Type :=
| NetworkError (e : JsError)
| Response (status : Z) (text : string).

(** What the console does that the outside can see, oldest first: the calls
    of [fetch] and the calls of a client's [onLoading] hook. *)
Inductive Event : Type :=
| Fetch (r : Request)
| Loading (isLoading : bool).

Fixpoint requestsOf (l : list Event) : list Request :=
  match l with
  | [] => []
  | Fetch r :: rest => r :: requestsOf rest
  | Loading _ :: rest => requestsOf rest
  end.

Fixpoint signalsOf (l : list Event) : list bool :=
  match l with
  | [] => []
  | Fetch _ :: rest => signalsOf rest
  | Loading b :: rest => b :: signalsOf rest
  end.

(** A toast as [pushToast] builds it. *)
Record Toast : Type := mkToast {
  toast_id : Z;
  toast_type : string;
  toast_title : string;
  toast_description : string;
  toast_timeoutMs : Z
}.

(** The two callbacks the sources hand to [setTimeout]. *)
Inductive TimerAction : Type :=
| HideLoading                (* [() => setGlobalLoading(false)] *)
| ExpireToast (id : Z).      (* [() => setToasts(prev => prev.filter(x => x.id !== id))] *)

(** A pending timeout. Browser timer ids are positive integers, hence
    truthy. *)
Record Timer : Type := mkTimer {
  tm_id : positive;
  tm_due : Z;
  tm_action : TimerAction
}.

(** [UIProvider]: its two states, the [loadingTimer] ref and the module's
    [toastId] counter. *)
Record UIState : Type := mkUI {
  toasts : list Toast;
  globalLoading : bool;
  loadingTimer : option positive;
  toastId : Z
}.

(** [AuthProvider]'s states. *)
Record AuthState : Type := mkAuth {
  token : value;
  user : value;
  initializing : bool
}.

(** [ProjectsPage]'s states; [errors] is the object [validateProject]
    returns, as its list of entries. *)
Record ProjectsState : Type := mkProjects {
  projects : list value;
  selected : value;
  mode : string;
  form : value;
  errors : list (string * string)
}.

(** [UsersPage]'s states. *)
Record UsersState : Type := mkUsers {
  users : list value;
  roles : list value;
  inviteOpen : bool;
  inviteForm : value;
  userErrors : list (string * string)
}.

Record World : Type := mkWorld {
  now : Z;                        (* the clock, in milliseconds *)
  timers : list Timer;            (* pending timeouts, earliest first *)
  nextTimerId : positive;
  log : list Event;
  storageOk : bool;               (* does [localStorage] work at all *)
  storage : option string;        (* the item under ["epm.jwt"] *)
  ui : UIState;
  auth : AuthState;
  projectsPage : ProjectsState;
  usersPage : UsersState
}.

Definition withClock (t : Z) (w : World) : World :=
  mkWorld t (timers w) (nextTimerId w) (log w) (storageOk w) (storage w)
          (ui w) (auth w) (projectsPage w) (usersPage w).

Definition withTimers (ts : list Timer) (next : positive) (w : World) : World :=
  mkWorld (now w) ts next (log w) (storageOk w) (storage w)
          (ui w) (auth w) (projectsPage w) (usersPage w).

Definition withLog (l : list Event) (w : World) : World :=
  mkWorld (now w) (timers w) (nextTimerId w) l (storageOk w) (storage w)
          (ui w) (auth w) (projectsPage w) (usersPage w).

Definition withStorage (s : option string) (w : World) : World :=
  mkWorld (now w) (timers w) (nextTimerId w) (log w) (storageOk w) s
          (ui w) (auth w) (projectsPage w) (usersPage w).

Definition withUI (u : UIState) (w : World) : World :=
  mkWorld (now w) (timers w) (nextTimerId w) (log w) (storageOk w) (storage w)
          u (auth w) (projectsPage w) (usersPage w).

Definition withAuth (a : AuthState) (w : World) : World :=
  mkWorld (now w) (timers w) (nextTimerId w) (log w) (storageOk w) (storage w)
          (ui w) a (projectsPage w) (usersPage w).

Definition withProjectsPage (p : ProjectsState) (w : World) : World :=
  mkWorld (now w) (timers w) (nextTimerId w) (log w) (storageOk w) (storage w)
          (ui w) (auth w) p (usersPage w).

Definition withUsersPage (u : UsersState) (w : World) : World :=
  mkWorld (now w) (timers w) (nextTimerId w) (log w) (storageOk w) (storage w)
          (ui w) (auth w) (projectsPage w) u.

Definition emit (e : Event) (w : World) : World := withLog (log w ++ [e]) w.

(** ** Computations: state and exceptions *)

Inductive Completion (A : Type) : Type :=
| Normal (a : A)
| Throw (e : JsError).

Arguments Normal {A} a.
Arguments Throw {A} e.

Definition M (A : Type) : Type := World -> Completion A * World.

Definition ret {A} (a : A) : M A := fun w => (Normal a, w).

Definition throw {A} (e : JsError) : M A := fun w => (Throw e, w).

Definition bind {A B} (m : M A) (k : A -> M B) : M B :=
  fun w =>
    match m w with
    | (Normal a, w') => k a w'
    | (Throw e, w') => (Throw e, w')
    end.

(** A state change that cannot fail (a React setter, a hook call). *)
Definition modify (f : World -> World) : M unit := fun w => (Normal tt, f w).

(** [try { m } catch (e) { h e }] *)
Definition tryCatch {A} (m : M A) (h : JsError -> M A) : M A :=
  fun w =>
    match m w with
    | (Normal a, w') => (Normal a, w')
    | (Throw e, w') => h e w'
    end.

(** [try { m } finally { f }], for a [finally] block that only changes the
    state. *)
Definition tryFinally {A} (m : M A) (f : World -> World) : M A :=
  fun w => let (c, w') := m w in (c, f w').

Declare Scope js_scope.
Delimit Scope js_scope with js.
Notation "x <- m ;; k" := (bind m (fun x => k))
  (at level 61, m at next level, right associativity) : js_scope.
Notation "m ;; k" := (bind m (fun _ => k))
  (at level 61, right associativity) : js_scope.
Open Scope js_scope.

(** ** Timeouts *)

Module Timers.

(** Pending timeouts are kept in firing order: a new one goes behind those
    that are due no later. *)
Fixpoint enqueue (tm : Timer) (ts : list Timer) : list Timer :=
  match ts with
  | [] => [tm]
  | t :: rest =>
      if tm_due t <=? tm_due tm then t :: enqueue tm rest else tm :: ts
  end.

(** [setTimeout(action, delay)]; a negative delay counts as zero. *)
Definition setTimeout (action : TimerAction) (delay : Z) (w : World)
  : positive * World :=
  let id := nextTimerId w in
  (id, withTimers (enqueue (mkTimer id (now w + Z.max 0 delay) action) (timers w))
                  (Pos.succ id) w).

(** [clearTimeout(id)] *)
Definition clearTimeout (id : positive) (w : World) : World :=
  withTimers (filter (fun t => negb (Pos.eqb (tm_id t) id)) (timers w))
             (nextTimerId w) w.

(** The body of a timeout callback. *)
Definition runAction (a : TimerAction) (w : World) : World :=
  match a with
  | HideLoading =>
      withUI (mkUI (toasts (ui w)) false (loadingTimer (ui w)) (toastId (ui w))) w
  | ExpireToast id =>
      withUI (mkUI (filter (fun x => negb (toast_id x =? id)) (toasts (ui w)))
                   (globalLoading (ui w)) (loadingTimer (ui w)) (toastId (ui w))) w
  end.

(** Run the callback of every timeout that is due by [t], in queue order. *)
Fixpoint fireDue (t : Z) (ts : list Timer) (w : World) : World :=
  match ts with
  | [] => w
  | tm :: rest =>
      if tm_due tm <=? t
      then fireDue t rest (runAction (tm_action tm) w)
      else fireDue t rest w
  end.

(** Let the clock run up to [t]: the timeouts due by then fire and leave
    the queue. *)
Definition advanceTo (t : Z) (w : World) : World :=
  let w' := fireDue t (timers w) w in
  withClock (Z.max (now w) t)
    (withTimers (filter (fun tm => negb (tm_due tm <=? t)) (timers w))
                (nextTimerId w) w').

End Timers.

(** ** [src/context/UIContext.js] *)

Module UIContext.

(** [setLoading(isLoading)] *)
Definition setLoading (isLoading : bool) (w : World) : World :=
  let w1 :=
    match loadingTimer (ui w) with
    | Some id =>
        let w' := Timers.clearTimeout id w in
        withUI (mkUI (toasts (ui w')) (globalLoading (ui w')) None (toastId (ui w'))) w'
    | None => w
    end in
  if isLoading
  then withUI (mkUI (toasts (ui w1)) true (loadingTimer (ui w1)) (toastId (ui w1))) w1
  else
    let (id, w2) := Timers.setTimeout HideLoading 150 w1 in
    withUI (mkUI (toasts (ui w2)) (globalLoading (ui w2)) (Some id) (toastId (ui w2))) w2.

(** The argument of [pushToast]; an absent field is [None]. *)
Record ToastInput : Type := mkToastInput {
  t_type : option string;
  t_title : option string;
  t_description : option string;
  t_timeoutMs : option Z
}.

(** [s || d] for an optional string. *)
Definition orElse (s : option string) (d : string) : string :=
  match s with
  | Some x => if Str.isEmpty x then d else x
  | None => d
  end.

Definition isError (s : option string) : bool :=
  match s with Some x => String.eqb x "error" | None => false end.

(** [pushToast(t)]; returns the new toast's id. *)
Definition pushToast (t : ToastInput) (w : World) : Z * World :=
  let id := toastId (ui w) + 1 in
  let toast :=
    mkToast id
            (orElse (t_type t) "info")
            (orElse (t_title t) (if isError (t_type t) then "Error" else "Notice"))
            (orElse (t_description t) EmptyString)
            (match t_timeoutMs t with Some ms => ms | None => 4500 end) in
  let w1 := withUI (mkUI (toast :: toasts (ui w)) (globalLoading (ui w))
                         (loadingTimer (ui w)) id) w in
  let w2 :=
    if toast_timeoutMs toast =? 0 then w1
    else snd (Timers.setTimeout (ExpireToast id) (toast_timeoutMs toast) w1) in
  (id, w2).

(** [removeToast(id)] *)
Definition removeToast (id : Z) (w : World) : World :=
  withUI (mkUI (filter (fun x => negb (toast_id x =? id)) (toasts (ui w)))
               (globalLoading (ui w)) (loadingTimer (ui w)) (toastId (ui w))) w.

(** The three shapes of toast the views push. *)
Definition success (title : string) : ToastInput :=
  mkToastInput (Some "success") (Some title) None None.

Definition failure (title description : string) : ToastInput :=
  mkToastInput (Some "error") (Some title) (Some description) None.

End UIContext.

(** ** [src/auth/tokenStorage.js] *)

Module TokenStorage.

(** [getToken()]: [null] when the item is absent or [localStorage] throws. *)
Definition getToken (w : World) : value :=
  if storageOk w
  then match storage w with Some s => VStr s | None => VNull end
  else VNull.

(** [setToken(token)]: the item becomes [String(token)]; a throwing
    [localStorage] is ignored. *)
Definition setToken (tok : value) (w : World) : World :=
  if storageOk w then withStorage (Some (toString tok)) w else w.

(** [clearToken()] *)
Definition clearToken (w : World) : World :=
  if storageOk w then withStorage None w else w.

End TokenStorage.

(** ** The platform

    What the sources take from their surroundings: [JSON.parse] ([None]
    when it throws a [SyntaxError]), the build-time variable
    [REACT_APP_API_BASE] ([None] when unset), and the backend behind
    [fetch], which answers a request knowing the requests issued before
    it. *)
Record Platform : Type := mkPlatform {
  JSON_parse : string -> option value;
  API_BASE : option string;
  backend : list Request -> Request -> FetchOutcome
}.

(** ** [src/api/client.js] *)

Module Client.

(** [joinUrl(base, path)] *)
Definition joinUrl (base path : string) : string :=
  if Str.isEmpty base then path
  else
    let b := if Str.endsWith base "/" then Str.dropLast base else base in
    let p := if Str.startsWith path "/" then path else "/" ++ path in
    b ++ p.

(** An object of string-valued entries, for headers. *)
Fixpoint setEntry (k v : string) (o : list (string * string))
  : list (string * string) :=
  match o with
  | [] => [(k, v)]
  | (k', v') :: rest =>
      if String.eqb k k' then (k, v) :: rest else (k', v') :: setEntry k v rest
  end.

(** [{...dst, ...src}] *)
Definition assign (dst src : list (string * string)) : list (string * string) :=
  fold_left (fun acc kv => setEntry (fst kv) (snd kv) acc) src dst.

(** The argument of [createApiClient]; both members are optional. *)
Record Options : Type := mkOptions {
  getToken : option (World -> value);
  onLoading : option (bool -> World -> World)
}.

(** The third argument of [request]. [signal] has no content here: an
    abort shows as a [NetworkError] of the backend. *)
Record RequestOptions : Type := mkRequestOptions {
  body : value;
  headers : option (list (string * string))
}.

(** [opts] left out, and [{ body }]. *)
Definition noOptions : RequestOptions := mkRequestOptions VUndefined None.
Definition withBody (b : value) : RequestOptions := mkRequestOptions b None.

(** [onLoading?.(isLoading)]: a call of the hook is logged, then made. *)
Definition signal (c : Options) (isLoading : bool) (w : World) : World :=
  match onLoading c with
  | Some hook => hook isLoading (emit (Loading isLoading) w)
  | None => w
  end.

(** The message of the error raised for a non-2xx response. *)
Definition failureMessage (status : Z) (data : value) : value :=
  Js.or
    (Js.or
       (Js.and data
          (Js.or (Js.or (Js.get data "detail") (Js.get data "message"))
                 (Js.get data "error")))
       (if isString data then data else VNull))
    (VStr ("Request failed (" ++ Str.ofZ status ++ ")")).

(** [res.ok] *)
Definition ok (status : Z) : bool := (200 <=? status) && (status <=? 299).

Section WithPlatform.

Context (P : Platform).

(** [safeJsonParse(text)] *)
Definition safeJsonParse (text : string) : value :=
  if Str.isEmpty text then VNull
  else match JSON_parse P text with
       | Some v => v
       | None => VStr text
       end.

(** [await fetch(url, init)] followed by [await res.text()]. *)
Definition fetch (r : Request) : M (Z * string) :=
  fun w =>
    match backend P (requestsOf (log w)) r with
    | NetworkError e => (Throw e, emit (Fetch r) w)
    | Response status text => (Normal (status, text), emit (Fetch r) w)
    end.

(** The first lines of [request]: the URL, the merged headers and the
    serialised body that [fetch] is called with. *)
Definition buildRequest (c : Options) (method path : string) (o : RequestOptions)
  (w : World) : Request :=
  let url :=
    joinUrl (match API_BASE P with Some b => b | None => EmptyString end) path in
  let token :=
    match getToken c with Some f => f w | None => VNull end in
  let mergedHeaders :=
    assign
      (assign
         (assign []
            (if truthy (body o) then [("Content-Type", "application/json")] else []))
         (if truthy token then [("Authorization", "Bearer " ++ toString token)] else []))
      (match headers o with Some h => h | None => [] end) in
  mkRequest method url mergedHeaders
            (if truthy (body o) then Some (body o) else None).

(** The lines of [request] after the response text has been read: parse,
    then return the data or throw the normalised error. [new Error(message)]
    converts the message to a string; when that conversion throws, its
    [TypeError] is what [request] throws, before [status] and [data] are
    attached. *)
Definition settle (res : Z * string) : M value :=
  let data := safeJsonParse (snd res) in
  if ok (fst res) then ret data
  else
    let message := failureMessage (fst res) data in
    if convertible message
    then throw (mkError (toString message) (Some (fst res)) (Some data))
    else throw (newError "Cannot convert object to primitive value").

(** [request(method, path, { body, headers, signal })] *)
Definition request (c : Options) (method path : string) (o : RequestOptions)
  : M value :=
  fun w =>
    let r := buildRequest c method path o w in
    tryFinally (res <- fetch r ;; settle res)
               (signal c false)
               (signal c true w).

(** The verbs of the client object. *)
Definition api_get (c : Options) (path : string) (o : RequestOptions) :=
  request c "GET" path o.
Definition api_post (c : Options) (path : string) (o : RequestOptions) :=
  request c "POST" path o.
Definition api_put (c : Options) (path : string) (o : RequestOptions) :=
  request c "PUT" path o.
Definition api_patch (c : Options) (path : string) (o : RequestOptions) :=
  request c "PATCH" path o.
Definition api_delete (c : Options) (path : string) (o : RequestOptions) :=
  request c "DELETE" path o.

End WithPlatform.

End Client.

(** ** Ordered fallback

    The loop every probing function of the sources writes out:
    [[
      let lastErr = null;
      for (const c of candidates) {
        try { ...body(c)...; return / break; } catch (e) { lastErr = e; }
      }
    ]]
    The body of one round either leaves the loop with a result
    ([Some r]), falls through to the next candidate ([None]), or throws,
    which the [catch] records. The loop itself never throws; it yields the
    result, if any, and the [lastErr] it ended with. *)
Fixpoint forOfTry {C R : Type} (body : C -> M (option R)) (candidates : list C)
  (lastErr : option JsError) (w : World) : (option R * option JsError) * World :=
  match candidates with
  | [] => ((None, lastErr), w)
  | c :: rest =>
      match body c w with
      | (Normal (Some r), w') => ((Some r, lastErr), w')
      | (Normal None, w') => forOfTry body rest lastErr w'
      | (Throw e, w') => forOfTry body rest (Some e) w'
      end
  end.

(** The loop as a computation. *)
Definition probe {C R : Type} (body : C -> M (option R)) (candidates : list C)
  : M (option R * option JsError) :=
  fun w => let (r, w') := forOfTry body candidates None w in (Normal r, w').

(** [lastErr || new Error(msg)] *)
Definition orError (lastErr : option JsError) (msg : string) : JsError :=
  match lastErr with Some e => e | None => newError msg end.

(** ** [src/context/AuthContext.js] *)

Module AuthContext.

(** [typeof v === "object"] *)
Definition isObjectType (v : value) : bool :=
  match v with VNull | VArr _ | VObj _ => true | _ => false end.

(** [normalizeAuthResponse(data)] *)
Definition normalizeAuthResponse (data : value) : value :=
  if truthy data && isObjectType data then
    if truthy (Js.get data "access_token") then Js.get data "access_token"
    else if truthy (Js.get data "token") then Js.get data "token"
    else if truthy (Js.get data "jwt") then Js.get data "jwt"
    else VNull
  else VNull.

Definition setTokenState (t : value) (w : World) : World :=
  withAuth (mkAuth t (user (auth w)) (initializing (auth w))) w.

Definition setUser (u : value) (w : World) : World :=
  withAuth (mkAuth (token (auth w)) u (initializing (auth w))) w.

(** [isAuthenticated: Boolean(token)] *)
Definition isAuthenticated (w : World) : bool := truthy (token (auth w)).

(** The provider's client, [createApiClient({ getToken: () => token })]. *)
Definition api : Client.Options :=
  Client.mkOptions (Some (fun w => token (auth w))) None.

(** [createApiClient({ getToken: () => jwt })] *)
Definition apiFor (jwt : value) : Client.Options :=
  Client.mkOptions (Some (fun _ => jwt)) None.

Definition meCandidates : list string :=
  ["/auth/me"; "/me"; "/users/me"; "/api/me"].

(** A login candidate: a path and the body posted to it. *)
Definition loginCandidates (email password : value) : list (string * value) :=
  [ ("/auth/login", VObj [("email", email); ("password", password)]);
    ("/login", VObj [("email", email); ("password", password)]);
    ("/token", VObj [("username", email); ("password", password)]) ].

Section WithPlatform.

Context (P : Platform).

(** [bestEffortGetMe(api)] *)
Definition bestEffortGetMe (c : Client.Options) : M value :=
  r <- probe (fun path =>
                me <- Client.api_get P c path Client.noOptions ;;
                if truthy me then ret (Some me) else ret None)
             meCandidates ;;
  match fst r with
  | Some me => ret me
  | None => ret VNull
  end.

(** One round of the loop of [login]. *)
Definition loginAttempt (c : string * value) : M (option value) :=
  data <- Client.api_post P api (fst c) (Client.withBody (snd c)) ;;
  let jwt := normalizeAuthResponse data in
  if negb (truthy jwt)
  then throw (newError "Login response did not include a token.")
  else
    modify (TokenStorage.setToken jwt) ;;
    modify (setTokenState jwt) ;;
    me <- bestEffortGetMe (apiFor jwt) ;;
    modify (setUser me) ;;
    ret (Some (VObj [("token", jwt); ("user", me)])).

(** [login] over a given candidate list. *)
Definition loginWith (candidates : list (string * value)) : M value :=
  r <- probe loginAttempt candidates ;;
  match fst r with
  | Some res => ret res
  | None => throw (orError (snd r) "Login failed.")
  end.

(** [login({ email, password })] *)
Definition login (email password : value) : M value :=
  loginWith (loginCandidates email password).

End WithPlatform.

End AuthContext.

(** ** The projects page ([ProjectsPage]) *)

Module ProjectsPage.

(** [normalizeList(data)] *)
Definition normalizeList (data : value) : list value :=
  if negb (truthy data) then []
  else
    match data with
    | VArr items => items
    | _ =>
        match Js.get data "items" with
        | VArr items => items
        | _ =>
            match Js.get data "data" with
            | VArr items => items
            | _ => []
            end
        end
    end.

(** [validateProject({ name })]. A truthy [name] that is not a string has
    no [trim] method, and the call throws a [TypeError]. *)
Definition validateProject (f : value) : Completion (list (string * string)) :=
  let name := Js.get f "name" in
  if negb (truthy name)
  then Normal [("name", "Name must be at least 2 characters.")]
  else
    match name with
    | VStr s =>
        if Str.length (Str.trim s) <? 2
        then Normal [("name", "Name must be at least 2 characters.")]
        else Normal []
    | _ => Throw (newError "name.trim is not a function")
    end.

Definition setProjects (f : list value -> list value) (w : World) : World :=
  let s := projectsPage w in
  withProjectsPage (mkProjects (f (projects s)) (selected s) (mode s) (form s) (errors s)) w.

Definition setSelected (v : value) (w : World) : World :=
  let s := projectsPage w in
  withProjectsPage (mkProjects (projects s) v (mode s) (form s) (errors s)) w.

Definition setMode (m : string) (w : World) : World :=
  let s := projectsPage w in
  withProjectsPage (mkProjects (projects s) (selected s) m (form s) (errors s)) w.

Definition setErrors (e : list (string * string)) (w : World) : World :=
  let s := projectsPage w in
  withProjectsPage (mkProjects (projects s) (selected s) (mode s) (form s) e) w.

Definition pushToast (t : UIContext.ToastInput) : M unit :=
  modify (fun w => snd (UIContext.pushToast t w)).

(** The page's client,
    [createApiClient({ getToken: () => token, onLoading: setLoading })]. *)
Definition api : Client.Options :=
  Client.mkOptions (Some (fun w => token (auth w))) (Some UIContext.setLoading).

Definition loadCandidates : list string := ["/projects"; "/api/projects"].

Section WithPlatform.

Context (P : Platform).

(** One round of the loop of [load]. *)
Definition loadAttempt (path : string) : M (option unit) :=
  data <- Client.api_get P api path Client.noOptions ;;
  modify (setProjects (fun _ => normalizeList data)) ;;
  ret (Some tt).

(** [load] over a given candidate list. *)
Definition loadWith (candidates : list string) : M unit :=
  r <- probe loadAttempt candidates ;;
  match fst r with
  | Some _ => ret tt
  | None => throw (orError (snd r) "Unable to load projects.")
  end.

(** [load()] *)
Definition load : M unit := loadWith loadCandidates.

(** [save()] *)
Definition save : M unit :=
  fun w =>
    match validateProject (form (projectsPage w)) with
    | Throw e => (Throw e, w)
    | Normal v =>
        let w1 := setErrors v w in
        if negb (Nat.eqb (List.length v) 0) then (Normal tt, w1)
        else
          tryCatch
            (if String.eqb (mode (projectsPage w)) "create" then
               created <- Client.api_post P api "/projects"
                            (Client.withBody (form (projectsPage w))) ;;
               pushToast (UIContext.success "Project created") ;;
               modify (setProjects (fun prev => filter truthy (created :: prev))) ;;
               modify (setMode "none")
             else if String.eqb (mode (projectsPage w)) "edit"
                     && negb (isNullish (Js.get (selected (projectsPage w)) "id"))
             then
               let sel := selected (projectsPage w) in
               updated <- Client.api_put P api
                            ("/projects/" ++ toString (Js.get sel "id"))
                            (Client.withBody (form (projectsPage w))) ;;
               pushToast (UIContext.success "Project updated") ;;
               modify (setProjects
                         (map (fun p => if strictEq (Js.get p "id") (Js.get sel "id")
                                        then updated else p))) ;;
               modify (setSelected updated) ;;
               modify (setMode "none")
             else ret tt)
            (fun e => pushToast (UIContext.failure "Save failed" (err_message e)))
            w1
    end.

(** [archiveOrDelete(p)]; [selected] is the state the handler was created
    with. *)
Definition archiveOrDelete (p : value) : M unit :=
  fun w0 =>
    let sel := selected (projectsPage w0) in
    let path := "/projects/" ++ toString (Js.get p "id") in
    (archived <-
       tryCatch
         (Client.api_patch P api path
            (Client.withBody (VObj [("status", VStr "archived")])) ;;
          pushToast (UIContext.success "Project archived") ;;
          modify (setProjects
                    (map (fun x => if strictEq (Js.get x "id") (Js.get p "id")
                                   then spread1 x "status" (VStr "archived") else x))) ;;
          ret true)
         (fun _ => ret false) ;;
     if (archived : bool) then ret tt
     else
       tryCatch
         (Client.api_delete P api path Client.noOptions ;;
          pushToast (UIContext.success "Project deleted") ;;
          modify (setProjects
                    (filter (fun x => negb (strictEq (Js.get x "id") (Js.get p "id"))))) ;;
          if strictEq (Js.get sel "id") (Js.get p "id")
          then modify (setSelected VNull)
          else ret tt)
         (fun e => pushToast (UIContext.failure "Action failed" (err_message e))))
      w0.

End WithPlatform.

End ProjectsPage.

(** ** The users page ([UsersPage]) *)

Module UsersPage.

(** [normalizeList(data)], the page's own copy. *)
Definition normalizeList (data : value) : list value :=
  if negb (truthy data) then []
  else
    match data with
    | VArr items => items
    | _ =>
        match Js.get data "items" with
        | VArr items => items
        | _ =>
            match Js.get data "data" with
            | VArr items => items
            | _ => []
            end
        end
    end.

Definition nonSpace (c : ascii) : bool := negb (Str.is_space c).

(** Does [s] begin with a dot and a [\S]. *)
Definition dotThenNonSpace (s : string) : bool :=
  match s with
  | String "." (String d _) => nonSpace d
  | _ => false
  end.

(** Does a match of [\S+\.\S+] begin at the start of [s]. *)
Fixpoint matchesDomain (s : string) : bool :=
  match s with
  | String c r => nonSpace c && (dotThenNonSpace r || matchesDomain r)
  | EmptyString => false
  end.

(** Is there a match of [\S+@\S+\.\S+] in [s]; [prev] tells whether the
    unit before [s] is a [\S]. *)
Fixpoint searchEmail (prev : bool) (s : string) : bool :=
  match s with
  | EmptyString => false
  | String c r =>
      (prev && Ascii.eqb c "@" && matchesDomain r) || searchEmail (nonSpace c) r
  end.

(** [/\S+@\S+\.\S+/.test(v)]; [test] converts its argument to a string. *)
Definition emailRegexTest (v : value) : bool := searchEmail false (toString v).

(** [validateUser({ email })] *)
Definition validateUser (f : value) : list (string * string) :=
  let email := Js.get f "email" in
  if negb (truthy email) || negb (emailRegexTest email)
  then [("email", "Valid email required.")]
  else [].

Definition setUsers (f : list value -> list value) (w : World) : World :=
  let s := usersPage w in
  withUsersPage (mkUsers (f (users s)) (roles s) (inviteOpen s) (inviteForm s) (userErrors s)) w.

Definition setRoles (r : list value) (w : World) : World :=
  let s := usersPage w in
  withUsersPage (mkUsers (users s) r (inviteOpen s) (inviteForm s) (userErrors s)) w.

Definition setInviteOpen (b : bool) (w : World) : World :=
  let s := usersPage w in
  withUsersPage (mkUsers (users s) (roles s) b (inviteForm s) (userErrors s)) w.

Definition setErrors (e : list (string * string)) (w : World) : World :=
  let s := usersPage w in
  withUsersPage (mkUsers (users s) (roles s) (inviteOpen s) (inviteForm s) e) w.

Definition pushToast (t : UIContext.ToastInput) : M unit :=
  modify (fun w => snd (UIContext.pushToast t w)).

(** The page's client,
    [createApiClient({ getToken: () => token, onLoading: setLoading })]. *)
Definition api : Client.Options :=
  Client.mkOptions (Some (fun w => token (auth w))) (Some UIContext.setLoading).

Definition inviteCandidates (f : value) : list (string * value) :=
  [ ("/users/invite", f); ("/invite", f); ("/users", f) ].

Section WithPlatform.

Context (P : Platform).

(** [loadUsers()] *)
Definition loadUsers : M unit :=
  r <- probe (fun path =>
                data <- Client.api_get P api path Client.noOptions ;;
                modify (setUsers (fun _ => normalizeList data)) ;;
                ret (Some tt))
             ["/users"; "/api/users"] ;;
  match fst r with
  | Some _ => ret tt
  | None => throw (orError (snd r) "Unable to load users.")
  end.

(** [loadRoles()]: failures are ignored. *)
Definition loadRoles : M unit :=
  probe (fun path =>
           data <- Client.api_get P api path Client.noOptions ;;
           modify (setRoles (normalizeList data)) ;;
           ret (Some tt))
        ["/roles"; "/api/roles"] ;;
  ret tt.

(** The part of a write handler that follows its loop: [result] is what the
    loop left in [created] / [updated], [null] when no round assigned it. *)
Definition afterLoop (r : option value * option JsError) (msg : string) : M value :=
  let result := match fst r with Some v => v | None => VNull end in
  if negb (truthy result) then throw (orError (snd r) msg) else ret result.

(** The [try] block of [submitInvite] over a given candidate list. *)
Definition inviteWith (candidates : list (string * value)) : M unit :=
  tryCatch
    (r <- probe (fun c =>
                   created <- Client.api_post P api (fst c) (Client.withBody (snd c)) ;;
                   ret (Some created))
                candidates ;;
     created <- afterLoop r "Invite failed." ;;
     pushToast (UIContext.success "User invited/created") ;;
     modify (setUsers (fun prev => filter truthy (created :: prev))) ;;
     modify (setInviteOpen false))
    (fun e => pushToast (UIContext.failure "Invite failed" (err_message e))).

(** [submitInvite()] *)
Definition submitInvite : M unit :=
  fun w =>
    let f := inviteForm (usersPage w) in
    let v := validateUser f in
    let w1 := setErrors v w in
    if negb (Nat.eqb (List.length v) 0) then (Normal tt, w1)
    else inviteWith (inviteCandidates f) w1.

(** The candidates of [updateUserRole], as the thunks the source lists. *)
Definition roleCandidates (userId roleId : value) : list (M value) :=
  [ Client.api_put P api ("/users/" ++ toString userId ++ "/role")
      (Client.withBody (VObj [("roleId", roleId)]));
    Client.api_patch P api ("/users/" ++ toString userId)
      (Client.withBody (VObj [("roleId", roleId)]));
    Client.api_post P api ("/users/" ++ toString userId ++ "/roles")
      (Client.withBody (VObj [("roleId", roleId)])) ].

(** The [try] block of [updateUserRole] over a given candidate list. *)
Definition updateRoleWith (userId : value) (candidates : list (M value)) : M unit :=
  tryCatch
    (r <- probe (fun fn => updated <- fn ;; ret (Some updated)) candidates ;;
     updated <- afterLoop r "Role update failed." ;;
     pushToast (UIContext.success "Role updated") ;;
     modify (setUsers (map (fun u => if strictEq (Js.get u "id") userId
                                     then updated else u))))
    (fun e => pushToast (UIContext.failure "Update failed" (err_message e))).

(** [updateUserRole(userId, roleId)] *)
Definition updateUserRole (userId roleId : value) : M unit :=
  updateRoleWith userId (roleCandidates userId roleId).

End WithPlatform.

End UsersPage.

(** ** Vocabulary of the statements *)

(** The calls [call c], made for the candidates [cs] in order, one after
    the other and each once, all throw: the run ends with the last error
    caught and the world the last call left; [None] when some call
    returns. *)
Fixpoint allThrow {C A : Type} (call : C -> M A) (cs : list C)
  (lastErr : option JsError) (w : World) : option (option JsError * World) :=
  match cs with
  | [] => Some (lastErr, w)
  | c :: rest =>
      match call c w with
      | (Throw e, w') => allThrow call rest (Some e) w'
      | (Normal _, _) => None
      end
  end.

(** The request the projects page sends for a [GET] of [path], and the one
    the users page sends for a [POST] of the candidate [c], from the state
    [w]. *)
Definition sentByGet (P : Platform) (w : World) (path : string) : Request :=
  Client.buildRequest P ProjectsPage.api "GET" path Client.noOptions w.

Definition sentByPost (P : Platform) (w : World) (c : string * value) : Request :=
  Client.buildRequest P UsersPage.api "POST" (fst c) (Client.withBody (snd c)) w.

(** The call that one round of a loop makes for its candidate: the GET of
    [load], the POST of [submitInvite], the POST of [login]. *)
Definition getCall (P : Platform) (path : string) : M value :=
  Client.api_get P ProjectsPage.api path Client.noOptions.

Definition inviteCall (P : Platform) (c : string * value) : M value :=
  Client.api_post P UsersPage.api (fst c) (Client.withBody (snd c)).

Definition loginCall (P : Platform) (c : string * value) : M value :=
  Client.api_post P AuthContext.api (fst c) (Client.withBody (snd c)).

(** What a call of [request] completes with, given how the [fetch]
    settled. *)
Definition requestResult (P : Platform) (o : FetchOutcome) : Completion value :=
  match o with
  | NetworkError e => Throw e
  | Response status text =>
      if Client.ok status then Normal (Client.safeJsonParse P text)
      else if convertible (Client.failureMessage status (Client.safeJsonParse P text))
      then Throw (mkError
                    (toString (Client.failureMessage status (Client.safeJsonParse P text)))
                    (Some status) (Some (Client.safeJsonParse P text)))
      else Throw (newError "Cannot convert object to primitive value")
  end.

(** The message of a failed request, as a priority list: the first truthy
    of the body's [detail], [message] and [error] fields, else the parsed
    body when it is a non-empty string, else the generic text. *)
Definition messageByPriority (status : Z) (data : value) : value :=
  if truthy (Js.get data "detail") then Js.get data "detail"
  else if truthy (Js.get data "message") then Js.get data "message"
  else if truthy (Js.get data "error") then Js.get data "error"
  else if isString data && truthy data then data
  else VStr ("Request failed (" ++ Str.ofZ status ++ ")").

(** The message as the specification words it: the [detail] field, else
    the [message] field, else the [error] field, else the raw text when
    the body was not JSON, else the generic text. *)
Definition messageAsSpecified (P : Platform) (status : Z) (text : string) : value :=
  let data := Client.safeJsonParse P text in
  if truthy (Js.get data "detail") then Js.get data "detail"
  else if truthy (Js.get data "message") then Js.get data "message"
  else if truthy (Js.get data "error") then Js.get data "error"
  else
    match JSON_parse P text with
    | None => if Str.isEmpty text
              then VStr ("Request failed (" ++ Str.ofZ status ++ ")")
              else VStr text
    | Some _ => VStr ("Request failed (" ++ Str.ofZ status ++ ")")
    end.

(** Two worlds that differ at most in the log, the timeouts and the
    loading indicator: what a request of a page's client may touch. *)
Definition sameData (w w' : World) : Prop :=
  now w' = now w /\ storageOk w' = storageOk w /\ storage w' = storage w /\
  toasts (ui w') = toasts (ui w) /\ toastId (ui w') = toastId (ui w) /\
  auth w' = auth w /\ projectsPage w' = projectsPage w /\
  usersPage w' = usersPage w.

(** *** The loading indicator over time *)

Module LoadingSignal.

Definition isHide (tm : Timer) : bool :=
  match tm_action tm with HideLoading => true | ExpireToast _ => false end.

(** When the pending hide timeouts are due. *)
Definition pendingHide (w : World) : list Z :=
  map tm_due (filter isHide (timers w)).

(** Every pending hide timeout is the one the [loadingTimer] ref holds. *)
Definition timerInv (w : World) : Prop :=
  forall tm, In tm (timers w) -> isHide tm = true ->
             loadingTimer (ui w) = Some (tm_id tm).

(** The hook calls of a schedule, made at their times: the clock runs up
    to the time of a call, then [setLoading] is called. *)
Fixpoint run (schedule : list (Z * bool)) (w : World) : World :=
  match schedule with
  | [] => w
  | (t, isLoading) :: rest =>
      run rest (UIContext.setLoading isLoading (Timers.advanceTo t w))
  end.

(** [globalLoading] at time [t], after the calls of the schedule up to
    [t]. *)
Definition signalAt (schedule : list (Z * bool)) (t : Z) (w : World) : bool :=
  globalLoading
    (ui (Timers.advanceTo t (run (filter (fun c => fst c <=? t) schedule) w))).

(** The hook calls of two requests, the first over [[s1, e1]] and the
    second over [[s2, e2]], in time order. *)
Definition twoRequests (s1 e1 s2 e2 : Z) : list (Z * bool) :=
  if e1 <=? s2
  then [(s1, true); (e1, false); (s2, true); (e2, false)]
  else if e1 <=? e2
       then [(s1, true); (s2, true); (e1, false); (e2, false)]
       else [(s1, true); (s2, true); (e2, false); (e1, false)].

(** What the indicator depends on: its state, when the pending hide
    timeouts are due, and the clock. *)
Record View : Type := mkView {
  on : bool;
  hides : list Z;
  clock : Z
}.

Definition view (w : World) : View :=
  mkView (globalLoading (ui w)) (pendingHide w) (now w).

(** The clock running up to [t], on a view. *)
Definition elapse (t : Z) (v : View) : View :=
  mkView (if existsb (fun d => d <=? t) (hides v) then false else on v)
         (filter (fun d => negb (d <=? t)) (hides v))
         (Z.max (clock v) t).

(** A call of [setLoading], on a view. *)
Definition call (isLoading : bool) (v : View) : View :=
  if isLoading then mkView true [] (clock v)
  else mkView (on v) [clock v + 150] (clock v).

Fixpoint runView (schedule : list (Z * bool)) (v : View) : View :=
  match schedule with
  | [] => v
  | (t, isLoading) :: rest => runView rest (call isLoading (elapse t v))
  end.

(** How many of the requests [(start, finish)] are in flight at [t]. *)
Definition inFlight (requests : list (Z * Z)) (t : Z) : nat :=
  List.length (filter (fun r => (fst r <=? t) && (t <? snd r)) requests).

End LoadingSignal.

(** *** A concrete platform and world *)

Module Example.

Definition quote : string := String (ascii_of_nat 34) EmptyString.

(** The body texts of the examples and what [JSON.parse] makes of them. *)
Definition tokenText : string :=
  "{" ++ quote ++ "access_token" ++ quote ++ ":" ++ quote ++ "abc" ++ quote ++ "}".
Definition oopsText : string := quote ++ "oops" ++ quote.
Definition detailText : string :=
  "{" ++ quote ++ "detail" ++ quote ++ ":" ++ quote ++ "Nope" ++ quote ++ "}".
Definition userText : string :=
  "{" ++ quote ++ "id" ++ quote ++ ":9}".

Definition parse (text : string) : option value :=
  if String.eqb text tokenText then Some (VObj [("access_token", VStr "abc")])
  else if String.eqb text oopsText then Some (VStr "oops")
  else if String.eqb text detailText then Some (VObj [("detail", VStr "Nope")])
  else if String.eqb text userText then Some (VObj [("id", VNum 9)])
  else if String.eqb text "{}" then Some (VObj [])
  else if String.eqb text "[1,2]" then Some (VArr [VNum 1; VNum 2])
  else if String.eqb text "null" then Some VNull
  else None.

(** A backend that knows [/api/projects], [/login], [/invite] and
    [/users/7], answers [/projects] with a 500 whose body is a JSON string,
    [/auth/login] with an empty object, and everything else with a 404
    page. *)
Definition server (history : list Request) (r : Request) : FetchOutcome :=
  if String.eqb (req_url r) "/projects" then Response 500 oopsText
  else if String.eqb (req_url r) "/api/projects" then Response 200 "[1,2]"
  else if String.eqb (req_url r) "/invite" then Response 201 userText
  else if String.eqb (req_url r) "/users/7" then Response 200 userText
  else if String.eqb (req_url r) "/auth/login" then Response 200 "{}"
  else if String.eqb (req_url r) "/login" then Response 200 tokenText
  else Response 404 "Not Found".

Definition platform : Platform := mkPlatform parse None server.

(** A backend on which every request fails with a 503 and a [detail]. *)
Definition down (history : list Request) (r : Request) : FetchOutcome :=
  Response 503 detailText.

Definition platformDown : Platform := mkPlatform parse None down.

(** A backend that answers every request with 204 and no content. *)
Definition noContent (history : list Request) (r : Request) : FetchOutcome :=
  Response 204 EmptyString.

Definition platformNoContent : Platform := mkPlatform parse None noContent.

(** A backend that answers 204 with no content, but does not know
    [/users/invite] nor a role route under [/users/7/role]. *)
Definition partial (history : list Request) (r : Request) : FetchOutcome :=
  if String.eqb (req_url r) "/users/invite" then Response 404 "Not Found"
  else if String.eqb (req_url r) "/users/7/role" then Response 404 "Not Found"
  else Response 204 EmptyString.

Definition platformPartial : Platform := mkPlatform parse None partial.

Definition projectForm (name : string) : value :=
  VObj [("name", VStr name); ("description", VStr "x"); ("status", VStr "active")].

Definition project7 : value :=
  VObj [("id", VNum 7); ("name", VStr "Apollo"); ("status", VStr "active")].

(** The console right after start: nothing logged, nobody signed in, one
    project listed, the create form holding [name], the invite form
    filled in. *)
Definition world (name : string) : World :=
  mkWorld 0 [] 1%positive [] true None
          (mkUI [] false None 0)
          (mkAuth VNull VNull false)
          (mkProjects [project7] VNull "create" (projectForm name) [])
          (mkUsers [] [] true
                   (VObj [("email", VStr "ann@corp.io"); ("name", VStr "Ann");
                          ("roleId", VStr "2")]) []).

End Example.

(** ** The rest of the console

    The functions of the same sources that the statements above do not
    reach: the other operations of the auth provider, the form handlers of
    the login and registration pages, the remaining handlers of the
    projects and users pages, and the loaders and write handlers of the roles
    page. *)

(** *** The auth provider, continued ([context/AuthContext.js]) *)

Module AuthProvider.

Definition setInitializing (b : bool) (w : World) : World :=
  withAuth (mkAuth (token (auth w)) (user (auth w)) b) w.

Definition registerCandidates (name email password : value)
  : list (string * value) :=
  [ ("/auth/register",
     VObj [("name", name); ("email", email); ("password", password)]);
    ("/register",
     VObj [("name", name); ("email", email); ("password", password)]);
    ("/auth/signup",
     VObj [("name", name); ("email", email); ("password", password)]) ].

Section WithPlatform.

Context (P : Platform).

(** One round of the loop of [register]. *)
Definition registerAttempt (c : string * value) : M (option value) :=
  data <- Client.api_post P AuthContext.api (fst c) (Client.withBody (snd c)) ;;
  let jwt := AuthContext.normalizeAuthResponse data in
  (if truthy jwt
   then
     modify (TokenStorage.setToken jwt) ;;
     modify (AuthContext.setTokenState jwt) ;;
     me <- AuthContext.bestEffortGetMe P (AuthContext.apiFor jwt) ;;
     modify (AuthContext.setUser me)
   else ret tt) ;;
  ret (Some (VObj [("token", Js.or jwt VNull); ("user", VNull)])).

(** [register] over a given candidate list. *)
Definition registerWith (candidates : list (string * value)) : M value :=
  r <- probe registerAttempt candidates ;;
  match fst r with
  | Some res => ret res
  | None => throw (orError (snd r) "Registration failed.")
  end.

(** [register({ name, email, password })] *)
Definition register (name email password : value) : M value :=
  registerWith (registerCandidates name email password).

(** [logout()] *)
Definition logout : M unit :=
  modify TokenStorage.clearToken ;;
  modify (AuthContext.setTokenState VNull) ;;
  modify (AuthContext.setUser VNull).

(** [init()], the effect that runs when the provider mounts and when the
    token changes; the run is not cancelled. *)
Definition init : M unit :=
  fun w =>
    tryFinally
      (if negb (truthy (token (auth w)))
       then modify (AuthContext.setUser VNull)
       else
         me <- AuthContext.bestEffortGetMe P AuthContext.api ;;
         modify (AuthContext.setUser me))
      (setInitializing false)
      (setInitializing true w).

End WithPlatform.

End AuthProvider.

(** *** The login page ([pages/LoginPage.js]) *)

Module LoginPage.

(** The states of the page, and where [navigate] was last sent. *)
Record State : Type := mkState {
  email : string;
  password : string;
  submitting : bool;
  formError : string;
  location : option string
}.

Definition setFormError (e : string) (s : State) : State :=
  mkState (email s) (password s) (submitting s) e (location s).

Definition setSubmitting (b : bool) (s : State) : State :=
  mkState (email s) (password s) b (formError s) (location s).

Definition navigate (to : string) (s : State) : State :=
  mkState (email s) (password s) (submitting s) (formError s) (Some to).

(** [emailValid], the regex test of the address. *)
Definition emailValid (s : State) : bool :=
  UsersPage.searchEmail false (email s).

(** [err.message || "Please try again."] *)
Definition messageOr (e : JsError) (fallback : string) : string :=
  if Str.isEmpty (err_message e) then fallback else err_message e.

Section WithPlatform.

Context (P : Platform).

(** [onSubmit(e)] *)
Definition onSubmit (s : State) (w : World) : State * World :=
  let s1 := setFormError EmptyString s in
  if negb (emailValid s)
  then (setFormError "Please enter a valid email address." s1, w)
  else if Str.isEmpty (password s) || (Str.length (password s) <? 6)
  then (setFormError "Password must be at least 6 characters." s1, w)
  else
    let s2 := setSubmitting true s1 in
    match AuthContext.login P (VStr (email s)) (VStr (password s)) w with
    | (Normal _, w') =>
        (setSubmitting false (navigate "/projects" s2),
         snd (UIContext.pushToast
                (UIContext.mkToastInput (Some "success") (Some "Welcome back")
                   (Some "Signed in successfully.") None) w'))
    | (Throw err, w') =>
        (setSubmitting false s2,
         snd (UIContext.pushToast
                (UIContext.failure "Login failed" (messageOr err "Please try again."))
                w'))
    end.

End WithPlatform.

End LoginPage.

(** *** The registration page ([pages/RegisterPage.js]) *)

Module RegisterPage.

Record State : Type := mkState {
  name : string;
  email : string;
  password : string;
  submitting : bool;
  formError : string;
  location : option string
}.

Definition setFormError (e : string) (s : State) : State :=
  mkState (name s) (email s) (password s) (submitting s) e (location s).

Definition setSubmitting (b : bool) (s : State) : State :=
  mkState (name s) (email s) (password s) b (formError s) (location s).

Definition navigate (to : string) (s : State) : State :=
  mkState (name s) (email s) (password s) (submitting s) (formError s) (Some to).

Definition emailValid (s : State) : bool :=
  UsersPage.searchEmail false (email s).

Section WithPlatform.

Context (P : Platform).

(** [onSubmit(e)] *)
Definition onSubmit (s : State) (w : World) : State * World :=
  let s1 := setFormError EmptyString s in
  if Str.isEmpty (name s) || (Str.length (Str.trim (name s)) <? 2)
  then (setFormError "Please enter your name." s1, w)
  else if negb (emailValid s)
  then (setFormError "Please enter a valid email address." s1, w)
  else if Str.isEmpty (password s) || (Str.length (password s) <? 8)
  then (setFormError "Password must be at least 8 characters." s1, w)
  else
    let s2 := setSubmitting true s1 in
    match AuthProvider.register P (VStr (Str.trim (name s))) (VStr (email s))
            (VStr (password s)) w with
    | (Normal _, w') =>
        (setSubmitting false (navigate "/login" s2),
         snd (UIContext.pushToast
                (UIContext.mkToastInput (Some "success") (Some "Account created")
                   (Some "You can now sign in.") None) w'))
    | (Throw err, w') =>
        (setSubmitting false s2,
         snd (UIContext.pushToast
                (UIContext.failure "Registration failed"
                   (LoginPage.messageOr err "Please try again."))
                w'))
    end.

End WithPlatform.

End RegisterPage.

(** *** The projects page, continued *)

Module ProjectsForm.

Definition setForm (f : value) (w : World) : World :=
  let s := projectsPage w in
  withProjectsPage (mkProjects (projects s) (selected s) (mode s) f (errors s)) w.

(** [startCreate()] *)
Definition startCreate (w : World) : World :=
  ProjectsPage.setErrors []
    (setForm (VObj [("name", VStr EmptyString); ("description", VStr EmptyString);
                    ("status", VStr "active")])
       (ProjectsPage.setSelected VNull (ProjectsPage.setMode "create" w))).

(** [startEdit(p)] *)
Definition startEdit (p : value) (w : World) : World :=
  ProjectsPage.setErrors []
    (setForm (VObj [("name", Js.or (Js.get p "name") (VStr EmptyString));
                    ("description", Js.or (Js.get p "description") (VStr EmptyString));
                    ("status", Js.or (Js.get p "status") (VStr "active"))])
       (ProjectsPage.setSelected p (ProjectsPage.setMode "edit" w))).

End ProjectsForm.

(** *** The users page, continued *)

Module UsersForm.

Definition setInviteForm (f : value) (w : World) : World :=
  let s := usersPage w in
  withUsersPage (mkUsers (users s) (roles s) (inviteOpen s) f (userErrors s)) w.

(** [openInvite()] *)
Definition openInvite (w : World) : World :=
  let first := match roles (usersPage w) with r :: _ => r | [] => VUndefined end in
  UsersPage.setErrors []
    (setInviteForm
       (VObj [("email", VStr EmptyString); ("name", VStr EmptyString);
              ("roleId", if truthy (Js.get first "id")
                         then VStr (toString (Js.get first "id"))
                         else VStr EmptyString)])
       (UsersPage.setInviteOpen true w)).

End UsersForm.

(** *** The roles page: its two loaders and its two write handlers

    [selectedRole], [rolePerms] and [assignUserId] are states the write
    handlers only read: they are arguments here, [rolePerms] as the
    entries that [Object.entries] lists. *)

Module RolesPage.

Definition pushToast (t : UIContext.ToastInput) : M unit :=
  modify (fun w => snd (UIContext.pushToast t w)).

(** The page's client,
    [createApiClient({ getToken: () => token, onLoading: setLoading })]. *)
Definition api : Client.Options :=
  Client.mkOptions (Some (fun w => token (auth w))) (Some UIContext.setLoading).

(** [normalizeList(data)], the page's own copy. *)
Definition normalizeList (data : value) : list value :=
  if negb (truthy data) then []
  else
    match data with
    | VArr items => items
    | _ =>
        match Js.get data "items" with
        | VArr items => items
        | _ =>
            match Js.get data "data" with
            | VArr items => items
            | _ => []
            end
        end
    end.

(** [if (!ok) throw lastErr || new Error(msg)], after a loop that sets
    [ok] in the round that returns. *)
Definition okOrThrow (r : option unit * option JsError) (msg : string) : M unit :=
  match fst r with
  | Some _ => ret tt
  | None => throw (orError (snd r) msg)
  end.

(** The loop over candidates that are thunks: [await fn(); ok = true;
    break]. *)
Definition firstOk (candidates : list (M value)) : M (option unit * option JsError) :=
  probe (fun fn => fn ;; ret (Some tt)) candidates.

Section WithPlatform.

Context (P : Platform).

(** [loadRoles()] of the roles page. [roles] and [users] are states of
    the page that its two loaders set: their setters are arguments
    here. *)
Definition loadRoles (setRoles : list value -> World -> World) : M unit :=
  r <- probe (fun path =>
                data <- Client.api_get P api path Client.noOptions ;;
                modify (setRoles (normalizeList data)) ;;
                ret (Some tt))
             ["/roles"; "/api/roles"] ;;
  match fst r with
  | Some _ => ret tt
  | None => throw (orError (snd r) "Unable to load roles.")
  end.

(** [loadUsers()] of the roles page: failures are ignored. *)
Definition loadUsers (setUsers : list value -> World -> World) : M unit :=
  probe (fun path =>
           data <- Client.api_get P api path Client.noOptions ;;
           modify (setUsers (normalizeList data)) ;;
           ret (Some tt))
        ["/users"; "/api/users"] ;;
  ret tt.

Definition permissionCandidates (selectedRole : value) (keys : list string)
  : list (M value) :=
  [ Client.api_put P api ("/roles/" ++ toString (Js.get selectedRole "id") ++ "/permissions")
      (Client.withBody (VObj [("permissions", VArr (map VStr keys))]));
    Client.api_patch P api ("/roles/" ++ toString (Js.get selectedRole "id"))
      (Client.withBody (VObj [("permissions", VArr (map VStr keys))])) ].

(** The [try] statement of [savePermissions] over a given candidate
    list. *)
Definition saveWith (candidates : list (M value)) : M unit :=
  tryCatch
    (r <- firstOk candidates ;;
     okOrThrow r "Save failed." ;;
     pushToast (UIContext.success "Permissions saved"))
    (fun e => pushToast (UIContext.failure "Save failed" (err_message e))).

(** [savePermissions()] *)
Definition savePermissions (selectedRole : value) (rolePerms : list (string * value))
  : M unit :=
  if negb (truthy (Js.get selectedRole "id")) then ret tt
  else
    let keys := map fst (filter (fun kv => truthy (snd kv)) rolePerms) in
    saveWith (permissionCandidates selectedRole keys).

Definition assignCandidates (selectedRole assignUserId : value) : list (M value) :=
  [ Client.api_post P api ("/users/" ++ toString assignUserId ++ "/roles")
      (Client.withBody (VObj [("roleId", Js.get selectedRole "id")]));
    Client.api_put P api ("/users/" ++ toString assignUserId ++ "/role")
      (Client.withBody (VObj [("roleId", Js.get selectedRole "id")]));
    Client.api_patch P api ("/users/" ++ toString assignUserId)
      (Client.withBody (VObj [("roleId", Js.get selectedRole "id")])) ].

(** The [try] statement of [assignRoleToUser] over a given candidate
    list. *)
Definition assignWith (candidates : list (M value)) : M unit :=
  tryCatch
    (r <- firstOk candidates ;;
     okOrThrow r "Assign failed." ;;
     pushToast (UIContext.success "Role assigned"))
    (fun e => pushToast (UIContext.failure "Assign failed" (err_message e))).

(** [assignRoleToUser()] *)
Definition assignRoleToUser (selectedRole assignUserId : value) : M unit :=
  if negb (truthy (Js.get selectedRole "id")) || negb (truthy assignUserId)
  then ret tt
  else assignWith (assignCandidates selectedRole assignUserId).

End WithPlatform.

End RolesPage.

(** *** The route guard ([routes/ProtectedRoute.js]) *)

Module Routes.

(** What the guard renders. *)
Inductive View : Type :=
| LoadingSession              (* the card [Loading session...] *)
| NavigateTo (to : string)    (* [<Navigate to=... replace />] *)
| Outlet.                     (* the child routes *)

(** [ProtectedRoute()] *)
Definition ProtectedRoute (w : World) : View :=
  if initializing (auth w) then LoadingSession
  else if negb (AuthContext.isAuthenticated w) then NavigateTo "/login"
  else Outlet.

End Routes.

(** *** Vocabulary of the further statements *)

(** The toasts on display have distinct ids, none above the counter. *)
Definition toastsWellFormed (w : World) : Prop :=
  NoDup (map toast_id (toasts (ui w))) /\
  Forall (fun t => toast_id t <= toastId (ui w)) (toasts (ui w)).

(** One round of the loop of [bestEffortGetMe]. *)
Definition meRound (P : Platform) (c : Client.Options) (path : string)
  : M (option value) :=
  me <- Client.api_get P c path Client.noOptions ;;
  if truthy me then ret (Some me) else ret None.

(** No unit of [s] is white space: [s] is a run of [\S]. *)
Fixpoint allNonSpace (s : string) : bool :=
  match s with
  | EmptyString => true
  | String c r => UsersPage.nonSpace c && allNonSpace r
  end.

(** The log of [w'] continues the log of [w]. *)
Definition grows (w w' : World) : Prop :=
  exists more, log w' = (log w ++ more)%list.

(** The ids of the toasts on display. *)
Definition toastIds (w : World) : list Z := map toast_id (toasts (ui w)).

(** No pending timeout is set to expire a toast that is yet to be pushed. *)
Definition expiryWellFormed (w : World) : Prop :=
  forall tm id, In tm (timers w) -> tm_action tm = ExpireToast id ->
                id <= toastId (ui w).

(** The [Authorization] and [Content-Type] entries of a header object. *)
Fixpoint header (k : string) (o : list (string * string)) : option string :=
  match o with
  | [] => None
  | (k', v) :: rest => if String.eqb k k' then Some v else header k rest
  end.

(** [w'] shows the toasts of [w] and one more in front of them, with the
    default lifetime. *)
Definition pushed (w w' : World) (type title description : string) : Prop :=
  toasts (ui w') =
    mkToast (toastId (ui w) + 1) type title description 4500 :: toasts (ui w)
  /\ toastId (ui w') = toastId (ui w) + 1.

(** An object, as every entry of a list the views render has to be. *)
Definition isRecord (v : value) : bool :=
  match v with VObj _ => true | _ => false end.

(** How the backend settles the request [r] when it comes after the
    requests logged in [w]. *)
Definition answer (P : Platform) (w : World) (r : Request) : Completion value :=
  requestResult P (backend P (requestsOf (log w)) r).

(** The GET that one round of [bestEffortGetMe] makes with the client
    [c]. *)
Definition meCall (P : Platform) (c : Client.Options) (path : string) : M value :=
  Client.api_get P c path Client.noOptions.

(** The calls [call c], made for the candidates [cs] in order, one after
    the other and each once, all miss: each throws or returns a falsy
    value. The run ends in the world the last call left; [None] when some
    call returns a truthy value. *)
Fixpoint allMiss {C : Type} (call : C -> M value) (cs : list C) (w : World)
  : option World :=
  match cs with
  | [] => Some w
  | c :: rest =>
      match call c w with
      | (Throw _, w') => allMiss call rest w'
      | (Normal v, w') => if truthy v then None else allMiss call rest w'
      end
  end.

(** Further backends for the examples. *)
Module Backends.

(** A backend that deletes but does not know PATCH, nor anything else. *)
Definition deleteOnly (history : list Request) (r : Request) : FetchOutcome :=
  if String.eqb (req_method r) "DELETE" then Response 204 EmptyString
  else Response 405 "Method Not Allowed".

Definition platformDeleteOnly : Platform :=
  mkPlatform Example.parse None deleteOnly.

(** A backend that does not know [/auth/me], answers [/me] with [null]
    and [/users/me] with the user, and knows nothing else. *)
Definition profiles (history : list Request) (r : Request) : FetchOutcome :=
  if String.eqb (req_url r) "/me" then Response 200 "null"
  else if String.eqb (req_url r) "/users/me" then Response 200 Example.userText
  else Response 404 "Not Found".

Definition platformProfiles : Platform :=
  mkPlatform Example.parse None profiles.

(** A backend whose 422 holds an object where a text is expected: the
    body is the JSON text of an object with the field [detail], itself an
    object with the field [toString]. *)
Definition oddText : string :=
  "{" ++ Example.quote ++ "detail" ++ Example.quote ++ ":{"
      ++ Example.quote ++ "toString" ++ Example.quote ++ ":1}}".

Definition parseOdd (text : string) : option value :=
  if String.eqb text oddText
  then Some (VObj [("detail", VObj [("toString", VNum 1)])])
  else Example.parse text.

Definition odd (history : list Request) (r : Request) : FetchOutcome :=
  Response 422 oddText.

Definition platformOdd : Platform := mkPlatform parseOdd None odd.

End Backends.

(** What a computation of the auth provider may change: the session and
    the token storage, and the log, which it may only extend; never the
    toasts, the loading indicator or the pages. *)
Definition sessionOnly (w w' : World) : Prop :=
  ui w' = ui w /\ projectsPage w' = projectsPage w /\ usersPage w' = usersPage w /\
  grows w w'.

(** The session and the stored token are the same in both worlds. *)
Definition sameSession (w w' : World) : Prop :=
  auth w' = auth w /\ storage w' = storage w.

(** * Properties *)

Open Scope list_scope.

(** ** Logs and frames *)

Lemma requestsOf_app (l1 l2 : list Event) :
  requestsOf (l1 ++ l2) = requestsOf l1 ++ requestsOf l2.
Proof.
  induction l1 as [|[r|b] l1 IH]; simpl; [reflexivity| |assumption].
  now rewrite IH.
Qed.

Lemma signalsOf_app (l1 l2 : list Event) :
  signalsOf (l1 ++ l2) = signalsOf l1 ++ signalsOf l2.
Proof.
  induction l1 as [|[r|b] l1 IH]; simpl; [reflexivity|assumption|].
  now rewrite IH.
Qed.

Lemma sameData_refl (w : World) : sameData w w.
Proof. unfold sameData; repeat split. Qed.

Lemma sameData_trans (w1 w2 w3 : World) :
  sameData w1 w2 -> sameData w2 w3 -> sameData w1 w3.
Proof.
  unfold sameData.
  intros (a1 & a2 & a3 & a4 & a5 & a6 & a7 & a8) (b1 & b2 & b3 & b4 & b5 & b6 & b7 & b8).
  repeat split; congruence.
Qed.

Lemma sameData_usersPage (w w' : World) : sameData w w' -> usersPage w' = usersPage w.
Proof. intros H; apply H. Qed.

Lemma sameData_projectsPage (w w' : World) :
  sameData w w' -> projectsPage w' = projectsPage w.
Proof. intros H; apply H. Qed.

Lemma sameData_toasts (w w' : World) :
  sameData w w' -> toasts (ui w') = toasts (ui w) /\ toastId (ui w') = toastId (ui w).
Proof. intros H; split; apply H. Qed.

Lemma sameData_auth (w w' : World) : sameData w w' -> auth w' = auth w.
Proof. intros H; apply H. Qed.

Lemma emit_log (e : Event) (w : World) : log (emit e w) = log w ++ [e].
Proof. reflexivity. Qed.

Lemma emit_sameData (e : Event) (w : World) : sameData w (emit e w).
Proof. unfold sameData; repeat split. Qed.

Lemma setLoading_log (b : bool) (w : World) :
  log (UIContext.setLoading b w) = log w.
Proof.
  unfold UIContext.setLoading.
  destruct (loadingTimer (ui w)), b; reflexivity.
Qed.

Lemma setLoading_sameData (b : bool) (w : World) :
  sameData w (UIContext.setLoading b w).
Proof.
  unfold sameData, UIContext.setLoading.
  destruct (loadingTimer (ui w)), b; simpl; repeat split.
Qed.

Lemma pushToast_log (t : UIContext.ToastInput) (w : World) :
  log (snd (UIContext.pushToast t w)) = log w.
Proof.
  unfold UIContext.pushToast; simpl.
  destruct (_ =? 0); reflexivity.
Qed.

Lemma pushToast_toasts (t : UIContext.ToastInput) (w : World) :
  toasts (ui (snd (UIContext.pushToast t w))) =
    mkToast (toastId (ui w) + 1)
            (UIContext.orElse (UIContext.t_type t) "info")
            (UIContext.orElse (UIContext.t_title t)
               (if UIContext.isError (UIContext.t_type t) then "Error" else "Notice"))
            (UIContext.orElse (UIContext.t_description t) EmptyString)
            (match UIContext.t_timeoutMs t with Some ms => ms | None => 4500 end)
    :: toasts (ui w)
  /\ toastId (ui (snd (UIContext.pushToast t w))) = toastId (ui w) + 1.
Proof.
  unfold UIContext.pushToast; simpl.
  destruct (_ =? 0); split; reflexivity.
Qed.

Lemma pushToast_pages (t : UIContext.ToastInput) (w : World) :
  projectsPage (snd (UIContext.pushToast t w)) = projectsPage w /\
  usersPage (snd (UIContext.pushToast t w)) = usersPage w /\
  auth (snd (UIContext.pushToast t w)) = auth w.
Proof.
  unfold UIContext.pushToast; simpl.
  destruct (_ =? 0); repeat split.
Qed.

Lemma orElse_description (s : string) :
  UIContext.orElse (Some s) EmptyString = s.
Proof. destruct s; reflexivity. Qed.

(** ** The client *)

Section ClientFacts.

Context (P : Platform).

(** [request] in closed form: the hook is called, the request built from
    the state before the call is sent, the hook is called again, and the
    completion is decided by how the [fetch] settled. *)
Lemma request_eq (c : Client.Options) (method path : string)
  (o : Client.RequestOptions) (w : World) :
  Client.request P c method path o w =
    (requestResult P
       (backend P (requestsOf (log (Client.signal c true w)))
                (Client.buildRequest P c method path o w)),
     Client.signal c false
       (emit (Fetch (Client.buildRequest P c method path o w))
             (Client.signal c true w))).
Proof.
  unfold Client.request, tryFinally, bind, Client.fetch, Client.settle, requestResult.
  destruct (backend P _ _) as [e|status text]; simpl; [reflexivity|].
  destruct (Client.ok status); [reflexivity|].
  destruct (convertible _); reflexivity.
Qed.

(** A client without a hook logs the [fetch] and nothing else. *)
Lemma request_no_hook (g : option (World -> value)) (method path : string)
  (o : Client.RequestOptions) (w : World) :
  snd (Client.request P (Client.mkOptions g None) method path o w) =
    emit (Fetch (Client.buildRequest P (Client.mkOptions g None) method path o w)) w.
Proof. rewrite request_eq; reflexivity. Qed.

(** The request a page's client sends depends on the state through the
    token only. *)
Lemma buildRequest_auth (method path : string) (o : Client.RequestOptions)
  (w w' : World) :
  auth w' = auth w ->
  Client.buildRequest P ProjectsPage.api method path o w' =
    Client.buildRequest P ProjectsPage.api method path o w.
Proof. intros H; unfold Client.buildRequest; simpl; now rewrite H. Qed.

Lemma page_signal (b : bool) (w : World) :
  Client.signal ProjectsPage.api b w = UIContext.setLoading b (emit (Loading b) w).
Proof. reflexivity. Qed.

(** What a request of a page's client leaves behind: its three events in
    the log, and the data of the console as it was. *)
Lemma page_request_log (method path : string) (o : Client.RequestOptions) (w : World) :
  log (snd (Client.request P ProjectsPage.api method path o w)) =
    log w ++ [Loading true;
              Fetch (Client.buildRequest P ProjectsPage.api method path o w);
              Loading false].
Proof.
  rewrite request_eq; cbn [snd].
  rewrite !page_signal, setLoading_log, !emit_log, setLoading_log, emit_log.
  rewrite <- !app_assoc; reflexivity.
Qed.

Lemma page_request_sameData (method path : string) (o : Client.RequestOptions)
  (w : World) :
  sameData w (snd (Client.request P ProjectsPage.api method path o w)).
Proof.
  rewrite request_eq; cbn [snd]. rewrite !page_signal.
  eapply sameData_trans; [|apply setLoading_sameData].
  eapply sameData_trans; [|apply emit_sameData].
  eapply sameData_trans; [|apply emit_sameData].
  eapply sameData_trans; [|apply setLoading_sameData].
  apply emit_sameData.
Qed.

End ClientFacts.

(** ** The probing loop *)

Section ProbeFacts.

Context {C R : Type}.

(** Rounds that throw are skipped, and the last error is kept. *)
Lemma forOfTry_allThrow (body : C -> M (option R)) (pre rest : list C)
  (l l' : option JsError) (w w1 : World) :
  allThrow body pre l w = Some (l', w1) ->
  forOfTry body (pre ++ rest) l w = forOfTry body rest l' w1.
Proof.
  revert l w; induction pre as [|c pre IH]; intros l w H; simpl in *.
  - now inversion H.
  - destruct (body c w) as [[r|e] w'] eqn:E; [discriminate|].
    now apply IH.
Qed.

(** A round that leaves the loop ends it: the rest is not run. *)
Lemma forOfTry_hit (body : C -> M (option R)) (c : C) (rest : list C)
  (l : option JsError) (w w' : World) (r : R) :
  body c w = (Normal (Some r), w') ->
  forOfTry body (c :: rest) l w = ((Some r, l), w').
Proof. intros H; simpl; now rewrite H. Qed.

Lemma allThrow_snoc {A : Type} (call : C -> M A) (pre : list C) (c : C)
  (l l1 : option JsError) (w w1 w2 : World) (e : JsError) :
  allThrow call pre l w = Some (l1, w1) ->
  call c w1 = (Throw e, w2) ->
  allThrow call (pre ++ [c]) l w = Some (Some e, w2).
Proof.
  revert l w; induction pre as [|a pre IH]; intros l w H Hc; simpl in *.
  - inversion H; subst. now rewrite Hc.
  - destruct (call a w) as [[r|e'] w'] eqn:E; [discriminate|].
    now apply IH.
Qed.

(** A run of throwing calls is a run of throwing rounds, when a round
    throws what its call throws. *)
Lemma allThrow_rounds {A : Type} (call : C -> M A) (body : C -> M (option R))
  (cs : list C) (l : option JsError) (w : World) (res : option JsError * World) :
  (forall c w e w', call c w = (Throw e, w') -> body c w = (Throw e, w')) ->
  allThrow call cs l w = Some res ->
  allThrow body cs l w = Some res.
Proof.
  intros Hb; revert l w; induction cs as [|c cs IH]; intros l w H; simpl in *.
  - assumption.
  - destruct (call c w) as [[r|e] w'] eqn:E; [discriminate|].
    rewrite (Hb _ _ _ _ E). now apply IH.
Qed.

(** After a non-empty run of throwing calls there is a last error. *)
Lemma allThrow_nonempty {A : Type} (call : C -> M A) (cs : list C)
  (l l' : option JsError) (w w' : World) :
  cs <> [] ->
  allThrow call cs l w = Some (l', w') ->
  exists e, l' = Some e.
Proof.
  revert l w; induction cs as [|c cs IH]; intros l w Hne H; [congruence|].
  simpl in H. destruct (call c w) as [[r|e] w1] eqn:E; [discriminate|].
  destruct cs as [|c' cs].
  - simpl in H. inversion H; subst. now exists e.
  - apply (IH (Some e) w1); [discriminate|assumption].
Qed.

End ProbeFacts.

(** A run of failing requests of a page's client leaves exactly their
    requests in the log, in order, and the data of the console as it was. *)
Lemma allThrow_requests (P : Platform) {C : Type}
  (method : C -> string) (path : C -> string) (opts : C -> Client.RequestOptions)
  (cs : list C) (l l' : option JsError) (w w1 : World) :
  allThrow (fun c => Client.request P ProjectsPage.api (method c) (path c) (opts c))
           cs l w = Some (l', w1) ->
  requestsOf (log w1) =
    requestsOf (log w) ++
    map (fun c => Client.buildRequest P ProjectsPage.api (method c) (path c) (opts c) w) cs
  /\ sameData w w1.
Proof.
  revert l w; induction cs as [|c cs IH]; intros l w H; simpl in H.
  - inversion H; subst. simpl. rewrite app_nil_r. split; [reflexivity|apply sameData_refl].
  - destruct (Client.request P ProjectsPage.api (method c) (path c) (opts c) w)
      as [[r|e] w'] eqn:E; [discriminate|].
    pose proof (page_request_log P (method c) (path c) (opts c) w) as Hl.
    pose proof (page_request_sameData P (method c) (path c) (opts c) w) as Hs.
    rewrite E in Hl, Hs; cbn [snd] in Hl, Hs.
    destruct (IH _ _ H) as [IHl IHs].
    split; [|eapply sameData_trans; eassumption].
    rewrite IHl, Hl, requestsOf_app. simpl. rewrite <- app_assoc. simpl.
    do 2 f_equal. apply map_ext; intros a.
    apply buildRequest_auth. apply Hs.
Qed.

(** ** Loading the project list *)

Section LoadFacts.

Context (P : Platform).

Lemma loadAttempt_throw (path : string) (w w' : World) (e : JsError) :
  getCall P path w = (Throw e, w') ->
  ProjectsPage.loadAttempt P path w = (Throw e, w').
Proof.
  unfold getCall, ProjectsPage.loadAttempt, bind; intros H; now rewrite H.
Qed.

Lemma loadAttempt_return (path : string) (w w' : World) (data : value) :
  getCall P path w = (Normal data, w') ->
  ProjectsPage.loadAttempt P path w =
    (Normal (Some tt),
     ProjectsPage.setProjects (fun _ => ProjectsPage.normalizeList data) w').
Proof.
  unfold getCall, ProjectsPage.loadAttempt, bind; intros H; now rewrite H.
Qed.

(** The candidates before the first one that answers are tried in order,
    and [load] ends with that answer: the rest is never requested. *)
Lemma loadWith_first_success (pre post : list string) (path : string)
  (l : option JsError) (data : value) (w w1 w2 : World) :
  allThrow (getCall P) pre None w = Some (l, w1) ->
  getCall P path w1 = (Normal data, w2) ->
  ProjectsPage.loadWith P (pre ++ path :: post) w =
    (Normal tt, ProjectsPage.setProjects (fun _ => ProjectsPage.normalizeList data) w2)
  /\ requestsOf (log (ProjectsPage.setProjects
                        (fun _ => ProjectsPage.normalizeList data) w2)) =
       requestsOf (log w) ++ map (sentByGet P w) (pre ++ [path]).
Proof.
  intros Hpre Hhit. split.
  - unfold ProjectsPage.loadWith, bind, probe.
    rewrite (forOfTry_allThrow _ pre (path :: post) None l w w1).
    + rewrite (forOfTry_hit _ _ _ _ _ _ _ (loadAttempt_return _ _ _ _ Hhit)).
      reflexivity.
    + eapply allThrow_rounds; [|exact Hpre].
      intros; now apply loadAttempt_throw.
  - destruct (allThrow_requests P (fun _ => "GET") (fun p => p)
                (fun _ => Client.noOptions) pre None l w w1 Hpre) as [Hl Hs].
    pose proof (page_request_log P "GET" path Client.noOptions w1) as Hl2.
    unfold getCall, Client.api_get in Hhit. rewrite Hhit in Hl2; cbn [snd] in Hl2.
    change (log (ProjectsPage.setProjects
                   (fun _ => ProjectsPage.normalizeList data) w2)) with (log w2).
    rewrite Hl2, requestsOf_app, Hl, map_app, <- app_assoc. simpl.
    unfold sentByGet. do 3 f_equal.
    apply buildRequest_auth. apply Hs.
Qed.


End LoadFacts.

(** ** Inviting a user and changing a role *)

Section WriteFacts.

Context (P : Platform).

(** What [submitInvite] does once a candidate has answered, in both
    cases of the check that follows its loop. *)
Lemma inviteWith_answer (pre post : list (string * value)) (c : string * value)
  (l : option JsError) (created : value) (w w1 w2 : World) :
  allThrow (inviteCall P) pre None w = Some (l, w1) ->
  inviteCall P c w1 = (Normal created, w2) ->
  UsersPage.inviteWith P (pre ++ c :: post) w =
    if truthy created
    then (Normal tt,
          UsersPage.setInviteOpen false
            (UsersPage.setUsers (fun prev => filter truthy (created :: prev))
               (snd (UIContext.pushToast (UIContext.success "User invited/created") w2))))
    else (Normal tt,
          snd (UIContext.pushToast
                 (UIContext.failure "Invite failed"
                    (err_message (orError l "Invite failed."))) w2)).
Proof.
  intros Hpre Hhit.
  unfold UsersPage.inviteWith, tryCatch, bind at 1, probe.
  rewrite (forOfTry_allThrow _ pre (c :: post) None l w w1).
  - rewrite (forOfTry_hit _ c post l w1 w2 created).
    + unfold UsersPage.afterLoop, bind; cbn [fst snd].
      destruct (truthy created); reflexivity.
    + fold (inviteCall P c). unfold bind. now rewrite Hhit.
  - eapply allThrow_rounds; [|exact Hpre].
    intros c0 w0 e w' H. fold (inviteCall P c0). unfold bind. now rewrite H.
Qed.

(** The same for [updateUserRole]. *)
Lemma updateRoleWith_answer (userId : value) (pre post : list (M value))
  (fn : M value) (l : option JsError) (updated : value) (w w1 w2 : World) :
  allThrow (fun f => f) pre None w = Some (l, w1) ->
  fn w1 = (Normal updated, w2) ->
  UsersPage.updateRoleWith userId (pre ++ fn :: post) w =
    if truthy updated
    then (Normal tt,
          UsersPage.setUsers
            (map (fun u => if strictEq (Js.get u "id") userId then updated else u))
            (snd (UIContext.pushToast (UIContext.success "Role updated") w2)))
    else (Normal tt,
          snd (UIContext.pushToast
                 (UIContext.failure "Update failed"
                    (err_message (orError l "Role update failed."))) w2)).
Proof.
  intros Hpre Hhit.
  unfold UsersPage.updateRoleWith, tryCatch, bind at 1, probe.
  rewrite (forOfTry_allThrow _ pre (fn :: post) None l w w1).
  - rewrite (forOfTry_hit _ fn post l w1 w2 updated).
    + unfold UsersPage.afterLoop, bind; cbn [fst snd].
      destruct (truthy updated); reflexivity.
    + unfold bind. now rewrite Hhit.
  - eapply allThrow_rounds; [|exact Hpre].
    intros c0 w0 e w' H. unfold bind. now rewrite H.
Qed.

End WriteFacts.

(** The data a page holds survives a request of its client that answers. *)
Lemma page_request_answer_frame (P : Platform) (method path : string)
  (o : Client.RequestOptions) (w w' : World) (c : Completion value) :
  Client.request P ProjectsPage.api method path o w = (c, w') ->
  sameData w w' /\
  requestsOf (log w') =
    requestsOf (log w) ++ [Client.buildRequest P ProjectsPage.api method path o w].
Proof.
  intros H.
  pose proof (page_request_sameData P method path o w) as Hs.
  pose proof (page_request_log P method path o w) as Hl.
  rewrite H in Hs, Hl; cbn [snd] in Hs, Hl.
  split; [assumption|].
  rewrite Hl, requestsOf_app; reflexivity.
Qed.

(** C1 (as amended). In a probing operation, when the candidates before
    candidate N throw and candidate N answers, the candidates up to N are
    requested in order, each once, and none after N. [load] then ends with
    candidate N's (normalised) answer as the project list. Invite/create
    user and update user role end with candidate N's answer, prepended to
    (or replaced in) the user list, provided that answer is truthy. *)
Theorem first_success_wins (P : Platform) (w w1 w2 : World) (l : option JsError) :
  (forall (pre post : list string) (path : string) (data : value),
      allThrow (getCall P) pre None w = Some (l, w1) ->
      getCall P path w1 = (Normal data, w2) ->
      exists final,
        ProjectsPage.loadWith P (pre ++ path :: post) w = (Normal tt, final) /\
        projects (projectsPage final) = ProjectsPage.normalizeList data /\
        requestsOf (log final) =
          requestsOf (log w) ++ map (sentByGet P w) (pre ++ [path]))
  /\
  (forall (pre post : list (string * value)) (c : string * value) (created : value),
      allThrow (inviteCall P) pre None w = Some (l, w1) ->
      inviteCall P c w1 = (Normal created, w2) ->
      truthy created = true ->
      exists final,
        UsersPage.inviteWith P (pre ++ c :: post) w = (Normal tt, final) /\
        users (usersPage final) = created :: filter truthy (users (usersPage w)) /\
        map toast_type (toasts (ui final)) =
          "success"%string :: map toast_type (toasts (ui w)) /\
        requestsOf (log final) =
          requestsOf (log w) ++ map (sentByPost P w) (pre ++ [c]))
  /\
  (forall (userId : value) (pre post : list (M value)) (fn : M value) (updated : value),
      allThrow (fun f => f) pre None w = Some (l, w1) ->
      fn w1 = (Normal updated, w2) ->
      truthy updated = true ->
      exists final,
        UsersPage.updateRoleWith userId (pre ++ fn :: post) w = (Normal tt, final) /\
        users (usersPage final) =
          map (fun u => if strictEq (Js.get u "id") userId then updated else u)
              (users (usersPage w2)) /\
        map toast_type (toasts (ui final)) =
          "success"%string :: map toast_type (toasts (ui w2)) /\
        log final = log w2).
Proof.
  split; [|split].
  - intros pre post path data Hpre Hhit.
    destruct (loadWith_first_success P pre post path l data w w1 w2 Hpre Hhit)
      as [Hrun Hlog].
    eexists; split; [exact Hrun|]. split; [reflexivity|exact Hlog].
  - intros pre post c created Hpre Hhit Ht.
    pose proof (inviteWith_answer P pre post c l created w w1 w2 Hpre Hhit) as Hrun.
    rewrite Ht in Hrun.
    destruct (allThrow_requests P (fun _ => "POST"%string) fst
                (fun c => Client.withBody (snd c)) pre None l w w1 Hpre) as [Hl Hs].
    destruct (page_request_answer_frame P _ _ _ _ _ _ Hhit) as [Hs2 Hl2].
    pose proof (sameData_trans _ _ _ Hs Hs2) as Hs3.
    destruct (pushToast_toasts (UIContext.success "User invited/created") w2) as [Hts _].
    destruct (pushToast_pages (UIContext.success "User invited/created") w2)
      as (_ & Hu & _).
    eexists; split; [exact Hrun|]. split; [|split].
    + cbn [UsersPage.setInviteOpen UsersPage.setUsers withUsersPage usersPage users].
      rewrite Hu. simpl. rewrite Ht.
      now rewrite (sameData_usersPage _ _ Hs3).
    + change (toasts (ui (UsersPage.setInviteOpen false
                (UsersPage.setUsers (fun prev => filter truthy (created :: prev))
                   (snd (UIContext.pushToast (UIContext.success "User invited/created") w2))))))
        with (toasts (ui (snd (UIContext.pushToast
                                 (UIContext.success "User invited/created") w2)))).
      rewrite Hts. simpl.
      now rewrite (proj1 (sameData_toasts _ _ Hs3)).
    + change (log (UsersPage.setInviteOpen false
                (UsersPage.setUsers (fun prev => filter truthy (created :: prev))
                   (snd (UIContext.pushToast (UIContext.success "User invited/created") w2)))))
        with (log (snd (UIContext.pushToast
                          (UIContext.success "User invited/created") w2))).
      rewrite pushToast_log, Hl2, Hl, map_app, <- app_assoc. simpl.
      unfold sentByPost. do 3 f_equal.
      apply buildRequest_auth. apply Hs.
  - intros userId pre post fn updated Hpre Hhit Ht.
    pose proof (updateRoleWith_answer userId pre post fn l updated w w1 w2 Hpre Hhit)
      as Hrun.
    rewrite Ht in Hrun.
    destruct (pushToast_toasts (UIContext.success "Role updated") w2) as [Hts _].
    destruct (pushToast_pages (UIContext.success "Role updated") w2) as (_ & Hu & _).
    eexists; split; [exact Hrun|]. split; [|split].
    + cbn [UsersPage.setUsers withUsersPage usersPage users].
      now rewrite Hu.
    + change (toasts (ui (UsersPage.setUsers
                (map (fun u => if strictEq (Js.get u "id") userId then updated else u))
                (snd (UIContext.pushToast (UIContext.success "Role updated") w2)))))
        with (toasts (ui (snd (UIContext.pushToast (UIContext.success "Role updated") w2)))).
      rewrite Hts. reflexivity.
    + change (log (UsersPage.setUsers
                (map (fun u => if strictEq (Js.get u "id") userId then updated else u))
                (snd (UIContext.pushToast (UIContext.success "Role updated") w2))))
        with (log (snd (UIContext.pushToast (UIContext.success "Role updated") w2))).
      apply pushToast_log.
Qed.

(** On the example backend [load] skips the failing [/projects] and ends
    with the list of [/api/projects]; the invite skips [/users/invite],
    ends with the user of [/invite] and never tries [/users]; the role
    update skips the PUT and ends with the answer of the PATCH. *)
Lemma first_success_wins_witness :
  (exists final,
      ProjectsPage.load Example.platform (Example.world "Q2") = (Normal tt, final) /\
      projects (projectsPage final) = [VNum 1; VNum 2] /\
      map req_url (requestsOf (log final)) = ["/projects"; "/api/projects"]%string)
  /\
  (exists final,
      UsersPage.submitInvite Example.platform (Example.world "Q2") = (Normal tt, final) /\
      users (usersPage final) = [VObj [("id"%string, VNum 9)]] /\
      map req_url (requestsOf (log final)) = ["/users/invite"; "/invite"]%string)
  /\
  (exists final,
      UsersPage.updateUserRole Example.platform (VNum 7) (VNum 2)
        (Example.world "Q2") = (Normal tt, final) /\
      map toast_type (toasts (ui final)) = ["success"%string] /\
      map req_url (requestsOf (log final)) = ["/users/7/role"; "/users/7"]%string).
Proof.
  pose (P := Example.platform). pose (w := Example.world "Q2").
  split; [|split].
  - pose (w1 := snd (Client.api_get P ProjectsPage.api "/projects" Client.noOptions w)).
    pose (w2 := snd (Client.api_get P ProjectsPage.api "/api/projects" Client.noOptions w1)).
    destruct (first_success_wins P w w1 w2
                (Some (mkError "oops" (Some 500) (Some (VStr "oops")))))
      as [H _].
    destruct (H ["/projects"%string] [] "/api/projects"%string (VArr [VNum 1; VNum 2]))
      as (final & Hrun & Hp & Hl);
      [vm_compute; reflexivity | vm_compute; reflexivity |].
    exists final. split; [exact Hrun|]. split; [exact Hp|].
    rewrite Hl. vm_compute. reflexivity.
  - pose (f := inviteForm (usersPage w)).
    pose (w1 := snd (Client.api_post P UsersPage.api "/users/invite" (Client.withBody f) w)).
    pose (w2 := snd (Client.api_post P UsersPage.api "/invite" (Client.withBody f) w1)).
    destruct (first_success_wins P w w1 w2
                (Some (mkError "Not Found" (Some 404) (Some (VStr "Not Found")))))
      as (_ & H & _).
    destruct (H [("/users/invite"%string, f)] [("/users"%string, f)]
                ("/invite"%string, f) (VObj [("id"%string, VNum 9)]))
      as (final & Hrun & Hu & _ & Hl);
      [vm_compute; reflexivity | vm_compute; reflexivity | reflexivity |].
    exists final. split; [exact Hrun|]. split; [exact Hu|].
    rewrite Hl. vm_compute. reflexivity.
  - pose (c1 := Client.api_put P UsersPage.api "/users/7/role"
                  (Client.withBody (VObj [("roleId"%string, VNum 2)]))).
    pose (c2 := Client.api_patch P UsersPage.api "/users/7"
                  (Client.withBody (VObj [("roleId"%string, VNum 2)]))).
    pose (c3 := Client.api_post P UsersPage.api "/users/7/roles"
                  (Client.withBody (VObj [("roleId"%string, VNum 2)]))).
    pose (w1 := snd (c1 w)). pose (w2 := snd (c2 w1)).
    destruct (first_success_wins P w w1 w2
                (Some (mkError "Not Found" (Some 404) (Some (VStr "Not Found")))))
      as (_ & _ & H).
    destruct (H (VNum 7) [c1] [c3] c2 (VObj [("id"%string, VNum 9)]))
      as (final & Hrun & _ & Ht & Hl);
      [vm_compute; reflexivity | vm_compute; reflexivity | reflexivity |].
    exists final. split; [exact Hrun|]. rewrite Ht, Hl. vm_compute. split; reflexivity.
Defined.

(** C1, the counterexample. The backend answers the first invite candidate
    with 204 and no content: the call returns [null], no other candidate
    is tried, and yet the operation does not end with that answer but in
    its failure branch, with an error toast and the user list as it was. *)
Lemma first_success_counterexample :
  fst (Client.api_post Example.platformNoContent UsersPage.api "/users/invite"
         (Client.withBody (inviteForm (usersPage (Example.world "Q2"))))
         (Example.world "Q2")) = Normal VNull
  /\
  (let final := snd (UsersPage.submitInvite Example.platformNoContent
                       (Example.world "Q2")) in
   map req_url (requestsOf (log final)) = ["/users/invite"%string] /\
   map toast_type (toasts (ui final)) = ["error"%string] /\
   map toast_description (toasts (ui final)) = ["Invite failed."%string] /\
   users (usersPage final) = users (usersPage (Example.world "Q2"))).
Proof. vm_compute. repeat split. Qed.

(** ** Signing in *)

(** Whatever its rounds do, the loop keeps what every round keeps. *)
Lemma forOfTry_sameData {C R : Type} (body : C -> M (option R)) (cs : list C)
  (l : option JsError) (w : World) :
  (forall c w, sameData w (snd (body c w))) ->
  sameData w (snd (forOfTry body cs l w)).
Proof.
  intros Hb; revert l w; induction cs as [|c cs IH]; intros l w; simpl.
  - apply sameData_refl.
  - pose proof (Hb c w) as H.
    destruct (body c w) as [[[r|]|e] w'] eqn:E; cbn [snd] in *.
    + assumption.
    + eapply sameData_trans; [exact H|apply IH].
    + eapply sameData_trans; [exact H|apply IH].
Qed.

Section LoginFacts.

Context (P : Platform).

(** A request of a client without hook changes the log only. *)
Lemma hookless_request_sameData (g : option (World -> value)) (method path : string)
  (o : Client.RequestOptions) (w : World) :
  sameData w (snd (Client.request P (Client.mkOptions g None) method path o w)).
Proof. rewrite request_no_hook. apply emit_sameData. Qed.

(** [bestEffortGetMe] never throws, and changes the log only. *)
Lemma bestEffortGetMe_returns (jwt : value) (w : World) :
  exists me w',
    AuthContext.bestEffortGetMe P (AuthContext.apiFor jwt) w = (Normal me, w') /\
    sameData w w'.
Proof.
  unfold AuthContext.bestEffortGetMe, bind, probe.
  pose proof (forOfTry_sameData
                (fun path =>
                   me <- Client.api_get P (AuthContext.apiFor jwt) path Client.noOptions ;;
                   if truthy me then ret (Some me) else ret None)
                AuthContext.meCandidates None w) as H.
  destruct (forOfTry _ AuthContext.meCandidates None w) as [[r l] w'] eqn:E.
  cbn [fst snd] in *.
  assert (Hs : sameData w w').
  { apply H. intros c w0. unfold bind, Client.api_get.
    pose proof (hookless_request_sameData (Some (fun _ => jwt)) "GET" c
                  Client.noOptions w0) as Hr.
    unfold AuthContext.apiFor.
    destruct (Client.request P _ "GET" c Client.noOptions w0) as [[v|e] w0'];
      cbn [snd] in *; [|assumption].
    destruct (truthy v); assumption. }
  destruct r as [me|]; [exists me, w'|exists VNull, w']; split; auto.
Qed.


(** An answer without a token makes the round throw, whatever the status
    was. *)
Lemma loginAttempt_no_token (c : string * value) (w w' : World) (data : value) :
  loginCall P c w = (Normal data, w') ->
  truthy (AuthContext.normalizeAuthResponse data) = false ->
  AuthContext.loginAttempt P c w =
    (Throw (newError "Login response did not include a token."), w').
Proof.
  unfold loginCall, AuthContext.loginAttempt, bind; intros H Ht.
  rewrite H, Ht. reflexivity.
Qed.

(** An answer with a token ends the loop: the token is stored, becomes the
    session's credential, and is returned. *)
Lemma loginAttempt_token (c : string * value) (w w' : World) (data : value) :
  loginCall P c w = (Normal data, w') ->
  truthy (AuthContext.normalizeAuthResponse data) = true ->
  exists me final,
    AuthContext.loginAttempt P c w =
      (Normal (Some (VObj [("token"%string, AuthContext.normalizeAuthResponse data);
                           ("user"%string, me)])), final) /\
    token (auth final) = AuthContext.normalizeAuthResponse data /\
    user (auth final) = me /\
    storageOk final = storageOk w' /\
    storage final =
      (if storageOk w' then Some (toString (AuthContext.normalizeAuthResponse data))
       else storage w').
Proof.
  unfold loginCall, AuthContext.loginAttempt; intros H Ht.
  unfold bind at 1. rewrite H, Ht. cbn [negb].
  set (jwt := AuthContext.normalizeAuthResponse data).
  unfold bind at 1, modify at 1. unfold bind at 1, modify at 1.
  set (w0 := AuthContext.setTokenState jwt (TokenStorage.setToken jwt w')).
  destruct (bestEffortGetMe_returns jwt w0) as (me & w1 & Hme & Hs).
  unfold bind at 1. rewrite Hme. unfold bind, modify, ret.
  exists me, (AuthContext.setUser me w1).
  split; [reflexivity|].
  destruct Hs as (_ & Hok & Hst & _ & _ & Hau & _).
  cbn [AuthContext.setUser withAuth auth token user storageOk storage].
  rewrite Hau, Hok, Hst. subst w0.
  unfold AuthContext.setTokenState, TokenStorage.setToken.
  destruct (storageOk w') eqn:Eok; simpl; rewrite ?Eok; repeat split.
Qed.


End LoginFacts.

(** ** Write handlers and empty answers *)

(** C10. In invite/create user and update user role, a candidate whose
    request answers with a falsy body ([null], as for an empty response
    text) ends the loop, and the operation fails all the same: it pushes
    one error toast, which carries the message of the candidate that threw
    last before, or the generic message when no candidate had thrown; the
    user list stays as it was and nothing more is requested. *)
Theorem empty_answer_fails_write (P : Platform) (w w0 w1 w2 : World) :
  (forall (pre post : list (string * value)) (c' c : string * value)
          (l0 : option JsError) (e : JsError) (data : value),
      allThrow (inviteCall P) pre None w = Some (l0, w0) ->
      inviteCall P c' w0 = (Throw e, w1) ->
      inviteCall P c w1 = (Normal data, w2) ->
      truthy data = false ->
      exists final,
        UsersPage.inviteWith P (pre ++ c' :: c :: post) w = (Normal tt, final) /\
        toasts (ui final) =
          mkToast (toastId (ui w2) + 1) "error" "Invite failed" (err_message e) 4500
          :: toasts (ui w2) /\
        users (usersPage final) = users (usersPage w2) /\
        log final = log w2)
  /\
  (forall (post : list (string * value)) (c : string * value) (data : value),
      inviteCall P c w = (Normal data, w2) ->
      truthy data = false ->
      exists final,
        UsersPage.inviteWith P (c :: post) w = (Normal tt, final) /\
        toasts (ui final) =
          mkToast (toastId (ui w2) + 1) "error" "Invite failed" "Invite failed." 4500
          :: toasts (ui w2) /\
        users (usersPage final) = users (usersPage w2) /\
        log final = log w2)
  /\
  (forall (userId : value) (pre post : list (M value)) (fn' fn : M value)
          (l0 : option JsError) (e : JsError) (data : value),
      allThrow (fun f => f) pre None w = Some (l0, w0) ->
      fn' w0 = (Throw e, w1) ->
      fn w1 = (Normal data, w2) ->
      truthy data = false ->
      exists final,
        UsersPage.updateRoleWith userId (pre ++ fn' :: fn :: post) w
          = (Normal tt, final) /\
        toasts (ui final) =
          mkToast (toastId (ui w2) + 1) "error" "Update failed" (err_message e) 4500
          :: toasts (ui w2) /\
        users (usersPage final) = users (usersPage w2) /\
        log final = log w2)
  /\
  (forall (userId : value) (post : list (M value)) (fn : M value) (data : value),
      fn w = (Normal data, w2) ->
      truthy data = false ->
      exists final,
        UsersPage.updateRoleWith userId (fn :: post) w = (Normal tt, final) /\
        toasts (ui final) =
          mkToast (toastId (ui w2) + 1) "error" "Update failed"
                  "Role update failed." 4500
          :: toasts (ui w2) /\
        users (usersPage final) = users (usersPage w2) /\
        log final = log w2)
  /\
  (forall (c : Client.Options) (method path : string) (o : Client.RequestOptions)
          (status : Z) (text : string),
      backend P (requestsOf (log (Client.signal c true w)))
              (Client.buildRequest P c method path o w) = Response status text ->
      Client.ok status = true ->
      text = EmptyString \/ JSON_parse P text = Some VNull ->
      fst (Client.request P c method path o w) = Normal VNull).
Proof.
  assert (Hinvite :
    forall pre post c l data w1',
      allThrow (inviteCall P) pre None w = Some (l, w1') ->
      inviteCall P c w1' = (Normal data, w2) ->
      truthy data = false ->
      exists final,
        UsersPage.inviteWith P (pre ++ c :: post) w = (Normal tt, final) /\
        toasts (ui final) =
          mkToast (toastId (ui w2) + 1) "error" "Invite failed"
                  (err_message (orError l "Invite failed.")) 4500
          :: toasts (ui w2) /\
        users (usersPage final) = users (usersPage w2) /\
        log final = log w2).
  { intros pre post c l data w1' Hpre Hhit Ht.
    pose proof (inviteWith_answer P pre post c l data w w1' w2 Hpre Hhit) as Hrun.
    rewrite Ht in Hrun.
    eexists; split; [exact Hrun|].
    destruct (pushToast_toasts
                (UIContext.failure "Invite failed"
                   (err_message (orError l "Invite failed."))) w2) as [Hts _].
    split; [|split].
    - rewrite Hts. cbn [UIContext.failure UIContext.t_type UIContext.t_title
                        UIContext.t_description UIContext.t_timeoutMs].
      rewrite orElse_description. reflexivity.
    - now rewrite (proj1 (proj2 (pushToast_pages _ w2))).
    - apply pushToast_log. }
  assert (Hrole :
    forall userId pre post fn l data w1',
      allThrow (fun f : M value => f) pre None w = Some (l, w1') ->
      fn w1' = (Normal data, w2) ->
      truthy data = false ->
      exists final,
        UsersPage.updateRoleWith userId (pre ++ fn :: post) w = (Normal tt, final) /\
        toasts (ui final) =
          mkToast (toastId (ui w2) + 1) "error" "Update failed"
                  (err_message (orError l "Role update failed.")) 4500
          :: toasts (ui w2) /\
        users (usersPage final) = users (usersPage w2) /\
        log final = log w2).
  { intros userId pre post fn l data w1' Hpre Hhit Ht.
    pose proof (updateRoleWith_answer userId pre post fn l data w w1' w2 Hpre Hhit)
      as Hrun.
    rewrite Ht in Hrun.
    eexists; split; [exact Hrun|].
    destruct (pushToast_toasts
                (UIContext.failure "Update failed"
                   (err_message (orError l "Role update failed."))) w2) as [Hts _].
    split; [|split].
    - rewrite Hts. cbn [UIContext.failure UIContext.t_type UIContext.t_title
                        UIContext.t_description UIContext.t_timeoutMs].
      rewrite orElse_description. reflexivity.
    - now rewrite (proj1 (proj2 (pushToast_pages _ w2))).
    - apply pushToast_log. }
  split; [|split; [|split; [|split]]].
  - intros pre post c' c l0 e data Hpre Hlast Hhit Ht.
    pose proof (allThrow_snoc _ pre c' None l0 w w0 w1 e Hpre Hlast) as Hall.
    destruct (Hinvite (pre ++ [c']) post c (Some e) data w1 Hall Hhit Ht)
      as (final & Hrun & Hrest).
    rewrite <- app_assoc in Hrun. exists final. split; [exact Hrun|exact Hrest].
  - intros post c data Hhit Ht.
    apply (Hinvite [] post c None data w eq_refl Hhit Ht).
  - intros userId pre post fn' fn l0 e data Hpre Hlast Hhit Ht.
    pose proof (allThrow_snoc (fun f : M value => f) pre fn' None l0 w w0 w1 e Hpre Hlast)
      as Hall.
    destruct (Hrole userId (pre ++ [fn']) post fn (Some e) data w1 Hall Hhit Ht)
      as (final & Hrun & Hrest).
    rewrite <- app_assoc in Hrun. exists final. split; [exact Hrun|exact Hrest].
  - intros userId post fn data Hhit Ht.
    apply (Hrole userId [] post fn None data w eq_refl Hhit Ht).
  - intros c method path o status text Hb Hok Hnull.
    rewrite request_eq; cbn [fst]. rewrite Hb. unfold requestResult.
    rewrite Hok. unfold Client.safeJsonParse.
    destruct Hnull as [->|Hp]; [reflexivity|].
    rewrite Hp. destruct (Str.isEmpty text); reflexivity.
Qed.

(** A backend without [/users/invite] that answers [/invite] with 204 and
    no content: the invite fails with the 404 of the first candidate, and
    [/users] is never tried. The same with the role routes; and when the
    very first candidate answers with no content, the generic message is
    shown. *)
Lemma empty_answer_fails_write_witness :
  (exists final,
      UsersPage.submitInvite Example.platformPartial (Example.world "Q2")
        = (Normal tt, final) /\
      map toast_type (toasts (ui final)) = ["error"%string] /\
      map toast_description (toasts (ui final)) = ["Not Found"%string] /\
      users (usersPage final) = [] /\
      map req_url (requestsOf (log final)) = ["/users/invite"; "/invite"]%string)
  /\
  (exists final,
      UsersPage.updateUserRole Example.platformPartial (VNum 7) (VNum 2)
        (Example.world "Q2") = (Normal tt, final) /\
      map toast_description (toasts (ui final)) = ["Not Found"%string] /\
      map req_url (requestsOf (log final)) = ["/users/7/role"; "/users/7"]%string)
  /\
  (exists final,
      UsersPage.submitInvite Example.platformNoContent (Example.world "Q2")
        = (Normal tt, final) /\
      map toast_description (toasts (ui final)) = ["Invite failed."%string] /\
      map req_url (requestsOf (log final)) = ["/users/invite"%string]).
Proof.
  pose (w := Example.world "Q2").
  pose (f := inviteForm (usersPage w)).
  pose (notFound := mkError "Not Found" (Some 404) (Some (VStr "Not Found"))).
  split; [|split].
  - pose (P := Example.platformPartial).
    pose (w1 := snd (inviteCall P ("/users/invite"%string, f) w)).
    pose (w2 := snd (inviteCall P ("/invite"%string, f) w1)).
    destruct (empty_answer_fails_write P w w w1 w2) as (H & _).
    destruct (H [] [("/users"%string, f)] ("/users/invite"%string, f)
                ("/invite"%string, f) None notFound VNull)
      as (final & Hrun & Ht & Hu & Hl);
      [reflexivity | vm_compute; reflexivity | vm_compute; reflexivity | reflexivity |].
    exists final. split; [exact Hrun|].
    rewrite Ht, Hu, Hl. vm_compute. repeat split.
  - pose (P := Example.platformPartial).
    pose (c1 := Client.api_put P UsersPage.api "/users/7/role"
                  (Client.withBody (VObj [("roleId"%string, VNum 2)]))).
    pose (c2 := Client.api_patch P UsersPage.api "/users/7"
                  (Client.withBody (VObj [("roleId"%string, VNum 2)]))).
    pose (c3 := Client.api_post P UsersPage.api "/users/7/roles"
                  (Client.withBody (VObj [("roleId"%string, VNum 2)]))).
    pose (w1 := snd (c1 w)). pose (w2 := snd (c2 w1)).
    destruct (empty_answer_fails_write P w w w1 w2) as (_ & _ & H & _).
    destruct (H (VNum 7) [] [c3] c1 c2 None notFound VNull)
      as (final & Hrun & Ht & _ & Hl);
      [reflexivity | vm_compute; reflexivity | vm_compute; reflexivity | reflexivity |].
    exists final. split; [exact Hrun|].
    rewrite Ht, Hl. vm_compute. repeat split.
  - pose (P := Example.platformNoContent).
    pose (w2 := snd (inviteCall P ("/users/invite"%string, f) w)).
    destruct (empty_answer_fails_write P w w w w2) as (_ & H & _).
    destruct (H [("/invite"%string, f); ("/users"%string, f)]
                ("/users/invite"%string, f) VNull)
      as (final & Hrun & Ht & _ & Hl);
      [vm_compute; reflexivity | reflexivity |].
    exists final. split; [exact Hrun|].
    rewrite Ht, Hl. vm_compute. repeat split.
Defined.

(** ** List normalisation *)



(** ** Token extraction and login *)

Lemma normalizeAuthResponse_order (data : value) :
  (truthy (Js.get data "access_token") = true ->
   AuthContext.normalizeAuthResponse data = Js.get data "access_token")
  /\
  (truthy (Js.get data "access_token") = false ->
   truthy (Js.get data "token") = true ->
   AuthContext.normalizeAuthResponse data = Js.get data "token")
  /\
  (truthy (Js.get data "access_token") = false ->
   truthy (Js.get data "token") = false ->
   truthy (Js.get data "jwt") = true ->
   AuthContext.normalizeAuthResponse data = Js.get data "jwt")
  /\
  (truthy (Js.get data "access_token") = false ->
   truthy (Js.get data "token") = false ->
   truthy (Js.get data "jwt") = false ->
   AuthContext.normalizeAuthResponse data = VNull).
Proof.
  unfold AuthContext.normalizeAuthResponse.
  destruct data; cbn; repeat split; intros; try discriminate; try reflexivity;
    try (destruct b; reflexivity);
    try (destruct (negb _); reflexivity);
    repeat match goal with H : truthy _ = _ |- _ => rewrite H; clear H end;
    reflexivity.
Qed.

(** C5. Token extraction reads [access_token], then [token], then [jwt],
    and takes the first that is truthy. A login candidate that answers
    [{access_token: "abc"}], once the candidates before it have failed,
    ends the login: the session's credential and the stored one are
    ["abc"] and the session is authenticated. A candidate that answers
    (with a 2xx status) without any of the three fields counts as failed:
    its round throws and the loop goes on with the next candidate. *)
Theorem login_extracts_token (P : Platform) (w w1 w2 : World) (l : option JsError) :
  (forall data : value,
      (truthy (Js.get data "access_token") = true ->
       AuthContext.normalizeAuthResponse data = Js.get data "access_token")
      /\
      (truthy (Js.get data "access_token") = false ->
       truthy (Js.get data "token") = true ->
       AuthContext.normalizeAuthResponse data = Js.get data "token")
      /\
      (truthy (Js.get data "access_token") = false ->
       truthy (Js.get data "token") = false ->
       truthy (Js.get data "jwt") = true ->
       AuthContext.normalizeAuthResponse data = Js.get data "jwt")
      /\
      (truthy (Js.get data "access_token") = false ->
       truthy (Js.get data "token") = false ->
       truthy (Js.get data "jwt") = false ->
       AuthContext.normalizeAuthResponse data = VNull))
  /\
  (forall (pre post : list (string * value)) (c : string * value),
      allThrow (AuthContext.loginAttempt P) pre None w = Some (l, w1) ->
      loginCall P c w1 = (Normal (VObj [("access_token"%string, VStr "abc")]), w2) ->
      exists me final,
        AuthContext.loginWith P (pre ++ c :: post) w =
          (Normal (VObj [("token"%string, VStr "abc"); ("user"%string, me)]), final) /\
        token (auth final) = VStr "abc" /\
        AuthContext.isAuthenticated final = true /\
        TokenStorage.getToken final = (if storageOk w2 then VStr "abc" else VNull))
  /\
  (forall (c : string * value) (rest : list (string * value)) (data : value)
          (lastErr : option JsError),
      loginCall P c w1 = (Normal data, w2) ->
      Js.get data "access_token" = VUndefined ->
      Js.get data "token" = VUndefined ->
      Js.get data "jwt" = VUndefined ->
      forOfTry (AuthContext.loginAttempt P) (c :: rest) lastErr w1 =
        forOfTry (AuthContext.loginAttempt P) rest
                 (Some (newError "Login response did not include a token.")) w2).
Proof.
  split; [exact normalizeAuthResponse_order|]. split.
  - intros pre post c Hpre Hhit.
    destruct (loginAttempt_token P c w1 w2 _ Hhit eq_refl)
      as (me & final & Hrun & Htok & _ & Hok & Hst).
    exists me, final.
    split; [|split; [|split]].
    + unfold AuthContext.loginWith, bind, probe.
      rewrite (forOfTry_allThrow _ pre (c :: post) None l w w1 Hpre).
      rewrite (forOfTry_hit _ c post l w1 final _ Hrun). reflexivity.
    + exact Htok.
    + unfold AuthContext.isAuthenticated. rewrite Htok. reflexivity.
    + unfold TokenStorage.getToken. rewrite Hok, Hst.
      destruct (storageOk w2); reflexivity.
  - intros c rest data lastErr Hhit Ha Ht Hj.
    assert (Hn : truthy (AuthContext.normalizeAuthResponse data) = false).
    { destruct (normalizeAuthResponse_order data) as (_ & _ & _ & H).
      rewrite H; [reflexivity| | |]; [rewrite Ha|rewrite Ht|rewrite Hj]; reflexivity. }
    simpl. now rewrite (loginAttempt_no_token P c w1 w2 data Hhit Hn).
Qed.

(** On the example backend [/auth/login] answers an empty object and
    [/login] answers [{access_token: "abc"}]: the first candidate counts
    as failed, the second signs the user in, and [/token] is not tried. *)
Lemma login_extracts_token_witness :
  AuthContext.normalizeAuthResponse
    (VObj [("jwt"%string, VStr "j"); ("token"%string, VStr "t")]) = VStr "t"
  /\
  (exists me final,
      AuthContext.login Example.platform (VStr "ann@corp.io") (VStr "pw")
        (Example.world "Q2")
        = (Normal (VObj [("token"%string, VStr "abc"); ("user"%string, me)]), final) /\
      token (auth final) = VStr "abc" /\
      AuthContext.isAuthenticated final = true /\
      TokenStorage.getToken final = VStr "abc")
  /\
  fst (fst (forOfTry (AuthContext.loginAttempt Example.platform)
              [("/auth/login"%string, VObj [])] None (Example.world "Q2")))
    = None.
Proof.
  pose (P := Example.platform). pose (w := Example.world "Q2").
  pose (cs := AuthContext.loginCandidates (VStr "ann@corp.io") (VStr "pw")).
  pose (c1 := ("/auth/login"%string,
               VObj [("email"%string, VStr "ann@corp.io"); ("password"%string, VStr "pw")])).
  pose (c2 := ("/login"%string,
               VObj [("email"%string, VStr "ann@corp.io"); ("password"%string, VStr "pw")])).
  pose (c3 := ("/token"%string,
               VObj [("username"%string, VStr "ann@corp.io"); ("password"%string, VStr "pw")])).
  split; [|split].
  - destruct (login_extracts_token P w w w None) as (H & _).
    destruct (H (VObj [("jwt"%string, VStr "j"); ("token"%string, VStr "t")]))
      as (_ & H2 & _).
    apply H2; reflexivity.
  - pose (w1 := snd (AuthContext.loginAttempt P c1 w)).
    pose (w2 := snd (Client.api_post P AuthContext.api "/login" (Client.withBody (snd c2)) w1)).
    destruct (login_extracts_token P w w1 w2
                (Some (newError "Login response did not include a token.")))
      as (_ & H & _).
    destruct (H [c1] [c3] c2) as (me & final & Hrun & Htok & Hauth & Hst);
      [vm_compute; reflexivity | vm_compute; reflexivity |].
    exists me, final.
    split; [exact Hrun|]. split; [exact Htok|]. split; [exact Hauth|exact Hst].
  - pose (c := ("/auth/login"%string, VObj [])).
    pose (w2 := snd (Client.api_post P AuthContext.api "/auth/login" (Client.withBody (VObj [])) w)).
    destruct (login_extracts_token P w w w2 None) as (_ & _ & H).
    assert (E : forOfTry (AuthContext.loginAttempt P) [c] None w =
                forOfTry (AuthContext.loginAttempt P) []
                         (Some (newError "Login response did not include a token.")) w2)
      by (apply (H c [] (VObj []) None); reflexivity).
    exact (f_equal (fun r => fst (fst r)) E).
Defined.

(** ** Failed requests *)

(** The nested [||] and [&&] of [request] pick by priority. *)
Lemma failureMessage_priority (status : Z) (data : value) :
  Client.failureMessage status data = messageByPriority status data.
Proof.
  unfold Client.failureMessage, messageByPriority, Js.or, Js.and.
  destruct data as [| |b|n|s|items|props]; try reflexivity.
  - destruct b; reflexivity.
  - cbn [truthy Js.get isString andb]. destruct (negb (n =? 0)) eqn:E; cbn; rewrite ?E; reflexivity.
  - destruct s; reflexivity.
  - cbn [truthy Js.get isString andb].
    destruct (truthy (lookup "detail" props)) eqn:E1; cbn [truthy]; rewrite ?E1; [reflexivity|].
    destruct (truthy (lookup "message" props)) eqn:E2; cbn [truthy]; rewrite ?E2; [reflexivity|].
    destruct (truthy (lookup "error" props)) eqn:E3; cbn [truthy]; rewrite ?E3; reflexivity.
Qed.

Lemma ok_false_iff (status : Z) :
  Client.ok status = false <-> status < 200 \/ 299 < status.
Proof.
  unfold Client.ok. rewrite andb_false_iff, !Z.leb_gt. reflexivity.
Qed.

(** What is no object and no array can be converted to a string. *)
Lemma convertible_primitive (v : value) :
  (forall props, v <> VObj props) -> (forall items, v <> VArr items) ->
  convertible v = true.
Proof.
  intros Ho Ha. destruct v as [| |b|n|s|items|props]; try reflexivity.
  - exfalso. now apply (Ha items).
  - exfalso. now apply (Ho props).
Qed.

(** C6 (as amended). A response whose status lies outside [200, 299]
    makes [request] throw. The message is chosen by priority: the first
    truthy of the body's [detail], [message] and [error] fields, else the
    parsed body itself when that is a non-empty string (the raw text of a
    body that is not JSON, or the string a JSON string literal stands
    for), else ["Request failed (<status>)"]. When the chosen value can be
    converted to a string, as every value that is no object and no array
    can, the error carries the status, the parsed body (the raw text when
    the body is not JSON) and that string as its message. When it cannot
    (an object with a [toString] entry, or an array that holds one), the
    error thrown is the [TypeError] of the conversion, which carries
    neither status nor body. *)
Theorem request_failure (P : Platform) (c : Client.Options) (method path : string)
  (o : Client.RequestOptions) (w : World) (status : Z) (text : string) :
  backend P (requestsOf (log (Client.signal c true w)))
          (Client.buildRequest P c method path o w) = Response status text ->
  status < 200 \/ 299 < status ->
  (convertible (messageByPriority status (Client.safeJsonParse P text)) = true ->
   fst (Client.request P c method path o w) =
     Throw (mkError (toString (messageByPriority status (Client.safeJsonParse P text)))
                    (Some status) (Some (Client.safeJsonParse P text))))
  /\
  (convertible (messageByPriority status (Client.safeJsonParse P text)) = false ->
   exists e,
     fst (Client.request P c method path o w) = Throw e /\
     err_status e = None /\ err_data e = None)
  /\
  ((forall props, messageByPriority status (Client.safeJsonParse P text) <> VObj props) ->
   (forall items, messageByPriority status (Client.safeJsonParse P text) <> VArr items) ->
   convertible (messageByPriority status (Client.safeJsonParse P text)) = true)
  /\
  (JSON_parse P text = None -> Str.isEmpty text = false ->
   Client.safeJsonParse P text = VStr text /\
   messageByPriority status (Client.safeJsonParse P text) = VStr text)
  /\
  (forall v, JSON_parse P text = Some v -> Str.isEmpty text = false ->
             Client.safeJsonParse P text = v).
Proof.
  intros Hb Hs. apply ok_false_iff in Hs.
  assert (Hrun : fst (Client.request P c method path o w) =
                 if convertible (messageByPriority status (Client.safeJsonParse P text))
                 then Throw (mkError
                               (toString (messageByPriority status
                                            (Client.safeJsonParse P text)))
                               (Some status) (Some (Client.safeJsonParse P text)))
                 else Throw (newError "Cannot convert object to primitive value")).
  { rewrite request_eq; cbn [fst]. rewrite Hb. unfold requestResult.
    rewrite Hs, failureMessage_priority. reflexivity. }
  split; [|split; [|split; [|split]]].
  - intros Hc. now rewrite Hrun, Hc.
  - intros Hc. rewrite Hrun, Hc. eexists. repeat split.
  - apply convertible_primitive.
  - intros Hp He. unfold Client.safeJsonParse. rewrite He, Hp.
    split; [reflexivity|].
    unfold messageByPriority; cbn. destruct text; [discriminate|reflexivity].
  - intros v Hp He. unfold Client.safeJsonParse. now rewrite He, Hp.
Qed.

(** With the backend down every request fails with the [detail] of its
    503; an unknown route fails with the text of its 404 page; a 422
    whose [detail] is an object with a [toString] entry fails with an
    error that has no status. *)
Lemma request_failure_witness :
  fst (Client.request Example.platformDown ProjectsPage.api "GET" "/projects"
         Client.noOptions (Example.world "Q2")) =
    Throw (mkError "Nope" (Some 503) (Some (VObj [("detail"%string, VStr "Nope")])))
  /\
  fst (Client.request Example.platform AuthContext.api "GET" "/nowhere"
         Client.noOptions (Example.world "Q2")) =
    Throw (mkError "Not Found" (Some 404) (Some (VStr "Not Found")))
  /\
  (exists e,
      fst (Client.request Backends.platformOdd ProjectsPage.api "GET" "/projects"
             Client.noOptions (Example.world "Q2")) = Throw e /\
      err_status e = None /\ err_data e = None).
Proof.
  split; [|split].
  - destruct (request_failure Example.platformDown ProjectsPage.api "GET" "/projects"
                Client.noOptions (Example.world "Q2") 503 Example.detailText)
      as (H & _); [reflexivity | right; lia | apply H; reflexivity].
  - destruct (request_failure Example.platform AuthContext.api "GET" "/nowhere"
                Client.noOptions (Example.world "Q2") 404 "Not Found")
      as (H & _); [reflexivity | right; lia | apply H; reflexivity].
  - destruct (request_failure Backends.platformOdd ProjectsPage.api "GET" "/projects"
                Client.noOptions (Example.world "Q2") 422 Backends.oddText)
      as (_ & H & _); [reflexivity | right; lia | apply H; reflexivity].
Defined.

(** C6, the counterexample. The body of this 500 is JSON, the string
    literal ["oops"] in quotes, and has none of the three fields; as
    specified the message would be the generic one, yet the error carries
    the string the literal stands for, which is not the raw text either. *)
Lemma request_failure_counterexample :
  JSON_parse Example.platform Example.oopsText = Some (VStr "oops")
  /\
  Example.server [] (Client.buildRequest Example.platform ProjectsPage.api "GET"
                       "/projects" Client.noOptions (Example.world "Q2"))
    = Response 500 Example.oopsText
  /\
  messageAsSpecified Example.platform 500 Example.oopsText
    = VStr "Request failed (500)"
  /\
  fst (Client.request Example.platform ProjectsPage.api "GET" "/projects"
         Client.noOptions (Example.world "Q2")) =
    Throw (mkError "oops" (Some 500) (Some (VStr "oops")))
  /\
  "oops"%string <> "Request failed (500)"%string
  /\
  "oops"%string <> Example.oopsText.
Proof.
  split; [reflexivity|]. split; [reflexivity|]. split; [reflexivity|].
  split; [reflexivity|]. split; discriminate.
Qed.

(** ** Archiving a project *)

(** C7. When the PATCH that archives a project fails, a DELETE of the
    same project is requested next; when that fails too, exactly one
    toast, of type error and carrying the message of the DELETE's error,
    is pushed, and the project list (and the selection) stay as they
    were. *)
Theorem archive_falls_back_to_delete (P : Platform) (p : value) (w w1 w2 : World)
  (e1 e2 : JsError) :
  Client.api_patch P ProjectsPage.api
    ("/projects/" ++ toString (Js.get p "id"))%string
    (Client.withBody (VObj [("status"%string, VStr "archived")])) w = (Throw e1, w1) ->
  Client.api_delete P ProjectsPage.api
    ("/projects/" ++ toString (Js.get p "id"))%string Client.noOptions w1
    = (Throw e2, w2) ->
  exists final,
    ProjectsPage.archiveOrDelete P p w = (Normal tt, final) /\
    requestsOf (log final) =
      requestsOf (log w) ++
      [Client.buildRequest P ProjectsPage.api "PATCH"
         ("/projects/" ++ toString (Js.get p "id"))%string
         (Client.withBody (VObj [("status"%string, VStr "archived")])) w;
       Client.buildRequest P ProjectsPage.api "DELETE"
         ("/projects/" ++ toString (Js.get p "id"))%string Client.noOptions w] /\
    toasts (ui final) =
      mkToast (toastId (ui w) + 1) "error" "Action failed" (err_message e2) 4500
      :: toasts (ui w) /\
    toastId (ui final) = toastId (ui w) + 1 /\
    projects (projectsPage final) = projects (projectsPage w) /\
    selected (projectsPage final) = selected (projectsPage w).
Proof.
  intros Hpatch Hdelete.
  exists (snd (UIContext.pushToast
                 (UIContext.failure "Action failed" (err_message e2)) w2)).
  destruct (page_request_answer_frame P _ _ _ _ _ _ Hpatch) as [Hs1 Hl1].
  destruct (page_request_answer_frame P _ _ _ _ _ _ Hdelete) as [Hs2 Hl2].
  pose proof (sameData_trans _ _ _ Hs1 Hs2) as Hs.
  destruct (pushToast_toasts
              (UIContext.failure "Action failed" (err_message e2)) w2) as [Hts Hid].
  destruct (pushToast_pages
              (UIContext.failure "Action failed" (err_message e2)) w2) as (Hp & _ & _).
  destruct (sameData_toasts _ _ Hs) as [Ht0 Hi0].
  split; [|split; [|split; [|split; [|split]]]].
  - unfold ProjectsPage.archiveOrDelete, bind, tryCatch.
    rewrite Hpatch. unfold ret at 1. cbv beta iota.
    rewrite Hdelete. reflexivity.
  - rewrite pushToast_log, Hl2, Hl1, <- app_assoc. simpl.
    do 3 f_equal. apply buildRequest_auth. apply Hs1.
  - rewrite Hts, Ht0, Hi0.
    cbn [UIContext.failure UIContext.t_type UIContext.t_title
         UIContext.t_description UIContext.t_timeoutMs].
    rewrite orElse_description. reflexivity.
  - now rewrite Hid, Hi0.
  - now rewrite Hp, (sameData_projectsPage _ _ Hs).
  - now rewrite Hp, (sameData_projectsPage _ _ Hs).
Qed.

(** With the backend down, archiving project 7 requests the PATCH, then
    the DELETE, and ends with one error toast and the list untouched. *)
Lemma archive_falls_back_to_delete_witness :
  exists final,
    ProjectsPage.archiveOrDelete Example.platformDown Example.project7
      (Example.world "Q2") = (Normal tt, final) /\
    map (fun r => (req_method r, req_url r)) (requestsOf (log final)) =
      [("PATCH", "/projects/7"); ("DELETE", "/projects/7")]%string /\
    map toast_type (toasts (ui final)) = ["error"%string] /\
    map toast_description (toasts (ui final)) = ["Nope"%string] /\
    projects (projectsPage final) = [Example.project7].
Proof.
  pose (P := Example.platformDown). pose (w := Example.world "Q2").
  pose (err := mkError "Nope" (Some 503) (Some (VObj [("detail"%string, VStr "Nope")]))).
  pose (w1 := snd (Client.api_patch P ProjectsPage.api "/projects/7"
                     (Client.withBody (VObj [("status"%string, VStr "archived")])) w)).
  pose (w2 := snd (Client.api_delete P ProjectsPage.api "/projects/7" Client.noOptions w1)).
  destruct (archive_falls_back_to_delete P Example.project7 w w1 w2 err err)
    as (final & Hrun & Hl & Ht & _ & Hp & _);
    [vm_compute; reflexivity | vm_compute; reflexivity |].
  exists final. split; [exact Hrun|].
  rewrite Hl, Ht, Hp. vm_compute. repeat split.
Defined.

(** ** Validation of the project form *)

Lemma length_append (a b : string) :
  String.length (a ++ b)%string = (String.length a + String.length b)%nat.
Proof. induction a as [|c a IH]; simpl; [reflexivity|now rewrite IH]. Qed.

Lemma length_rev (s : string) : String.length (Str.rev s) = String.length s.
Proof.
  induction s as [|c s IH]; simpl; [reflexivity|].
  rewrite length_append, IH; simpl. lia.
Qed.

Lemma length_trimStart (s : string) :
  (String.length (Str.trimStart s) <= String.length s)%nat.
Proof.
  induction s as [|c s IH]; simpl; [lia|].
  destruct (Str.is_space c); simpl; lia.
Qed.

(** Trimming never lengthens. *)
Lemma length_trim (s : string) : Str.length (Str.trim s) <= Str.length s.
Proof.
  unfold Str.length, Str.trim, Str.trimEnd.
  rewrite length_rev.
  pose proof (length_trimStart (Str.rev (Str.trimStart s))) as H1.
  rewrite length_rev in H1.
  pose proof (length_trimStart s) as H2. lia.
Qed.

Lemma validateProject_short (f : value) (s : string) :
  Js.get f "name" = VStr s ->
  Str.length (Str.trim s) < 2 ->
  ProjectsPage.validateProject f =
    Normal [("name", "Name must be at least 2 characters.")]%string.
Proof.
  intros Hn Hlen. unfold ProjectsPage.validateProject. rewrite Hn.
  apply Z.ltb_lt in Hlen. rewrite Hlen.
  destruct (negb (truthy (VStr s))); reflexivity.
Qed.

Lemma validateProject_long (f : value) (s : string) :
  Js.get f "name" = VStr s ->
  2 <= Str.length (Str.trim s) ->
  ProjectsPage.validateProject f = Normal [].
Proof.
  intros Hn Hlen. unfold ProjectsPage.validateProject. rewrite Hn.
  assert (Hs : truthy (VStr s) = true).
  { destruct s; [|reflexivity]. cbn in Hlen. lia. }
  rewrite Hs. cbn [negb].
  apply Z.ltb_ge in Hlen. now rewrite Hlen.
Qed.

(** C8 (as amended). [save] validates the form before anything else. A
    name whose length after trimming the surrounding white space is at
    least 2, such as ["Q2"], passes, and in create mode the form is then
    posted. A name whose trimmed length is below 2, as is every name of
    length 1 or 0, fails: the message is attached to the [name] field of
    the error state and nothing is sent, nor is anything else changed. *)
Theorem validation_precedes_network (P : Platform) (w : World) (s : string) :
  Js.get (form (projectsPage w)) "name" = VStr s ->
  (2 <= Str.length (Str.trim s) ->
   ProjectsPage.validateProject (form (projectsPage w)) = Normal [] /\
   (mode (projectsPage w) = "create"%string ->
    requestsOf (log (snd (ProjectsPage.save P w))) =
      requestsOf (log w) ++
      [Client.buildRequest P ProjectsPage.api "POST" "/projects"
         (Client.withBody (form (projectsPage w))) w]))
  /\
  (Str.length (Str.trim s) < 2 ->
   ProjectsPage.save P w =
     (Normal tt,
      ProjectsPage.setErrors
        [("name", "Name must be at least 2 characters.")]%string w) /\
   log (snd (ProjectsPage.save P w)) = log w)
  /\
  (Str.length s <= 1 -> Str.length (Str.trim s) < 2)
  /\
  ProjectsPage.validateProject (Example.projectForm "Q2") = Normal []
  /\
  ProjectsPage.validateProject (Example.projectForm "Q") =
    Normal [("name", "Name must be at least 2 characters.")]%string
  /\
  ProjectsPage.validateProject (Example.projectForm EmptyString) =
    Normal [("name", "Name must be at least 2 characters.")]%string.
Proof.
  intros Hn.
  split; [|split; [|split; [|split; [|split]]]]; try reflexivity.
  - intros Hlen.
    pose proof (validateProject_long _ _ Hn Hlen) as Hv.
    split; [exact Hv|]. intros Hmode.
    unfold ProjectsPage.save. rewrite Hv. cbn [List.length Nat.eqb negb].
    rewrite Hmode. cbn [String.eqb Ascii.eqb Bool.eqb].
    set (w1 := ProjectsPage.setErrors [] w).
    assert (Hl1 : log w1 = log w) by reflexivity.
    unfold tryCatch, bind at 1.
    destruct (Client.api_post P ProjectsPage.api "/projects"
                (Client.withBody (form (projectsPage w))) w1) as [[created|e] w2] eqn:E;
      destruct (page_request_answer_frame P _ _ _ _ _ _ E) as [Hs2 Hl2].
    + unfold ProjectsPage.pushToast, bind, modify. cbn [snd].
      change (log (ProjectsPage.setMode "none" ?x)) with (log x).
      change (log (ProjectsPage.setProjects ?f ?x)) with (log x).
      rewrite pushToast_log, Hl2, Hl1. reflexivity.
    + unfold ProjectsPage.pushToast, modify. cbn [snd].
      rewrite pushToast_log, Hl2, Hl1. reflexivity.
  - intros Hlen.
    pose proof (validateProject_short _ _ Hn Hlen) as Hv.
    unfold ProjectsPage.save. rewrite Hv. split; reflexivity.
  - intros Hlen. pose proof (length_trim s). lia.
Qed.

(** Saving the create form with the name ["Q2"] posts it; with ["Q"] or
    the empty name the error is attached and nothing is sent. *)
Lemma validation_precedes_network_witness :
  map (fun r => (req_method r, req_url r))
      (requestsOf (log (snd (ProjectsPage.save Example.platform (Example.world "Q2")))))
    = [("POST", "/projects")]%string
  /\
  ProjectsPage.save Example.platform (Example.world "Q") =
    (Normal tt,
     ProjectsPage.setErrors [("name", "Name must be at least 2 characters.")]%string
       (Example.world "Q"))
  /\
  requestsOf (log (snd (ProjectsPage.save Example.platform (Example.world EmptyString))))
    = [].
Proof.
  split; [|split].
  - destruct (validation_precedes_network Example.platform (Example.world "Q2") "Q2")
      as ((_ & H) & _); [reflexivity | vm_compute; discriminate |].
    rewrite H; [vm_compute|]; reflexivity.
  - destruct (validation_precedes_network Example.platform (Example.world "Q") "Q")
      as (_ & H & _); [reflexivity|].
    apply H. reflexivity.
  - destruct (validation_precedes_network Example.platform
                (Example.world EmptyString) EmptyString)
      as (_ & H & _); [reflexivity|].
    destruct H as [_ H]; [reflexivity|]. now rewrite H.
Defined.

(** C8, the counterexample. The name made of a space and a [Q] has length
    2, and fails validation all the same: the error is attached and
    nothing is sent. *)
Lemma validation_counterexample :
  Str.length " Q" = 2
  /\
  ProjectsPage.validateProject (Example.projectForm " Q") =
    Normal [("name", "Name must be at least 2 characters.")]%string
  /\
  ProjectsPage.save Example.platform (Example.world " Q") =
    (Normal tt,
     ProjectsPage.setErrors [("name", "Name must be at least 2 characters.")]%string
       (Example.world " Q"))
  /\
  requestsOf (log (snd (ProjectsPage.save Example.platform (Example.world " Q")))) = [].
Proof. split; [|split; [|split]]; reflexivity. Qed.

(** ** The busy and idle signals of a request *)

(** C9 (as amended). A call of [request] on a client that was given an
    [onLoading] hook calls the hook with [true] once, right before the
    [fetch], and with [false] once, after the request has settled, be it
    with a result or with an error; between the two nothing but the
    [fetch] happens. A client without hook, as the session manager's,
    signals nothing. *)
Theorem request_signals_once (P : Platform) (c : Client.Options)
  (method path : string) (o : Client.RequestOptions) (w w' : World)
  (outcome : Completion value) :
  Client.request P c method path o w = (outcome, w') ->
  (forall hook,
      Client.onLoading c = Some hook ->
      (forall b w0, log (hook b w0) = log w0) ->
      log w' = log w ++ [Loading true;
                         Fetch (Client.buildRequest P c method path o w);
                         Loading false])
  /\
  (Client.onLoading c = None ->
   log w' = log w ++ [Fetch (Client.buildRequest P c method path o w)]).
Proof.
  intros Hrun. rewrite request_eq in Hrun.
  apply (f_equal snd) in Hrun; cbn [snd] in Hrun. subst w'.
  split.
  - intros hook Hh Hlog. unfold Client.signal. rewrite Hh.
    rewrite Hlog, !emit_log, Hlog, emit_log, <- !app_assoc. reflexivity.
  - intros Hn. unfold Client.signal. rewrite Hn. reflexivity.
Qed.

(** A failing and an answering request of the projects page each signal
    busy, fetch, idle; a request of the session manager only fetches. *)
Lemma request_signals_once_witness :
  signalsOf (log (snd (Client.request Example.platform ProjectsPage.api "GET"
                         "/projects" Client.noOptions (Example.world "Q2"))))
    = [true; false]
  /\
  log (snd (Client.request Example.platform ProjectsPage.api "GET"
              "/api/projects" Client.noOptions (Example.world "Q2")))
    = [Loading true;
       Fetch (mkRequest "GET" "/api/projects" [] None);
       Loading false]
  /\
  log (snd (Client.request Example.platform AuthContext.api "GET"
              "/auth/me" Client.noOptions (Example.world "Q2")))
    = [Fetch (mkRequest "GET" "/auth/me" [] None)].
Proof.
  pose (P := Example.platform). pose (w := Example.world "Q2").
  split; [|split].
  - pose (r := Client.request P ProjectsPage.api "GET" "/projects" Client.noOptions w).
    destruct (request_signals_once P ProjectsPage.api "GET" "/projects"
                Client.noOptions w (snd r) (fst r)) as [H _]; [reflexivity|].
    exact (f_equal signalsOf (H UIContext.setLoading eq_refl setLoading_log)).
  - pose (r := Client.request P ProjectsPage.api "GET" "/api/projects" Client.noOptions w).
    destruct (request_signals_once P ProjectsPage.api "GET" "/api/projects"
                Client.noOptions w (snd r) (fst r)) as [H _]; [reflexivity|].
    exact (H UIContext.setLoading eq_refl setLoading_log).
  - pose (r := Client.request P AuthContext.api "GET" "/auth/me" Client.noOptions w).
    destruct (request_signals_once P AuthContext.api "GET" "/auth/me"
                Client.noOptions w (snd r) (fst r)) as [_ H]; [reflexivity|].
    exact (H eq_refl).
Defined.

(** C9, the counterexample. The session manager builds its client without
    [onLoading]: the POST that [login] sends is fetched, and neither the
    busy nor the idle signal is emitted. *)
Lemma request_signals_counterexample :
  Client.onLoading AuthContext.api = None
  /\
  map req_url
      (requestsOf (log (snd (Client.request Example.platform AuthContext.api "POST"
                               "/auth/login"
                               (Client.withBody (VObj [("email"%string, VStr "ann@corp.io");
                                                       ("password"%string, VStr "pw")]))
                               (Example.world "Q2")))))
    = ["/auth/login"%string]
  /\
  signalsOf (log (snd (Client.request Example.platform AuthContext.api "POST"
                         "/auth/login"
                         (Client.withBody (VObj [("email"%string, VStr "ann@corp.io");
                                                 ("password"%string, VStr "pw")]))
                         (Example.world "Q2"))))
    = [].
Proof. split; [|split]; reflexivity. Qed.

(** ** The loading indicator over time *)

Module LoadingFacts.

Import LoadingSignal.

Lemma fireDue_frame (t : Z) (ts : list Timer) (w : World) :
  timers (Timers.fireDue t ts w) = timers w /\
  now (Timers.fireDue t ts w) = now w /\
  loadingTimer (ui (Timers.fireDue t ts w)) = loadingTimer (ui w).
Proof.
  revert w; induction ts as [|tm ts IH]; intros w; simpl; [repeat split|].
  destruct (tm_due tm <=? t); [|apply IH].
  destruct (IH (Timers.runAction (tm_action tm) w)) as (H1 & H2 & H3).
  rewrite H1, H2, H3. destruct (tm_action tm); repeat split.
Qed.

(** Firing the due timeouts leaves the indicator on unless a hide timeout
    was among them. *)
Lemma fireDue_globalLoading (t : Z) (ts : list Timer) (w : World) :
  globalLoading (ui (Timers.fireDue t ts w)) =
    if existsb (fun d => d <=? t) (map tm_due (filter isHide ts))
    then false else globalLoading (ui w).
Proof.
  revert w; induction ts as [|tm ts IH]; intros w; simpl; [reflexivity|].
  unfold isHide at 1.
  destruct (tm_due tm <=? t) eqn:E; rewrite IH;
    destruct (tm_action tm); simpl; rewrite ?E; simpl;
    destruct (existsb _ _); reflexivity.
Qed.

Lemma filter_filter_comm {A : Type} (f g : A -> bool) (l : list A) :
  filter f (filter g l) = filter g (filter f l).
Proof.
  induction l as [|a l IH]; simpl; [reflexivity|].
  destruct (f a) eqn:Ef, (g a) eqn:Eg; simpl; rewrite ?Ef, ?Eg, IH; reflexivity.
Qed.

Lemma view_advanceTo (t : Z) (w : World) :
  view (Timers.advanceTo t w) = elapse t (view w).
Proof.
  unfold view, elapse, Timers.advanceTo, pendingHide; simpl.
  destruct (fireDue_frame t (timers w) w) as (_ & Hn & _).
  rewrite fireDue_globalLoading. f_equal.
  rewrite filter_filter_comm.
  induction (filter isHide (timers w)) as [|tm l IH]; simpl; [reflexivity|].
  destruct (tm_due tm <=? t); simpl; now rewrite IH.
Qed.

Lemma timerInv_advanceTo (t : Z) (w : World) :
  timerInv w -> timerInv (Timers.advanceTo t w).
Proof.
  unfold timerInv, Timers.advanceTo; simpl. intros H tm Hin Hh.
  apply filter_In in Hin. destruct Hin as [Hin _].
  destruct (fireDue_frame t (timers w) w) as (_ & _ & Hl).
  rewrite Hl. now apply H.
Qed.

Lemma enqueue_In (tm x : Timer) (ts : list Timer) :
  In x (Timers.enqueue tm ts) -> x = tm \/ In x ts.
Proof.
  induction ts as [|t ts IH]; simpl.
  - intros [H|[]]; auto.
  - destruct (tm_due t <=? tm_due tm); simpl.
    + intros [H|H]; [auto|]. destruct (IH H); auto.
    + intros [H|[H|H]]; auto.
Qed.

Lemma enqueue_hides (tm : Timer) (ts : list Timer) :
  isHide tm = true ->
  filter isHide ts = [] ->
  filter isHide (Timers.enqueue tm ts) = [tm].
Proof.
  intros Hh. induction ts as [|t ts IH]; simpl; intros Hf.
  - now rewrite Hh.
  - destruct (isHide t) eqn:Et; [discriminate|].
    destruct (tm_due t <=? tm_due tm); simpl; rewrite ?Et, ?Hh.
    + now apply IH.
    + now rewrite Hf.
Qed.

(** Under the invariant, clearing the timeout of the ref leaves no hide
    timeout pending. *)
Lemma clear_hides (w : World) :
  timerInv w ->
  filter isHide
    (match loadingTimer (ui w) with
     | Some id => filter (fun t => negb (Pos.eqb (tm_id t) id)) (timers w)
     | None => timers w
     end) = [].
Proof.
  unfold timerInv. intros H.
  assert (G : forall l, (forall tm, In tm l -> In tm (timers w)) ->
              filter isHide
                (match loadingTimer (ui w) with
                 | Some id => filter (fun t => negb (Pos.eqb (tm_id t) id)) l
                 | None => l
                 end) = []).
  { induction l as [|tm l IH]; intros Hsub.
    - destruct (loadingTimer (ui w)); reflexivity.
    - assert (Hl : forall x, In x l -> In x (timers w))
        by (intros x Hx; apply Hsub; now right).
      specialize (IH Hl).
      pose proof (H tm (Hsub tm (or_introl eq_refl))) as Htm.
      destruct (loadingTimer (ui w)) as [id|]; simpl.
      + destruct (Pos.eqb (tm_id tm) id) eqn:E; simpl; [exact IH|].
        destruct (isHide tm) eqn:Eh; [|exact IH].
        specialize (Htm eq_refl). inversion Htm; subst.
        rewrite Pos.eqb_refl in E. discriminate.
      + destruct (isHide tm) eqn:Eh; [|exact IH].
        specialize (Htm eq_refl). discriminate. }
  apply G. auto.
Qed.

Lemma view_setLoading (b : bool) (w : World) :
  timerInv w ->
  view (UIContext.setLoading b w) = call b (view w) /\
  timerInv (UIContext.setLoading b w).
Proof.
  intros Hinv. pose proof (clear_hides w Hinv) as Hc.
  unfold view, call, pendingHide, timerInv, UIContext.setLoading.
  destruct (loadingTimer (ui w)) as [id|] eqn:El; destruct b; simpl in *.
  - rewrite Hc. split; [reflexivity|].
    intros tm Hin Hh. exfalso.
    assert (In tm (filter isHide
                     (filter (fun t => negb (Pos.eqb (tm_id t) id)) (timers w))))
      by (apply filter_In; auto).
    rewrite Hc in H. destruct H.
  - rewrite enqueue_hides by (reflexivity || exact Hc). split; [reflexivity|].
    intros tm Hin Hh. apply enqueue_In in Hin. destruct Hin as [->|Hin]; [reflexivity|].
    exfalso.
    assert (In tm (filter isHide
                     (filter (fun t => negb (Pos.eqb (tm_id t) id)) (timers w))))
      by (apply filter_In; auto).
    rewrite Hc in H. destruct H.
  - rewrite Hc. split; [reflexivity|].
    intros tm Hin Hh. exfalso.
    assert (In tm (filter isHide (timers w))) by (apply filter_In; auto).
    rewrite Hc in H. destruct H.
  - rewrite enqueue_hides by (reflexivity || exact Hc). split; [reflexivity|].
    intros tm Hin Hh. apply enqueue_In in Hin. destruct Hin as [->|Hin]; [reflexivity|].
    exfalso.
    assert (In tm (filter isHide (timers w))) by (apply filter_In; auto).
    rewrite Hc in H. destruct H.
Qed.

(** The invariant holds when nothing is pending, and a toast keeps it. *)
Lemma timerInv_no_timers (w : World) : timers w = [] -> timerInv w.
Proof. unfold timerInv. intros H tm Hin. rewrite H in Hin. destruct Hin. Qed.

Lemma timerInv_pushToast (t : UIContext.ToastInput) (w : World) :
  timerInv w -> timerInv (snd (UIContext.pushToast t w)).
Proof.
  unfold timerInv, UIContext.pushToast. intros H tm; simpl.
  destruct (_ =? 0); simpl; [apply H|].
  intros Hin Hh. apply enqueue_In in Hin. destruct Hin as [->|Hin]; [discriminate|].
  now apply H.
Qed.

(** A schedule run on the console is the schedule run on its view. *)
Lemma view_run (schedule : list (Z * bool)) (w : World) :
  timerInv w ->
  view (run schedule w) = runView schedule (view w) /\ timerInv (run schedule w).
Proof.
  revert w; induction schedule as [|[t b] rest IH]; intros w Hinv; simpl.
  - split; [reflexivity|assumption].
  - destruct (view_setLoading b _ (timerInv_advanceTo t w Hinv)) as [Hv Hi].
    destruct (IH _ Hi) as [Hv' Hi'].
    rewrite Hv', Hv, view_advanceTo. split; [reflexivity|assumption].
Qed.

Lemma signalAt_view (schedule : list (Z * bool)) (t : Z) (w : World) :
  timerInv w ->
  signalAt schedule t w =
    on (elapse t (runView (filter (fun c => fst c <=? t) schedule) (view w))).
Proof.
  intros Hinv. unfold signalAt.
  change (globalLoading (ui ?x)) with (on (view x)).
  rewrite view_advanceTo.
  now rewrite (proj1 (view_run _ w Hinv)).
Qed.

End LoadingFacts.

Module SignalFacts.

Import LoadingSignal.

Ltac split_leb :=
  repeat match goal with
         | |- context [?a <=? ?b] =>
             let H := fresh "H" in
             destruct (Z.leb_spec a b) as [H|H]; cbn
         end.

Lemma runView_app (s1 s2 : list (Z * bool)) (v : View) :
  runView (s1 ++ s2) v = runView s2 (runView s1 v).
Proof.
  revert v; induction s1 as [|[t b] s1 IH]; intros v; simpl; [reflexivity|apply IH].
Qed.

Lemma clock_call (b : bool) (v : View) : clock (call b v) = clock v.
Proof. destruct b; reflexivity. Qed.

Lemma clock_runView (s : list (Z * bool)) (v : View) (tl : Z) :
  Forall (fun c => fst c <= tl) s ->
  clock v <= tl ->
  clock (runView s v) <= tl.
Proof.
  revert v; induction s as [|[t b] s IH]; intros v Hall Hv; simpl; [assumption|].
  inversion Hall; subst. apply IH; [assumption|].
  rewrite clock_call. cbn in *. lia.
Qed.

Lemma filter_upto (s : list (Z * bool)) (t : Z) :
  Forall (fun c => fst c <= t) s ->
  filter (fun c => fst c <=? t) s = s.
Proof.
  induction 1 as [|c s Hc Hs IH]; simpl; [reflexivity|].
  apply Z.leb_le in Hc. now rewrite Hc, IH.
Qed.

(** Two overlapping requests, the second starting 10 ms after the first
    and the later completion 50 ms after the first start. *)
Lemma overlapping (v : View) (t0 e1 e2 t : Z) :
  clock v <= t0 -> t0 + 10 <= e1 -> t0 + 10 <= e2 -> Z.max e1 e2 = t0 + 50 ->
  on (elapse t (runView (filter (fun c => fst c <=? t)
                           (twoRequests t0 e1 (t0 + 10) e2)) v)) =
    if t <? t0 then on (elapse t v) else t <? t0 + 200.
Proof.
  intros Hn H1 H2 Hm. destruct v as [g ph n]. cbn in Hn.
  unfold twoRequests.
  destruct (Z.ltb_spec t t0) as [Ht|Ht];
    [|destruct (Z.ltb_spec t (t0 + 200)) as [Ht2|Ht2]];
    split_leb; try lia; try reflexivity.
Qed.

(** Two requests back to back: the second starts within the grace window
    of the first. *)
Lemma back_to_back (v : View) (s1 e1 s2 e2 t : Z) :
  clock v <= s1 -> s1 <= e1 -> e1 <= s2 -> s2 < e1 + 150 -> s2 <= e2 ->
  on (elapse t (runView (filter (fun c => fst c <=? t)
                           (twoRequests s1 e1 s2 e2)) v)) =
    if t <? s1 then on (elapse t v) else t <? e2 + 150.
Proof.
  intros Hn H1 H2 H3 H4. destruct v as [g ph n]. cbn in Hn.
  unfold twoRequests.
  destruct (Z.ltb_spec t s1) as [Ht|Ht];
    [|destruct (Z.ltb_spec t (e2 + 150)) as [Ht2|Ht2]];
    split_leb; try lia; try reflexivity.
Qed.

(** After a call with [true] the indicator stays on until the next call. *)
Lemma last_call_true (v : View) (s : list (Z * bool)) (tl t : Z) :
  Forall (fun c => fst c <= tl) s -> tl <= t ->
  on (elapse t (runView (filter (fun c => fst c <=? t) (s ++ [(tl, true)])) v)) = true.
Proof.
  intros Hall Ht.
  rewrite filter_upto.
  - rewrite runView_app. reflexivity.
  - apply Forall_app. split.
    + eapply Forall_impl; [|exact Hall]. cbn. intros; lia.
    + constructor; [cbn; lia|constructor].
Qed.

(** 150 ms after a call with [false], and until the next call, the
    indicator is off. *)
Lemma last_call_false (v : View) (s : list (Z * bool)) (tl t : Z) :
  Forall (fun c => fst c <= tl) s -> clock v <= tl -> tl + 150 <= t ->
  on (elapse t (runView (filter (fun c => fst c <=? t) (s ++ [(tl, false)])) v)) = false.
Proof.
  intros Hall Hv Ht.
  rewrite filter_upto.
  - rewrite runView_app. cbn.
    pose proof (clock_runView s v tl Hall Hv) as Hc.
    destruct (Z.leb_spec (Z.max (clock (runView s v)) tl + 150) t); [reflexivity|lia].
  - apply Forall_app. split.
    + eapply Forall_impl; [|exact Hall]. cbn. intros; lia.
    + constructor; [cbn; lia|constructor].
Qed.

End SignalFacts.

(** C4 (as amended). [globalLoading] is switched on by every start of a
    request and switched off only by the timeout that the most recent
    completion set, 150 ms after it, unless a request starts before; it
    does not count the requests in flight. So: for two overlapping
    requests that start at [t0] and [t0 + 10] and of which the later
    completes at [t0 + 50], the indicator is on from [t0] until
    [t0 + 200] and off from then on; for two requests back to back, the
    second starting less than 150 ms after the first completed, it is on
    from the first start until 150 ms after the second completion, with no
    gap; after any schedule of calls it is on once the last call was a
    start, and off once 150 ms have passed since a last call that was a
    completion. *)
Theorem loading_signal_grace (w : World) :
  LoadingSignal.timerInv w ->
  (forall t0 e1 e2 t : Z,
      now w <= t0 -> t0 + 10 <= e1 -> t0 + 10 <= e2 -> Z.max e1 e2 = t0 + 50 ->
      t0 <= t ->
      LoadingSignal.signalAt (LoadingSignal.twoRequests t0 e1 (t0 + 10) e2) t w
        = (t <? t0 + 200))
  /\
  (forall s1 e1 s2 e2 t : Z,
      now w <= s1 -> s1 <= e1 -> e1 <= s2 -> s2 < e1 + 150 -> s2 <= e2 ->
      s1 <= t ->
      LoadingSignal.signalAt (LoadingSignal.twoRequests s1 e1 s2 e2) t w
        = (t <? e2 + 150))
  /\
  (forall (schedule : list (Z * bool)) (tl t : Z),
      Forall (fun c => fst c <= tl) schedule -> tl <= t ->
      LoadingSignal.signalAt (schedule ++ [(tl, true)]) t w = true)
  /\
  (forall (schedule : list (Z * bool)) (tl t : Z),
      Forall (fun c => fst c <= tl) schedule -> now w <= tl -> tl + 150 <= t ->
      LoadingSignal.signalAt (schedule ++ [(tl, false)]) t w = false).
Proof.
  intros Hinv. split; [|split; [|split]].
  - intros t0 e1 e2 t Hn H1 H2 Hm Ht.
    rewrite (LoadingFacts.signalAt_view _ _ _ Hinv).
    rewrite (SignalFacts.overlapping (LoadingSignal.view w) t0 e1 e2 t Hn H1 H2 Hm).
    destruct (Z.ltb_spec t t0); [lia|reflexivity].
  - intros s1 e1 s2 e2 t Hn H1 H2 H3 H4 Ht.
    rewrite (LoadingFacts.signalAt_view _ _ _ Hinv).
    rewrite (SignalFacts.back_to_back (LoadingSignal.view w) s1 e1 s2 e2 t Hn H1 H2 H3 H4).
    destruct (Z.ltb_spec t s1); [lia|reflexivity].
  - intros schedule tl t Hall Ht.
    rewrite (LoadingFacts.signalAt_view _ _ _ Hinv).
    now apply SignalFacts.last_call_true.
  - intros schedule tl t Hall Hn Ht.
    rewrite (LoadingFacts.signalAt_view _ _ _ Hinv).
    now apply SignalFacts.last_call_false.
Qed.

(** Two requests over [[0, 30]] and [[10, 50]]: the indicator is on at 40,
    between the two completions, and at 199, and off at 200. *)
Lemma loading_signal_grace_witness :
  LoadingSignal.signalAt (LoadingSignal.twoRequests 0 30 10 50) 40 (Example.world "Q2")
    = true
  /\
  LoadingSignal.signalAt (LoadingSignal.twoRequests 0 30 10 50) 199 (Example.world "Q2")
    = true
  /\
  LoadingSignal.signalAt (LoadingSignal.twoRequests 0 30 10 50) 200 (Example.world "Q2")
    = false
  /\
  LoadingSignal.signalAt (LoadingSignal.twoRequests 0 30 100 400) 170 (Example.world "Q2")
    = true
  /\
  LoadingSignal.signalAt [(0, true); (30, false)] 180 (Example.world "Q2") = false.
Proof.
  assert (Hinv : LoadingSignal.timerInv (Example.world "Q2"))
    by (apply LoadingFacts.timerInv_no_timers; reflexivity).
  destruct (loading_signal_grace (Example.world "Q2") Hinv) as (HA & HB & _ & HD).
  split; [|split; [|split; [|split]]].
  - apply (HA 0 30 50 40); cbn; lia.
  - apply (HA 0 30 50 199); cbn; lia.
  - apply (HA 0 30 50 200); cbn; lia.
  - apply (HB 0 30 100 400 170); cbn; lia.
  - apply (HD [(0, true)] 30 180); [repeat constructor; cbn; lia | cbn; lia | lia].
Defined.

(** C4, the counterexample. Two overlapping requests over [[0, 20]] and
    [[10, 500]]: at 300 the second is still in flight, and the
    indicator has been off since 170, when the timeout of the first
    completion fired. *)
Lemma loading_signal_counterexample :
  LoadingSignal.inFlight [(0, 20); (10, 500)] 300 = 1%nat
  /\
  LoadingSignal.twoRequests 0 20 10 500 =
    [(0, true); (10, true); (20, false); (500, false)]
  /\
  LoadingSignal.signalAt (LoadingSignal.twoRequests 0 20 10 500) 169
    (Example.world "Q2") = true
  /\
  LoadingSignal.signalAt (LoadingSignal.twoRequests 0 20 10 500) 170
    (Example.world "Q2") = false
  /\
  LoadingSignal.signalAt (LoadingSignal.twoRequests 0 20 10 500) 300
    (Example.world "Q2") = false.
Proof. vm_compute. repeat split. Qed.

(** * Further properties *)

(** ** Joining the base URL and a path *)

Lemma append_nil_r (s : string) : (s ++ EmptyString)%string = s.
Proof. induction s as [|c s IH]; simpl; [reflexivity|now rewrite IH]. Qed.

Lemma append_assoc (a b c : string) :
  ((a ++ b) ++ c)%string = (a ++ (b ++ c))%string.
Proof. induction a as [|x a IH]; simpl; [reflexivity|now rewrite IH]. Qed.

Lemma rev_append (a b : string) :
  Str.rev (a ++ b) = (Str.rev b ++ Str.rev a)%string.
Proof.
  induction a as [|x a IH]; simpl.
  - now rewrite append_nil_r.
  - now rewrite IH, append_assoc.
Qed.

Lemma dropLast_snoc (b : string) (c : ascii) :
  Str.dropLast (b ++ String c EmptyString) = b.
Proof.
  induction b as [|x b IH]; simpl; [reflexivity|].
  rewrite IH. destruct b; reflexivity.
Qed.

Lemma endsWith_snoc (b : string) (c : ascii) :
  Str.endsWith (b ++ String c EmptyString) (String c EmptyString) = true.
Proof.
  unfold Str.endsWith. rewrite rev_append. simpl.
  destruct (ascii_dec c c); [|congruence]. destruct (Str.rev b); reflexivity.
Qed.

Lemma isEmpty_append (a b : string) :
  Str.isEmpty (a ++ b) = Str.isEmpty a && Str.isEmpty b.
Proof. destruct a; reflexivity. Qed.

(** X1. [joinUrl] returns the path as it is when the base is empty;
    otherwise it puts exactly one slash between a base and a path,
    whether or not the base ends with one and the path starts with
    one. *)
Theorem joinUrl_one_slash (b p : string) :
  Client.joinUrl EmptyString p = p
  /\
  (Str.endsWith b "/" = false -> Str.startsWith p "/" = false ->
   (Str.isEmpty b = false -> Client.joinUrl b p = (b ++ "/" ++ p)%string) /\
   (Str.isEmpty b = false -> Client.joinUrl b ("/" ++ p) = (b ++ "/" ++ p)%string) /\
   Client.joinUrl (b ++ "/") p = (b ++ "/" ++ p)%string /\
   Client.joinUrl (b ++ "/") ("/" ++ p) = (b ++ "/" ++ p)%string).
Proof.
  split; [reflexivity|].
  intros Hb Hp.
  assert (Hslash : Str.startsWith ("/" ++ p) "/" = true).
  { unfold Str.startsWith; simpl. destruct p; reflexivity. }
  unfold Client.joinUrl.
  rewrite isEmpty_append, andb_false_r, endsWith_snoc, dropLast_snoc, Hb, Hp, Hslash.
  repeat split; try (intros ->); reflexivity.
Qed.

(** A base with and without its trailing slash, a path with and without
    its leading slash. *)
Lemma joinUrl_one_slash_witness :
  Client.joinUrl "http://api.test" "projects" = "http://api.test/projects"%string /\
  Client.joinUrl "http://api.test/" "/projects" = "http://api.test/projects"%string.
Proof.
  destruct (joinUrl_one_slash "http://api.test" "projects") as (_ & H).
  destruct H as (H1 & _ & _ & H4); [reflexivity|reflexivity|].
  split; [apply H1; reflexivity|exact H4].
Defined.

(** ** What a request carries *)

Lemma header_setEntry (k k' v : string) (o : list (string * string)) :
  header k (Client.setEntry k' v o) =
    if String.eqb k k' then Some v else header k o.
Proof.
  induction o as [|[k0 v0] o IH]; simpl.
  - destruct (String.eqb k k'); reflexivity.
  - destruct (String.eqb k' k0) eqn:E; simpl.
    + apply String.eqb_eq in E; subst k0.
      destruct (String.eqb k k'); reflexivity.
    + destruct (String.eqb k k0) eqn:E0.
      * apply String.eqb_eq in E0; subst k0.
        rewrite String.eqb_sym in E. now rewrite E.
      * exact IH.
Qed.

Lemma header_absent (k : string) (o : list (string * string)) :
  ~ In k (map fst o) -> header k o = None.
Proof.
  induction o as [|[k0 v0] o IH]; simpl; [reflexivity|].
  intros H. destruct (String.eqb k k0) eqn:E.
  - apply String.eqb_eq in E. exfalso; apply H; left; now symmetry.
  - apply IH. intros Hin; apply H; now right.
Qed.

(** The entries of [src] win over those of [dst]. *)
Lemma header_assign (k : string) (dst src : list (string * string)) :
  NoDup (map fst src) ->
  header k (Client.assign dst src) =
    match header k src with Some v => Some v | None => header k dst end.
Proof.
  unfold Client.assign.
  revert dst; induction src as [|[k0 v0] src IH]; intros dst Hnd; simpl.
  - reflexivity.
  - inversion Hnd as [|? ? Hnotin Hnd']; subst.
    rewrite (IH _ Hnd'). rewrite header_setEntry.
    destruct (String.eqb k k0) eqn:E.
    + apply String.eqb_eq in E; subst k0.
      now rewrite (header_absent _ _ Hnotin).
    + reflexivity.
Qed.

(** X2. The request that [request] hands to [fetch]: the bearer token of
    the moment goes into [Authorization] when it is truthy, a truthy body
    is sent with [Content-Type: application/json], a falsy body ([null],
    [0], the empty string) is not sent at all, and a header the caller
    passes replaces the one [request] would set. *)
Theorem request_headers (P : Platform) (c : Client.Options) (method path : string)
  (o : Client.RequestOptions) (w : World) :
  NoDup (map fst (match Client.headers o with Some h => h | None => [] end)) ->
  let custom := match Client.headers o with Some h => h | None => [] end in
  let tok := match Client.getToken c with Some f => f w | None => VNull end in
  let r := Client.buildRequest P c method path o w in
  header "Authorization" (req_headers r) =
    match header "Authorization" custom with
    | Some v => Some v
    | None => if truthy tok then Some ("Bearer " ++ toString tok)%string else None
    end
  /\
  header "Content-Type" (req_headers r) =
    match header "Content-Type" custom with
    | Some v => Some v
    | None => if truthy (Client.body o) then Some "application/json"%string else None
    end
  /\
  req_body r = (if truthy (Client.body o) then Some (Client.body o) else None).
Proof.
  intros Hnd custom tok r. subst r. unfold Client.buildRequest. cbn [req_headers req_body].
  fold custom. fold tok.
  split; [|split; [|reflexivity]].
  - rewrite (header_assign _ _ custom Hnd).
    destruct (header "Authorization" custom); [reflexivity|].
    destruct (truthy tok); destruct (truthy (Client.body o)); reflexivity.
  - rewrite (header_assign _ _ custom Hnd).
    destruct (header "Content-Type" custom); [reflexivity|].
    destruct (truthy tok); destruct (truthy (Client.body o)); reflexivity.
Qed.

(** Signed in with the token [t0], a POST with a body carries both
    headers; a caller's own [Authorization] replaces the bearer token; a
    body of [0] is dropped. *)
Lemma request_headers_witness :
  req_headers (Client.buildRequest Example.platform (AuthContext.apiFor (VStr "t0"))
                 "POST" "/projects" (Client.withBody (VObj [])) (Example.world "Q2"))
    = [("Content-Type", "application/json"); ("Authorization", "Bearer t0")]%string
  /\
  header "Authorization"
    (req_headers (Client.buildRequest Example.platform (AuthContext.apiFor (VStr "t0"))
                    "GET" "/projects"
                    (Client.mkRequestOptions VUndefined
                       (Some [("Authorization", "Basic x")]%string))
                    (Example.world "Q2")))
    = Some "Basic x"%string
  /\
  req_body (Client.buildRequest Example.platform (AuthContext.apiFor (VStr "t0"))
              "POST" "/projects" (Client.withBody (VNum 0)) (Example.world "Q2"))
    = None.
Proof.
  split; [reflexivity|]. split.
  - destruct (request_headers Example.platform (AuthContext.apiFor (VStr "t0"))
                "GET" "/projects"
                (Client.mkRequestOptions VUndefined
                   (Some [("Authorization", "Basic x")]%string))
                (Example.world "Q2")) as (H & _).
    + repeat constructor. intros [].
    + exact H.
  - destruct (request_headers Example.platform (AuthContext.apiFor (VStr "t0"))
                "POST" "/projects" (Client.withBody (VNum 0)) (Example.world "Q2"))
      as (_ & _ & H); [constructor|exact H].
Defined.

(** X3. A response with a status in [200, 299] makes [request] return:
    [null] for an empty body, the parsed value for a JSON body, and the
    raw text for any other body, never a parse error; a [fetch] that
    rejects makes [request] throw that very error. *)
Theorem request_success (P : Platform) (c : Client.Options) (method path : string)
  (o : Client.RequestOptions) (w : World) :
  (forall status text,
      backend P (requestsOf (log (Client.signal c true w)))
              (Client.buildRequest P c method path o w) = Response status text ->
      200 <= status <= 299 ->
      fst (Client.request P c method path o w) = Normal (Client.safeJsonParse P text) /\
      (text = EmptyString -> Client.safeJsonParse P text = VNull) /\
      (forall v, Str.isEmpty text = false -> JSON_parse P text = Some v ->
                 Client.safeJsonParse P text = v) /\
      (Str.isEmpty text = false -> JSON_parse P text = None ->
       Client.safeJsonParse P text = VStr text))
  /\
  (forall e,
      backend P (requestsOf (log (Client.signal c true w)))
              (Client.buildRequest P c method path o w) = NetworkError e ->
      fst (Client.request P c method path o w) = Throw e).
Proof.
  split.
  - intros status text Hb Hs.
    split; [|split; [|split]].
    + rewrite request_eq; cbn [fst]. rewrite Hb. unfold requestResult, Client.ok.
      destruct (Z.leb_spec 200 status); [|lia].
      destruct (Z.leb_spec status 299); [reflexivity|lia].
    + intros ->. reflexivity.
    + intros v He Hp. unfold Client.safeJsonParse. now rewrite He, Hp.
    + intros He Hp. unfold Client.safeJsonParse. now rewrite He, Hp.
  - intros e Hb. rewrite request_eq; cbn [fst]. now rewrite Hb.
Qed.

(** The example backend answers [/api/projects] with a JSON array and
    [/invite] with a 201. *)
Lemma request_success_witness :
  fst (Client.request Example.platform ProjectsPage.api "GET" "/api/projects"
         Client.noOptions (Example.world "Q2")) = Normal (VArr [VNum 1; VNum 2]).
Proof.
  destruct (request_success Example.platform ProjectsPage.api "GET" "/api/projects"
              Client.noOptions (Example.world "Q2")) as (H & _).
  destruct (H 200 "[1,2]"%string) as (H1 & _); [reflexivity|lia|exact H1].
Defined.

(** ** Toasts *)

Lemma NoDup_map_filter {A B : Type} (g : A -> B) (f : A -> bool) (l : list A) :
  NoDup (map g l) -> NoDup (map g (filter f l)).
Proof.
  induction l as [|a l IH]; simpl; intros H; [constructor|].
  inversion H as [|? ? Hn Hd]; subst.
  destruct (f a); simpl; [|now apply IH].
  constructor; [|now apply IH].
  intros Hin. apply Hn.
  apply in_map_iff in Hin. destruct Hin as (x & Hx & Hin).
  apply filter_In in Hin. apply in_map_iff. exists x. tauto.
Qed.

Lemma Forall_filter_keep {A : Type} (Q : A -> Prop) (f : A -> bool) (l : list A) :
  Forall Q l -> Forall Q (filter f l).
Proof.
  rewrite !Forall_forall. intros H x Hx. apply filter_In in Hx. now apply H.
Qed.

Lemma runAction_wellFormed (a : TimerAction) (w : World) :
  toastsWellFormed w -> toastsWellFormed (Timers.runAction a w).
Proof.
  unfold toastsWellFormed. intros [Hn Hf]. destruct a; simpl; [now split|].
  split; [now apply NoDup_map_filter|now apply Forall_filter_keep].
Qed.

Lemma fireDue_wellFormed (t : Z) (ts : list Timer) (w : World) :
  toastsWellFormed w -> toastsWellFormed (Timers.fireDue t ts w).
Proof.
  revert w; induction ts as [|tm ts IH]; intros w H; simpl; [assumption|].
  destruct (tm_due tm <=? t); apply IH; [now apply runAction_wellFormed|assumption].
Qed.

(** X4. Toast ids are unique: the toasts on display have distinct ids,
    none above the counter, and a push (whose id is the counter plus
    one), a dismissal, a call of [setLoading] and the passing of time all
    keep it so. *)
Theorem toast_ids_unique (w : World) :
  toastsWellFormed w ->
  (forall t,
      fst (UIContext.pushToast t w) = toastId (ui w) + 1 /\
      ~ In (fst (UIContext.pushToast t w)) (toastIds w) /\
      toastsWellFormed (snd (UIContext.pushToast t w)))
  /\ (forall id, toastsWellFormed (UIContext.removeToast id w))
  /\ (forall b, toastsWellFormed (UIContext.setLoading b w))
  /\ (forall t, toastsWellFormed (Timers.advanceTo t w)).
Proof.
  intros [Hn Hf].
  assert (Hfresh : ~ In (toastId (ui w) + 1) (toastIds w)).
  { unfold toastIds. intros Hin. apply in_map_iff in Hin.
    destruct Hin as (x & Hx & Hin).
    rewrite Forall_forall in Hf. specialize (Hf x Hin). lia. }
  split; [|split; [|split]].
  - intros t. split; [reflexivity|]. split; [exact Hfresh|].
    unfold toastsWellFormed, UIContext.pushToast. cbn [snd].
    match goal with |- context [if ?c then _ else _] => destruct c end; simpl.
    + split; [constructor; assumption|].
      constructor; [simpl; lia|].
      eapply Forall_impl; [|exact Hf]. simpl; intros; lia.
    + split; [constructor; assumption|].
      constructor; [simpl; lia|].
      eapply Forall_impl; [|exact Hf]. simpl; intros; lia.
  - intros id. unfold toastsWellFormed, UIContext.removeToast; simpl.
    split; [now apply NoDup_map_filter|now apply Forall_filter_keep].
  - intros b. unfold toastsWellFormed.
    destruct (sameData_toasts _ _ (setLoading_sameData b w)) as [-> ->].
    now split.
  - intros t. unfold Timers.advanceTo.
    apply (fireDue_wellFormed t (timers w) w). now split.
Qed.

(** From the start, three pushes and a dismissal leave two toasts, with
    the ids 3 and 1. *)
Lemma toast_ids_unique_witness :
  toastIds
    (UIContext.removeToast 2
       (snd (UIContext.pushToast (UIContext.success "c")
          (snd (UIContext.pushToast (UIContext.success "b")
             (snd (UIContext.pushToast (UIContext.success "a")
                (Example.world "Q2")))))))) = [3; 1]
  /\
  toastsWellFormed
    (snd (UIContext.pushToast (UIContext.success "a") (Example.world "Q2"))).
Proof.
  split; [reflexivity|].
  assert (H0 : toastsWellFormed (Example.world "Q2"))
    by (split; constructor).
  destruct (toast_ids_unique (Example.world "Q2") H0) as (H & _).
  apply (H (UIContext.success "a")).
Defined.

Lemma filter_fresh_id (n : Z) (l : list Toast) :
  Forall (fun t => toast_id t <= n) l ->
  filter (fun x => negb (toast_id x =? n + 1)) l = l.
Proof.
  induction 1 as [|x l Hx Hl IH]; simpl; [reflexivity|].
  destruct (Z.eqb_spec (toast_id x) (n + 1)); [lia|].
  simpl. now rewrite IH.
Qed.

(** X5. Pushing a toast and dismissing it by the id that [pushToast]
    returned restores the toasts that were on display. *)
Theorem push_then_remove (w : World) (t : UIContext.ToastInput) :
  toastsWellFormed w ->
  toasts (ui (UIContext.removeToast (fst (UIContext.pushToast t w))
                (snd (UIContext.pushToast t w)))) = toasts (ui w).
Proof.
  intros [_ Hf].
  destruct (pushToast_toasts t w) as [Hts _].
  unfold UIContext.removeToast. cbn [ui toasts withUI].
  rewrite Hts. cbn [filter toast_id fst UIContext.pushToast].
  rewrite Z.eqb_refl. cbn [negb].
  now apply filter_fresh_id.
Qed.

Lemma push_then_remove_witness :
  toasts (ui (UIContext.removeToast 1
                (snd (UIContext.pushToast (UIContext.success "a")
                        (Example.world "Q2"))))) = [].
Proof.
  apply (push_then_remove (Example.world "Q2") (UIContext.success "a")).
  split; constructor.
Defined.

Lemma enqueue_In_iff (tm x : Timer) (ts : list Timer) :
  In x (Timers.enqueue tm ts) <-> x = tm \/ In x ts.
Proof.
  split; [apply LoadingFacts.enqueue_In|].
  induction ts as [|t ts IH]; simpl.
  - intros [->|[]]; now left.
  - destruct (tm_due t <=? tm_due tm); simpl; intros [->|[->|H]]; auto.
Qed.

Lemma runAction_toasts_subset (a : TimerAction) (w : World) (x : Toast) :
  In x (toasts (ui (Timers.runAction a w))) -> In x (toasts (ui w)).
Proof.
  destruct a; simpl; [auto|]. intros H. apply filter_In in H. tauto.
Qed.

(** The passing of time never adds a toast. *)
Lemma fireDue_toasts_subset (t : Z) (ts : list Timer) (w : World) (x : Toast) :
  In x (toasts (ui (Timers.fireDue t ts w))) -> In x (toasts (ui w)).
Proof.
  revert w; induction ts as [|tm ts IH]; intros w; simpl; [auto|].
  destruct (tm_due tm <=? t); intros H; [|now apply IH].
  apply IH in H. now apply runAction_toasts_subset in H.
Qed.

(** A due timeout takes its toast away. *)
Lemma fireDue_expires (t : Z) (ts : list Timer) (w : World) (tm : Timer) (id : Z) :
  In tm ts -> tm_action tm = ExpireToast id -> tm_due tm <= t ->
  ~ In id (map toast_id (toasts (ui (Timers.fireDue t ts w)))).
Proof.
  revert w; induction ts as [|a ts IH]; intros w Hin Ha Hd; [destruct Hin|].
  simpl. destruct Hin as [->|Hin].
  - apply Z.leb_le in Hd. rewrite Hd, Ha. intros H.
    apply in_map_iff in H. destruct H as (x & Hx & H).
    apply fireDue_toasts_subset in H. simpl in H.
    apply filter_In in H. destruct H as [_ H].
    rewrite Hx, Z.eqb_refl in H. discriminate.
  - destruct (tm_due a <=? t); now apply IH.
Qed.

(** A toast that no due timeout is aimed at stays. *)
Lemma fireDue_keeps (t : Z) (ts : list Timer) (w : World) (x : Toast) :
  In x (toasts (ui w)) ->
  (forall tm, In tm ts -> tm_due tm <= t -> tm_action tm <> ExpireToast (toast_id x)) ->
  In x (toasts (ui (Timers.fireDue t ts w))).
Proof.
  revert w; induction ts as [|a ts IH]; intros w Hx Hno; simpl; [assumption|].
  assert (Hrest : forall tm, In tm ts -> tm_due tm <= t ->
                             tm_action tm <> ExpireToast (toast_id x))
    by (intros tm Hin; apply Hno; now right).
  destruct (Z.leb_spec (tm_due a) t) as [Hd|Hd]; [|now apply IH].
  apply IH; [|assumption].
  pose proof (Hno a (or_introl eq_refl) Hd) as Hne.
  destruct (tm_action a) as [|id]; simpl; [assumption|].
  apply filter_In. split; [assumption|].
  destruct (Z.eqb_spec (toast_id x) id); [congruence|reflexivity].
Qed.

(** X6. A toast stays on display for its time to live and no longer:
    pushed at the time [now] with a non-zero [timeoutMs] (4500 when the
    caller gives none), it is on display at a later time [t'] exactly when
    [t'] is before [now + timeoutMs]; pushed with [timeoutMs: 0] it is
    given no timeout and stays until it is dismissed. *)
Theorem toast_lifetime (w : World) (t : UIContext.ToastInput) :
  expiryWellFormed w ->
  let id := fst (UIContext.pushToast t w) in
  let ms := match UIContext.t_timeoutMs t with Some ms => ms | None => 4500 end in
  let w' := snd (UIContext.pushToast t w) in
  (ms <> 0 ->
   forall t', In id (toastIds (Timers.advanceTo t' w')) <-> t' < now w + Z.max 0 ms)
  /\
  (ms = 0 -> timers w' = timers w /\
             forall t', In id (toastIds (Timers.advanceTo t' w'))).
Proof.
  intros Hwf id ms w'.
  destruct (pushToast_toasts t w) as [Hts _]. fold w' in Hts. fold ms in Hts.
  set (new := mkToast (toastId (ui w) + 1)
                (UIContext.orElse (UIContext.t_type t) "info")
                (UIContext.orElse (UIContext.t_title t)
                   (if UIContext.isError (UIContext.t_type t) then "Error" else "Notice"))
                (UIContext.orElse (UIContext.t_description t) EmptyString) ms) in *.
  assert (Hid : id = toastId (ui w) + 1) by reflexivity.
  assert (Hadv : forall t', toasts (ui (Timers.advanceTo t' w')) =
                            toasts (ui (Timers.fireDue t' (timers w') w')))
    by reflexivity.
  assert (Hold : forall tm, In tm (timers w) -> tm_action tm <> ExpireToast id).
  { intros tm Hin Ha. specialize (Hwf tm id Hin Ha). lia. }
  split.
  - intros Hms.
    assert (Htimers : timers w' =
                      Timers.enqueue (mkTimer (nextTimerId w) (now w + Z.max 0 ms)
                                        (ExpireToast id)) (timers w)).
    { unfold w', UIContext.pushToast. cbn [snd toast_timeoutMs]. fold ms.
      destruct (Z.eqb_spec ms 0); [contradiction|reflexivity]. }
    intros t'. unfold toastIds. rewrite Hadv. split.
    + intros Hin.
      destruct (Z.lt_ge_cases t' (now w + Z.max 0 ms)) as [|Hge]; [assumption|].
      exfalso. revert Hin.
      apply (fireDue_expires t' (timers w') w'
               (mkTimer (nextTimerId w) (now w + Z.max 0 ms) (ExpireToast id)) id);
        [|reflexivity|exact Hge].
      rewrite Htimers. apply enqueue_In_iff. now left.
    + intros Hlt. apply in_map_iff. exists new. split; [reflexivity|].
      apply fireDue_keeps; [rewrite Hts; now left|].
      intros tm Hin Hd. rewrite Htimers in Hin. apply enqueue_In_iff in Hin.
      destruct Hin as [->|Hin]; [simpl in Hd; lia|].
      now apply Hold.
  - intros Hms.
    assert (Htimers : timers w' = timers w).
    { unfold w', UIContext.pushToast. cbn [snd toast_timeoutMs]. fold ms.
      rewrite Hms. reflexivity. }
    split; [exact Htimers|].
    intros t'. unfold toastIds. rewrite Hadv.
    apply in_map_iff. exists new. split; [reflexivity|].
    apply fireDue_keeps; [rewrite Hts; now left|].
    intros tm Hin Hd. rewrite Htimers in Hin. now apply Hold.
Qed.

(** A success toast pushed at time 0 is there at 4499 and gone at
    4500. *)
Lemma toast_lifetime_witness :
  In 1 (toastIds (Timers.advanceTo 4499
                    (snd (UIContext.pushToast (UIContext.success "a")
                            (Example.world "Q2")))))
  /\
  ~ In 1 (toastIds (Timers.advanceTo 4500
                      (snd (UIContext.pushToast (UIContext.success "a")
                              (Example.world "Q2"))))).
Proof.
  assert (Hwf : expiryWellFormed (Example.world "Q2")) by (intros tm id []).
  destruct (toast_lifetime (Example.world "Q2") (UIContext.success "a") Hwf)
    as (H & _).
  assert (Hms : 4500 <> 0) by lia.
  split.
  - apply (H Hms 4499). cbn. lia.
  - intros Hin. apply (H Hms 4500) in Hin. cbn in Hin. lia.
Defined.

(** ** The hide timeout of the loading indicator *)

(** X7. [setLoading] never leaves more than one hide timeout pending: a
    call with [true] cancels the pending one and switches the indicator
    on, a call with [false] replaces it by one that is due 150 ms later
    and leaves the indicator as it is; so after any calls at most one is
    pending. *)
Theorem one_hide_timeout (w : World) :
  LoadingSignal.timerInv w ->
  (forall b,
      LoadingSignal.timerInv (UIContext.setLoading b w) /\
      LoadingSignal.pendingHide (UIContext.setLoading b w) =
        (if b then [] else [now w + 150]) /\
      globalLoading (ui (UIContext.setLoading b w)) =
        (if b then true else globalLoading (ui w)))
  /\
  (forall schedule,
      schedule <> [] ->
      (List.length (LoadingSignal.pendingHide (LoadingSignal.run schedule w)) <= 1)%nat).
Proof.
  intros Hinv. split.
  - intros b. destruct (LoadingFacts.view_setLoading b w Hinv) as [Hv Hi].
    split; [exact Hi|].
    pose proof (f_equal LoadingSignal.hides Hv) as Hh.
    pose proof (f_equal LoadingSignal.on Hv) as Ho.
    destruct b; split; assumption.
  - intros schedule. revert w Hinv.
    induction schedule as [|[t b] rest IH]; intros w Hinv Hne; [congruence|].
    simpl.
    pose proof (LoadingFacts.timerInv_advanceTo t w Hinv) as Hinv1.
    destruct (LoadingFacts.view_setLoading b _ Hinv1) as [Hv Hinv2].
    destruct rest as [|c rest].
    + simpl. pose proof (f_equal LoadingSignal.hides Hv) as Hh. cbn in Hh.
      rewrite Hh. destruct b; simpl; lia.
    + apply IH; [assumption|discriminate].
Qed.

Lemma one_hide_timeout_witness :
  LoadingSignal.pendingHide
    (LoadingSignal.run [(0, true); (5, false); (9, false); (20, true); (30, false)]
                       (Example.world "Q2")) = [180]
  /\
  (List.length
     (LoadingSignal.pendingHide
        (LoadingSignal.run [(0, true); (5, false); (9, false)]%Z (Example.world "Q2")))
   <= 1)%nat.
Proof.
  split; [reflexivity|].
  assert (Hinv : LoadingSignal.timerInv (Example.world "Q2"))
    by (apply LoadingFacts.timerInv_no_timers; reflexivity).
  destruct (one_hide_timeout (Example.world "Q2") Hinv) as (_ & H).
  apply H. discriminate.
Defined.

(** ** The token storage *)

(** X8. With a working [localStorage], what [setToken] stored is what
    [getToken] reads, as a string, and [clearToken] makes it read [null];
    with a [localStorage] that throws, [getToken] reads [null] and
    [setToken] and [clearToken] do nothing. No other state is touched. *)
Theorem token_storage_round_trip (w : World) (v : value) :
  (storageOk w = true ->
   TokenStorage.getToken (TokenStorage.setToken v w) = VStr (toString v) /\
   TokenStorage.getToken (TokenStorage.clearToken (TokenStorage.setToken v w)) = VNull)
  /\
  (storageOk w = false ->
   TokenStorage.getToken w = VNull /\
   TokenStorage.setToken v w = w /\
   TokenStorage.clearToken w = w)
  /\
  (auth (TokenStorage.setToken v w) = auth w /\
   ui (TokenStorage.setToken v w) = ui w /\
   log (TokenStorage.setToken v w) = log w).
Proof.
  unfold TokenStorage.getToken, TokenStorage.setToken, TokenStorage.clearToken.
  split; [|split].
  - intros H. rewrite H. simpl. rewrite H. simpl. rewrite H. split; reflexivity.
  - intros H. rewrite H. repeat split.
  - destruct (storageOk w); repeat split.
Qed.

(** A numeric token comes back as its decimal string. *)
Lemma token_storage_round_trip_witness :
  TokenStorage.getToken (TokenStorage.setToken (VNum 42) (Example.world "Q2"))
    = VStr "42".
Proof.
  destruct (token_storage_round_trip (Example.world "Q2") (VNum 42)) as (H & _).
  destruct H as (H & _); [reflexivity|exact H].
Defined.

(** ** Signing out, and starting up *)

(** X9. [logout] sends nothing to the backend and always ends signed out:
    no token in the session, none to be read from the storage, no
    profile; toasts and pages are left alone. *)
Theorem logout_ends_anonymous (w : World) :
  exists w',
    AuthProvider.logout w = (Normal tt, w') /\
    AuthContext.isAuthenticated w' = false /\
    token (auth w') = VNull /\
    user (auth w') = VNull /\
    TokenStorage.getToken w' = VNull /\
    log w' = log w /\
    ui w' = ui w /\ projectsPage w' = projectsPage w /\ usersPage w' = usersPage w.
Proof.
  eexists. split; [reflexivity|].
  unfold AuthContext.isAuthenticated, TokenStorage.getToken, TokenStorage.clearToken.
  destruct (storageOk w) eqn:E; simpl; rewrite ?E; repeat split.
Qed.

(** A result of the loop comes from a round that returned it. *)
Lemma forOfTry_result {C R : Type} (body : C -> M (option R)) (Q : R -> Prop)
  (cs : list C) (l : option JsError) (w : World) (r : R) :
  (forall c w0 r0 w1, body c w0 = (Normal (Some r0), w1) -> Q r0) ->
  fst (fst (forOfTry body cs l w)) = Some r -> Q r.
Proof.
  intros Hb; revert l w; induction cs as [|c cs IH]; intros l w; simpl; [discriminate|].
  destruct (body c w) as [[[r0|]|e] w1] eqn:E; simpl.
  - intros H; inversion H; subst. eapply Hb; eassumption.
  - apply IH.
  - apply IH.
Qed.

Section ProfileFacts.

Context (P : Platform).

Lemma meRound_effect (g : option (World -> value)) (path : string) (w : World) :
  snd (meRound P (Client.mkOptions g None) path w) =
    emit (Fetch (Client.buildRequest P (Client.mkOptions g None) "GET" path
                   Client.noOptions w)) w.
Proof.
  unfold meRound, bind, Client.api_get.
  pose proof (request_no_hook P g "GET" path Client.noOptions w) as H.
  destruct (Client.request P (Client.mkOptions g None) "GET" path Client.noOptions w)
    as [[v|e] w1]; cbn [snd] in *; [|assumption].
  destruct (truthy v); assumption.
Qed.

Lemma meRound_truthy (c : Client.Options) (path : string) (w w1 : World) (r : value) :
  meRound P c path w = (Normal (Some r), w1) -> truthy r = true.
Proof.
  unfold meRound, bind.
  destruct (Client.api_get P c path Client.noOptions w) as [[v|e] w0]; [|discriminate].
  destruct (truthy v) eqn:E; unfold ret; intros H; inversion H; subst; assumption.
Qed.

(** [bestEffortGetMe] in closed form. *)
Lemma bestEffortGetMe_eq (c : Client.Options) (w : World) :
  AuthContext.bestEffortGetMe P c w =
    (Normal (match fst (fst (forOfTry (meRound P c) AuthContext.meCandidates None w)) with
             | Some me => me
             | None => VNull
             end),
     snd (forOfTry (meRound P c) AuthContext.meCandidates None w)).
Proof.
  change (AuthContext.bestEffortGetMe P c)
    with (bind (probe (meRound P c) AuthContext.meCandidates)
               (fun r => match fst r with
                         | Some me => ret me
                         | None => ret VNull
                         end)).
  unfold bind, probe.
  destruct (forOfTry (meRound P c) AuthContext.meCandidates None w) as [[[me|] l] w'];
    reflexivity.
Qed.

(** [bestEffortGetMe] of any client without hook never throws, changes
    the log only, and returns a truthy answer or [null]. *)
Lemma bestEffortGetMe_total (g : option (World -> value)) (w : World) :
  exists me w',
    AuthContext.bestEffortGetMe P (Client.mkOptions g None) w = (Normal me, w') /\
    sameData w w' /\
    (me = VNull \/ truthy me = true).
Proof.
  rewrite bestEffortGetMe_eq.
  do 2 eexists. split; [reflexivity|]. split.
  - apply forOfTry_sameData. intros c w0. rewrite meRound_effect. apply emit_sameData.
  - destruct (fst (fst (forOfTry _ AuthContext.meCandidates None w))) as [me|] eqn:E;
      [right|now left].
    apply (forOfTry_result (meRound P (Client.mkOptions g None))
             (fun r => truthy r = true) AuthContext.meCandidates None w me);
      [|exact E].
    intros c w0 r0 w1. apply meRound_truthy.
Qed.

End ProfileFacts.

(** ** Registration *)

Section RegisterFacts.

Context (P : Platform).

Lemma registerAttempt_throw (c : string * value) (w w' : World) (e : JsError) :
  loginCall P c w = (Throw e, w') ->
  AuthProvider.registerAttempt P c w = (Throw e, w').
Proof.
  unfold loginCall, AuthProvider.registerAttempt, bind; intros H; now rewrite H.
Qed.

Lemma registerAttempt_no_token (c : string * value) (w w' : World) (data : value) :
  loginCall P c w = (Normal data, w') ->
  truthy (AuthContext.normalizeAuthResponse data) = false ->
  AuthProvider.registerAttempt P c w =
    (Normal (Some (VObj [("token"%string, VNull); ("user"%string, VNull)])), w').
Proof.
  unfold loginCall, AuthProvider.registerAttempt; intros H Ht.
  unfold bind at 1. rewrite H. unfold bind, ret, Js.or. rewrite Ht. reflexivity.
Qed.

Lemma registerAttempt_token (c : string * value) (w w' : World) (data : value) :
  loginCall P c w = (Normal data, w') ->
  truthy (AuthContext.normalizeAuthResponse data) = true ->
  exists final,
    AuthProvider.registerAttempt P c w =
      (Normal (Some (VObj [("token"%string, AuthContext.normalizeAuthResponse data);
                           ("user"%string, VNull)])), final) /\
    token (auth final) = AuthContext.normalizeAuthResponse data /\
    storageOk final = storageOk w' /\
    storage final =
      (if storageOk w' then Some (toString (AuthContext.normalizeAuthResponse data))
       else storage w').
Proof.
  unfold loginCall, AuthProvider.registerAttempt; intros H Ht.
  unfold bind at 1. rewrite H. rewrite Ht.
  set (jwt := AuthContext.normalizeAuthResponse data).
  set (w0 := AuthContext.setTokenState jwt (TokenStorage.setToken jwt w')).
  destruct (bestEffortGetMe_total P (Some (fun _ => jwt)) w0) as (me & w1 & Hme & Hs & _).
  fold (AuthContext.apiFor jwt) in Hme.
  exists (AuthContext.setUser me w1).
  split.
  - unfold bind at 1. unfold bind at 1, modify at 1. unfold bind at 1, modify at 1.
    fold w0. unfold bind at 1. rewrite Hme. unfold bind, modify, ret, Js.or.
    fold jwt in Ht. rewrite Ht. reflexivity.
  - destruct Hs as (_ & Hok & Hst & _ & _ & Hau & _).
    cbn [AuthContext.setUser withAuth auth token storageOk storage].
    rewrite Hau, Hok, Hst. subst w0.
    unfold AuthContext.setTokenState, TokenStorage.setToken.
    destruct (storageOk w') eqn:Eok; simpl; rewrite ?Eok; repeat split.
Qed.

End RegisterFacts.

(** X12. [register] ends with the first candidate that answers, token or
    not. An answer without a token registers without a session: the
    result holds no token and the state is as the request left it. An
    answer with a token also signs in: the token becomes the session's
    credential and is stored; the result never holds the profile. When
    every candidate throws, [register] throws the last error, and over no
    candidates its own. *)
Theorem register_session_only_with_token (P : Platform) (w w1 w2 : World)
  (l : option JsError) :
  (forall (pre post : list (string * value)) (c : string * value) (data : value),
      allThrow (loginCall P) pre None w = Some (l, w1) ->
      loginCall P c w1 = (Normal data, w2) ->
      truthy (AuthContext.normalizeAuthResponse data) = false ->
      AuthProvider.registerWith P (pre ++ c :: post) w =
        (Normal (VObj [("token"%string, VNull); ("user"%string, VNull)]), w2))
  /\
  (forall (pre post : list (string * value)) (c : string * value) (data : value),
      allThrow (loginCall P) pre None w = Some (l, w1) ->
      loginCall P c w1 = (Normal data, w2) ->
      truthy (AuthContext.normalizeAuthResponse data) = true ->
      exists final,
        AuthProvider.registerWith P (pre ++ c :: post) w =
          (Normal (VObj [("token"%string, AuthContext.normalizeAuthResponse data);
                         ("user"%string, VNull)]), final) /\
        token (auth final) = AuthContext.normalizeAuthResponse data /\
        AuthContext.isAuthenticated final = true /\
        TokenStorage.getToken final =
          (if storageOk w2
           then VStr (toString (AuthContext.normalizeAuthResponse data))
           else VNull))
  /\
  (forall (pre : list (string * value)) (c : string * value) (e : JsError),
      allThrow (loginCall P) pre None w = Some (l, w1) ->
      loginCall P c w1 = (Throw e, w2) ->
      AuthProvider.registerWith P (pre ++ [c]) w = (Throw e, w2))
  /\
  AuthProvider.registerWith P [] w = (Throw (newError "Registration failed."), w).
Proof.
  assert (Hrounds : forall pre l0 w0,
             allThrow (loginCall P) pre None w = Some (l0, w0) ->
             allThrow (AuthProvider.registerAttempt P) pre None w = Some (l0, w0)).
  { intros pre l0 w0 H. eapply allThrow_rounds; [|exact H].
    intros; now apply registerAttempt_throw. }
  split; [|split; [|split]].
  - intros pre post c data Hpre Hhit Ht.
    unfold AuthProvider.registerWith, bind, probe.
    rewrite (forOfTry_allThrow _ pre (c :: post) None l w w1 (Hrounds _ _ _ Hpre)).
    rewrite (forOfTry_hit _ c post l w1 w2 _
               (registerAttempt_no_token P c w1 w2 data Hhit Ht)).
    reflexivity.
  - intros pre post c data Hpre Hhit Ht.
    destruct (registerAttempt_token P c w1 w2 data Hhit Ht)
      as (final & Hrun & Htok & Hok & Hst).
    exists final. split; [|split; [|split]].
    + unfold AuthProvider.registerWith, bind, probe.
      rewrite (forOfTry_allThrow _ pre (c :: post) None l w w1 (Hrounds _ _ _ Hpre)).
      rewrite (forOfTry_hit _ c post l w1 final _ Hrun). reflexivity.
    + exact Htok.
    + unfold AuthContext.isAuthenticated. now rewrite Htok.
    + unfold TokenStorage.getToken. rewrite Hok, Hst.
      destruct (storageOk w2); reflexivity.
  - intros pre c e Hpre Hlast.
    pose proof (allThrow_snoc _ pre c None l w w1 w2 e Hpre Hlast) as Hall.
    apply Hrounds in Hall.
    unfold AuthProvider.registerWith, bind, probe.
    rewrite <- (app_nil_r (pre ++ [c])).
    rewrite (forOfTry_allThrow _ (pre ++ [c]) [] None (Some e) w w2 Hall).
    reflexivity.
  - reflexivity.
Qed.

(** The example backend does not know [/auth/register] and answers
    [/register] with its 404 page too, so all three candidates fail; the
    backend that answers everything with 204 registers without a session
    at the first candidate. *)
Lemma register_session_only_with_token_witness :
  fst (AuthProvider.register Example.platform (VStr "Ann") (VStr "ann@corp.io")
         (VStr "secret12") (Example.world "Q2"))
    = Throw (mkError "Not Found" (Some 404) (Some (VStr "Not Found")))
  /\
  (exists final,
      AuthProvider.register Example.platformNoContent (VStr "Ann") (VStr "ann@corp.io")
        (VStr "secret12") (Example.world "Q2")
        = (Normal (VObj [("token"%string, VNull); ("user"%string, VNull)]), final) /\
      AuthContext.isAuthenticated final = false /\
      map req_url (requestsOf (log final)) = ["/auth/register"%string]).
Proof.
  pose (w := Example.world "Q2").
  pose (cs := AuthProvider.registerCandidates (VStr "Ann") (VStr "ann@corp.io")
                (VStr "secret12")).
  pose (c1 := nth 0 cs (EmptyString, VNull)).
  pose (c3 := nth 2 cs (EmptyString, VNull)).
  split.
  - pose (P := Example.platform).
    pose (err := mkError "Not Found" (Some 404) (Some (VStr "Not Found"))).
    pose (w1 := snd (forOfTry (AuthProvider.registerAttempt P) (firstn 2 cs) None w)).
    pose (w2 := snd (loginCall P c3 w1)).
    destruct (register_session_only_with_token P w w1 w2 (Some err)) as (_ & _ & H & _).
    assert (Hrun : AuthProvider.registerWith P (firstn 2 cs ++ [c3]) w = (Throw err, w2))
      by (apply H; vm_compute; reflexivity).
    exact (f_equal fst Hrun).
  - pose (P := Example.platformNoContent).
    pose (w2 := snd (loginCall P c1 w)).
    destruct (register_session_only_with_token P w w w2 None) as (H & _).
    assert (Hrun : AuthProvider.registerWith P ([] ++ c1 :: skipn 1 cs) w =
                   (Normal (VObj [("token"%string, VNull); ("user"%string, VNull)]), w2))
      by (apply (H [] (skipn 1 cs) c1 VNull); vm_compute; reflexivity).
    exists w2. split; [exact Hrun|]. split; vm_compute; reflexivity.
Defined.

(** ** The address check of the forms *)

Lemma matchesDomain_parts (r : string) :
  UsersPage.matchesDomain r = true ->
  exists y d post,
    r = (y ++ "." ++ String d post)%string /\
    y <> EmptyString /\ allNonSpace y = true /\ UsersPage.nonSpace d = true.
Proof.
  induction r as [|c r IH]; simpl; [discriminate|].
  intros H. apply andb_true_iff in H. destruct H as [Hc H].
  apply orb_true_iff in H. destruct H as [H|H].
  - destruct r as [|c1 r]; [discriminate|]. simpl in H.
    destruct (Ascii.eqb_spec c1 "."%char) as [->|Hne].
    + destruct r as [|d post]; [discriminate|].
      exists (String c EmptyString), d, post. simpl. rewrite Hc.
      repeat split; [discriminate|assumption].
    + exfalso. revert H.
      destruct c1 as [[] [] [] [] [] [] [] []]; try discriminate; congruence.
  - destruct (IH H) as (y & d & post & -> & Hy & Hall & Hd).
    exists (String c y), d, post. simpl. rewrite Hc, Hall.
    repeat split; [discriminate|assumption].
Qed.

Lemma matchesDomain_cons (c : ascii) (t : string) :
  UsersPage.matchesDomain (String c t) =
    UsersPage.nonSpace c && (UsersPage.dotThenNonSpace t || UsersPage.matchesDomain t).
Proof. reflexivity. Qed.

Lemma searchEmail_cons (prev : bool) (c : ascii) (t : string) :
  UsersPage.searchEmail prev (String c t) =
    (prev && Ascii.eqb c "@" && UsersPage.matchesDomain t)
    || UsersPage.searchEmail (UsersPage.nonSpace c) t.
Proof. reflexivity. Qed.

Lemma matchesDomain_build (y post : string) (d : ascii) :
  y <> EmptyString -> allNonSpace y = true -> UsersPage.nonSpace d = true ->
  UsersPage.matchesDomain (y ++ "." ++ String d post) = true.
Proof.
  induction y as [|c y IH]; [congruence|].
  intros _ Hall Hd. simpl in Hall. apply andb_true_iff in Hall. destruct Hall as [Hc Hall].
  destruct y as [|c' y'].
  - simpl. now rewrite Hc, Hd.
  - assert (E : (String c (String c' y') ++ "." ++ String d post)%string =
                String c (String c' y' ++ "." ++ String d post)) by reflexivity.
    rewrite E, matchesDomain_cons, Hc, IH;
      [apply orb_true_r|discriminate|assumption|assumption].
Qed.

Lemma searchEmail_parts (prev : bool) (s : string) :
  UsersPage.searchEmail prev s = true ->
  (prev = true /\ exists r, s = String "@" r /\ UsersPage.matchesDomain r = true)
  \/
  (exists pre c r,
      s = (pre ++ String c (String "@" r))%string /\
      UsersPage.nonSpace c = true /\ UsersPage.matchesDomain r = true).
Proof.
  revert prev; induction s as [|c s IH]; intros prev; simpl; [discriminate|].
  intros H. apply orb_true_iff in H. destruct H as [H|H].
  - apply andb_true_iff in H. destruct H as [H Hm].
    apply andb_true_iff in H. destruct H as [Hp Hc].
    apply Ascii.eqb_eq in Hc. subst c. left. split; [assumption|]. now exists s.
  - right. destruct (IH _ H) as [(Hc & r & -> & Hm)|(pre & c' & r & -> & Hc' & Hm)].
    + exists EmptyString, c, r. now repeat split.
    + exists (String c pre), c', r. now repeat split.
Qed.

Lemma searchEmail_build (prev : bool) (x r : string) :
  x <> EmptyString -> allNonSpace x = true -> UsersPage.matchesDomain r = true ->
  UsersPage.searchEmail prev (x ++ String "@" r) = true.
Proof.
  revert prev; induction x as [|c x IH]; intros prev Hne Hall Hm; [congruence|].
  simpl in Hall. apply andb_true_iff in Hall. destruct Hall as [Hc Hall].
  assert (E : (String c x ++ String "@" r)%string = String c (x ++ String "@" r))
    by reflexivity.
  rewrite E, searchEmail_cons, Hc. destruct x as [|c' x'].
  - cbn [String.append]. rewrite searchEmail_cons, Hm. cbn. apply orb_true_r.
  - rewrite IH; [apply orb_true_r|discriminate|assumption|assumption].
Qed.

Lemma searchEmail_skip (pre s : string) :
  (forall b, UsersPage.searchEmail b s = true) ->
  forall b, UsersPage.searchEmail b (pre ++ s) = true.
Proof.
  intros H. induction pre as [|c pre IH]; intros b; [apply H|].
  assert (E : (String c pre ++ s)%string = String c (pre ++ s)) by reflexivity.
  rewrite E, searchEmail_cons, IH. apply orb_true_r.
Qed.

(** X13. The address check that [validateUser] and the login and
    registration forms apply accepts a string exactly when somewhere in it
    there are a run of non-space units, an [@], another such run, a dot
    and a third such run: text before and after, white space included,
    does not matter, and an address without [@] or without a dot after it
    is refused. [validateUser] reports no error exactly for a truthy
    [email] whose string form is accepted. *)
Theorem email_check_meaning (s : string) (f : value) :
  (UsersPage.searchEmail false s = true <->
   exists pre x y z post,
     s = (pre ++ x ++ "@" ++ y ++ "." ++ z ++ post)%string /\
     x <> EmptyString /\ y <> EmptyString /\ z <> EmptyString /\
     allNonSpace x = true /\ allNonSpace y = true /\ allNonSpace z = true)
  /\
  (UsersPage.validateUser f = [] <->
   truthy (Js.get f "email") = true /\
   UsersPage.searchEmail false (toString (Js.get f "email")) = true).
Proof.
  split.
  - split.
    + intros H. apply searchEmail_parts in H.
      destruct H as [(Hp & _)|(pre & c & r & -> & Hc & Hm)]; [discriminate|].
      destruct (matchesDomain_parts r Hm) as (y & d & post & -> & Hy & Hall & Hd).
      exists pre, (String c EmptyString), y, (String d EmptyString), post.
      simpl. rewrite Hc, Hd.
      repeat split; try discriminate; assumption.
    + intros (pre & x & y & z & post & -> & Hx & Hy & Hz & Hax & Hay & Haz).
      apply searchEmail_skip. intros b.
      change (x ++ "@" ++ y ++ "." ++ z ++ post)%string
        with (x ++ String "@" (y ++ "." ++ z ++ post))%string.
      apply searchEmail_build; [assumption|assumption|].
      destruct z as [|d z']; [congruence|].
      simpl in Haz. apply andb_true_iff in Haz. destruct Haz as [Hd _].
      now apply matchesDomain_build.
  - unfold UsersPage.validateUser, UsersPage.emailRegexTest.
    destruct (truthy (Js.get f "email"));
      destruct (UsersPage.searchEmail false (toString (Js.get f "email")));
      simpl; split; intros H; try discriminate; try (destruct H; discriminate);
      auto.
Qed.

(** An address inside a sentence passes; one without a dot after the [@]
    does not. *)
Lemma email_check_meaning_witness :
  UsersPage.searchEmail false "write to ann@corp.io today" = true /\
  UsersPage.validateUser (VObj [("email"%string, VStr "ann@corp")]) <> [].
Proof.
  split.
  - destruct (email_check_meaning "write to ann@corp.io today" VNull) as ((_ & H) & _).
    apply H. exists "write to ", "ann", "corp", "io", " today".
    repeat split; discriminate.
  - destruct (email_check_meaning EmptyString
                (VObj [("email"%string, VStr "ann@corp")])) as (_ & (H & _)).
    intros Hv. apply H in Hv. destruct Hv as [_ Hv]. vm_compute in Hv. discriminate.
Defined.

(** ** Saving a project *)

Section PageFacts.

Context (P : Platform).

(** How a request of a page's client completes is decided by the backend's
    answer to the request built from the state before the call. *)
Lemma page_request_result (method path : string) (o : Client.RequestOptions)
  (w : World) :
  fst (Client.request P ProjectsPage.api method path o w) =
    answer P w (Client.buildRequest P ProjectsPage.api method path o w).
Proof.
  rewrite request_eq; cbn [fst]. unfold answer.
  rewrite page_signal, setLoading_log, emit_log, requestsOf_app. simpl.
  now rewrite app_nil_r.
Qed.

Lemma page_request_run (method path : string) (o : Client.RequestOptions)
  (w w0 : World) :
  log w = log w0 -> auth w = auth w0 ->
  exists w',
    Client.request P ProjectsPage.api method path o w =
      (answer P w0 (Client.buildRequest P ProjectsPage.api method path o w0), w') /\
    sameData w w' /\
    requestsOf (log w') =
      requestsOf (log w0) ++ [Client.buildRequest P ProjectsPage.api method path o w0].
Proof.
  intros Hl Ha.
  destruct (Client.request P ProjectsPage.api method path o w) as [c w'] eqn:E.
  exists w'.
  destruct (page_request_answer_frame P _ _ _ _ _ _ E) as [Hs Hr].
  pose proof (page_request_result method path o w) as Hc.
  rewrite E in Hc; cbn [fst] in Hc.
  rewrite (buildRequest_auth P method path o w0 w Ha) in Hc, Hr.
  unfold answer in *. rewrite Hl in Hc, Hr.
  split; [now rewrite Hc|]. split; assumption.
Qed.

Lemma pushToast_pushed (t : UIContext.ToastInput) (w0 w : World) :
  toasts (ui w) = toasts (ui w0) -> toastId (ui w) = toastId (ui w0) ->
  UIContext.t_timeoutMs t = None ->
  pushed w0 (snd (UIContext.pushToast t w))
    (UIContext.orElse (UIContext.t_type t) "info")
    (UIContext.orElse (UIContext.t_title t)
       (if UIContext.isError (UIContext.t_type t) then "Error" else "Notice"))
    (UIContext.orElse (UIContext.t_description t) EmptyString).
Proof.
  intros Ht Hi Hms. destruct (pushToast_toasts t w) as [H1 H2].
  unfold pushed. rewrite H1, H2, Ht, Hi, Hms. split; reflexivity.
Qed.

Lemma pushed_success (title : string) (w0 w : World) :
  toasts (ui w) = toasts (ui w0) -> toastId (ui w) = toastId (ui w0) ->
  Str.isEmpty title = false ->
  pushed w0 (snd (UIContext.pushToast (UIContext.success title) w))
    "success" title EmptyString.
Proof.
  intros H1 H2 Ht.
  pose proof (pushToast_pushed (UIContext.success title) w0 w H1 H2 eq_refl) as H.
  cbn [UIContext.success UIContext.t_type UIContext.t_title UIContext.t_description
       UIContext.orElse] in H.
  rewrite Ht in H. exact H.
Qed.

Lemma pushed_failure (title description : string) (w0 w : World) :
  toasts (ui w) = toasts (ui w0) -> toastId (ui w) = toastId (ui w0) ->
  Str.isEmpty title = false ->
  pushed w0 (snd (UIContext.pushToast (UIContext.failure title description) w))
    "error" title description.
Proof.
  intros H1 H2 Ht.
  pose proof (pushToast_pushed (UIContext.failure title description) w0 w H1 H2 eq_refl)
    as H.
  cbn [UIContext.failure UIContext.t_type UIContext.t_title UIContext.t_description] in H.
  rewrite orElse_description in H.
  cbn [UIContext.orElse] in H. rewrite Ht in H. exact H.
Qed.

End PageFacts.

(** X14. Saving the create form with a valid name posts the form to
    [/projects] and always completes. When the POST is answered with a 2xx
    status, the toast [Project created] is shown, the parsed answer is put
    in front of the list unless it is falsy, and the form is closed: an
    empty 2xx answer shows the success toast and adds nothing. When the
    POST fails, the toast [Save failed] carries the error's message, and
    the list and the open form stay as they were. The selection and the
    form's content are not touched. *)
Theorem save_create_outcome (P : Platform) (w : World) (s : string) :
  Js.get (form (projectsPage w)) "name" = VStr s ->
  2 <= Str.length (Str.trim s) ->
  mode (projectsPage w) = "create"%string ->
  let sent := Client.buildRequest P ProjectsPage.api "POST" "/projects"
                (Client.withBody (form (projectsPage w))) w in
  let final := snd (ProjectsPage.save P w) in
  fst (ProjectsPage.save P w) = Normal tt /\
  requestsOf (log final) = requestsOf (log w) ++ [sent] /\
  selected (projectsPage final) = selected (projectsPage w) /\
  form (projectsPage final) = form (projectsPage w) /\
  match answer P w sent with
  | Normal created =>
      projects (projectsPage final) =
        filter truthy (created :: projects (projectsPage w)) /\
      mode (projectsPage final) = "none"%string /\
      pushed w final "success" "Project created" EmptyString
  | Throw e =>
      projects (projectsPage final) = projects (projectsPage w) /\
      mode (projectsPage final) = "create"%string /\
      pushed w final "error" "Save failed" (err_message e)
  end /\
  (forall status,
      backend P (requestsOf (log w)) sent = Response status EmptyString ->
      200 <= status <= 299 ->
      projects (projectsPage final) = filter truthy (projects (projectsPage w)) /\
      pushed w final "success" "Project created" EmptyString).
Proof.
  intros Hn Hlen Hmode sent final.
  pose proof (validateProject_long _ _ Hn Hlen) as Hv.
  set (w1 := ProjectsPage.setErrors [] w).
  destruct (page_request_run P "POST" "/projects"
              (Client.withBody (form (projectsPage w))) w1 w eq_refl eq_refl)
    as (w2 & Hreq & Hs & Hl).
  fold sent in Hreq, Hl.
  destruct (sameData_toasts _ _ Hs) as [Ht2 Hi2].
  change (toasts (ui w1)) with (toasts (ui w)) in Ht2.
  change (toastId (ui w1)) with (toastId (ui w)) in Hi2.
  pose proof (sameData_projectsPage _ _ Hs) as Hp2.
  assert (Hrun : ProjectsPage.save P w =
                 match answer P w sent with
                 | Normal created =>
                     (Normal tt,
                      ProjectsPage.setMode "none"
                        (ProjectsPage.setProjects
                           (fun prev => filter truthy (created :: prev))
                           (snd (UIContext.pushToast
                                   (UIContext.success "Project created") w2))))
                 | Throw e =>
                     (Normal tt,
                      snd (UIContext.pushToast
                             (UIContext.failure "Save failed" (err_message e)) w2))
                 end).
  { unfold ProjectsPage.save. rewrite Hv. cbn [List.length Nat.eqb negb].
    rewrite Hmode. cbn [String.eqb Ascii.eqb Bool.eqb].
    fold w1. unfold tryCatch, bind at 1. unfold Client.api_post. rewrite Hreq.
    destruct (answer P w sent); reflexivity. }
  pose proof (pushed_success "Project created" w w2 Ht2 Hi2 eq_refl) as Hok.
  destruct (pushToast_pages (UIContext.success "Project created") w2) as (Hpp & _ & _).
  assert (Hmain :
            fst (ProjectsPage.save P w) = Normal tt /\
            requestsOf (log final) = requestsOf (log w) ++ [sent] /\
            selected (projectsPage final) = selected (projectsPage w) /\
            form (projectsPage final) = form (projectsPage w) /\
            match answer P w sent with
            | Normal created =>
                projects (projectsPage final) =
                  filter truthy (created :: projects (projectsPage w)) /\
                mode (projectsPage final) = "none"%string /\
                pushed w final "success" "Project created" EmptyString
            | Throw e =>
                projects (projectsPage final) = projects (projectsPage w) /\
                mode (projectsPage final) = "create"%string /\
                pushed w final "error" "Save failed" (err_message e)
            end).
  { subst final. rewrite Hrun.
    destruct (answer P w sent) as [created|e]; cbn [fst snd].
    - cbn [ProjectsPage.setMode ProjectsPage.setProjects withProjectsPage
           projectsPage projects selected mode form log ui].
      rewrite pushToast_log, Hpp, Hp2.
      repeat split; try reflexivity; try assumption; apply Hok.
    - destruct (pushToast_pages
                  (UIContext.failure "Save failed" (err_message e)) w2) as (Hpf & _ & _).
      rewrite pushToast_log, Hpf, Hp2.
      repeat split; try reflexivity; try assumption;
        apply (pushed_failure "Save failed" (err_message e) w w2 Ht2 Hi2 eq_refl). }
  destruct Hmain as (H1 & H2 & H3 & H4 & H5).
  repeat (split; [assumption|]).
  intros status Hb Hst. unfold answer in H5. rewrite Hb in H5.
  unfold requestResult, Client.ok in H5.
  destruct (Z.leb_spec 200 status); [|lia].
  destruct (Z.leb_spec status 299); [|lia].
  cbn [andb] in H5. destruct H5 as (Hp & _ & Ht). split; [exact Hp|exact Ht].
Qed.

(** On the backend that answers everything with 204 and no content, the
    save shows [Project created] and the list stays as it was; on the
    example backend, whose [/projects] answers 500 with a JSON string, the
    toast carries that string. *)
Lemma save_create_outcome_witness :
  projects (projectsPage (snd (ProjectsPage.save Example.platformNoContent
                                 (Example.world "Q2")))) = [Example.project7]
  /\
  map toast_title
      (toasts (ui (snd (ProjectsPage.save Example.platformNoContent
                          (Example.world "Q2"))))) = ["Project created"%string]
  /\
  map toast_description
      (toasts (ui (snd (ProjectsPage.save Example.platform (Example.world "Q2")))))
    = ["oops"%string].
Proof.
  destruct (save_create_outcome Example.platformNoContent (Example.world "Q2") "Q2")
    as (_ & _ & _ & _ & _ & H);
    [reflexivity | vm_compute; discriminate | reflexivity |].
  destruct (H 204) as (Hp & Ht & _); [reflexivity | lia |].
  destruct (save_create_outcome Example.platform (Example.world "Q2") "Q2")
    as (_ & _ & _ & _ & H5 & _);
    [reflexivity | vm_compute; discriminate | reflexivity |].
  change (answer _ _ _)
    with (@Throw value (mkError "oops" (Some 500) (Some (VStr "oops")))) in H5.
  destruct H5 as (_ & _ & Hf & _).
  split; [exact Hp|]. split; [rewrite Ht|rewrite Hf]; reflexivity.
Defined.

(** X15. Saving with a valid name outside create mode always completes.
    Unless the page is in edit mode and the selection has an [id], nothing
    is sent and nothing but the error state changes: the form stays open
    and no toast tells why. In edit mode with a selected [id], the form is
    PUT to [/projects/<id>]; a 2xx answer replaces, in a list of objects,
    every listed project of that [id] by the parsed answer ([null] for an
    empty answer), makes the answer the selection, closes the form and
    shows [Project updated]; a failure shows [Save failed] with the
    error's message and leaves the list, the selection and the open form
    as they were. *)
Theorem save_edit_outcome (P : Platform) (w : World) (s : string) :
  Js.get (form (projectsPage w)) "name" = VStr s ->
  2 <= Str.length (Str.trim s) ->
  mode (projectsPage w) <> "create"%string ->
  forallb isRecord (projects (projectsPage w)) = true ->
  let sel := selected (projectsPage w) in
  let final := snd (ProjectsPage.save P w) in
  fst (ProjectsPage.save P w) = Normal tt /\
  (mode (projectsPage w) <> "edit"%string \/ isNullish (Js.get sel "id") = true ->
   final = ProjectsPage.setErrors [] w) /\
  (mode (projectsPage w) = "edit"%string -> isNullish (Js.get sel "id") = false ->
   let sent := Client.buildRequest P ProjectsPage.api "PUT"
                 ("/projects/" ++ toString (Js.get sel "id"))%string
                 (Client.withBody (form (projectsPage w))) w in
   requestsOf (log final) = requestsOf (log w) ++ [sent] /\
   form (projectsPage final) = form (projectsPage w) /\
   match answer P w sent with
   | Normal updated =>
       projects (projectsPage final) =
         map (fun p => if strictEq (Js.get p "id") (Js.get sel "id") then updated else p)
             (projects (projectsPage w)) /\
       selected (projectsPage final) = updated /\
       mode (projectsPage final) = "none"%string /\
       pushed w final "success" "Project updated" EmptyString
   | Throw e =>
       projects (projectsPage final) = projects (projectsPage w) /\
       selected (projectsPage final) = sel /\
       mode (projectsPage final) = "edit"%string /\
       pushed w final "error" "Save failed" (err_message e)
   end).
Proof.
  intros Hn Hlen Hmode _ sel final.
  pose proof (validateProject_long _ _ Hn Hlen) as Hv.
  apply String.eqb_neq in Hmode.
  set (w1 := ProjectsPage.setErrors [] w).
  assert (Hidle : mode (projectsPage w) <> "edit"%string \/
                  isNullish (Js.get sel "id") = true ->
                  ProjectsPage.save P w = (Normal tt, w1)).
  { intros Hc. unfold ProjectsPage.save. rewrite Hv. cbn [List.length Nat.eqb negb].
    rewrite Hmode. fold sel. fold w1. unfold tryCatch.
    destruct Hc as [Hc|Hc].
    - apply String.eqb_neq in Hc. rewrite Hc. reflexivity.
    - rewrite Hc, andb_false_r. reflexivity. }
  set (path := ("/projects/" ++ toString (Js.get sel "id"))%string).
  destruct (page_request_run P "PUT" path
              (Client.withBody (form (projectsPage w))) w1 w eq_refl eq_refl)
    as (w2 & Hreq & Hs & Hl).
  destruct (sameData_toasts _ _ Hs) as [Ht2 Hi2].
  change (toasts (ui w1)) with (toasts (ui w)) in Ht2.
  change (toastId (ui w1)) with (toastId (ui w)) in Hi2.
  pose proof (sameData_projectsPage _ _ Hs) as Hp2.
  set (sent := Client.buildRequest P ProjectsPage.api "PUT" path
                 (Client.withBody (form (projectsPage w))) w) in *.
  assert (Hrun : mode (projectsPage w) = "edit"%string ->
                 isNullish (Js.get sel "id") = false ->
                 ProjectsPage.save P w =
                 match answer P w sent with
                 | Normal updated =>
                     (Normal tt,
                      ProjectsPage.setMode "none"
                        (ProjectsPage.setSelected updated
                           (ProjectsPage.setProjects
                              (map (fun p => if strictEq (Js.get p "id") (Js.get sel "id")
                                             then updated else p))
                              (snd (UIContext.pushToast
                                      (UIContext.success "Project updated") w2)))))
                 | Throw e =>
                     (Normal tt,
                      snd (UIContext.pushToast
                             (UIContext.failure "Save failed" (err_message e)) w2))
                 end).
  { intros He Hid. unfold ProjectsPage.save. rewrite Hv. cbn [List.length Nat.eqb negb].
    rewrite Hmode. fold sel. rewrite Hid, He. cbn [String.eqb Ascii.eqb Bool.eqb negb andb].
    fold w1. fold path. unfold tryCatch, bind at 1. unfold Client.api_put. rewrite Hreq.
    destruct (answer P w sent); reflexivity. }
  split; [|split].
  - destruct (String.eqb (mode (projectsPage w)) "edit") eqn:He.
    + apply String.eqb_eq in He.
      destruct (isNullish (Js.get sel "id")) eqn:Hid.
      * rewrite Hidle; [reflexivity|now right].
      * rewrite (Hrun He eq_refl). destruct (answer P w sent); reflexivity.
    + apply String.eqb_neq in He. rewrite Hidle; [reflexivity|now left].
  - intros Hc. subst final. now rewrite (Hidle Hc).
  - intros He Hid. cbv zeta. fold path. fold sent. subst final.
    rewrite (Hrun He Hid).
    destruct (answer P w sent) as [updated|e]; cbn [fst snd].
    + destruct (pushToast_pages (UIContext.success "Project updated") w2)
        as (Hpp & _ & _).
      cbn [ProjectsPage.setMode ProjectsPage.setSelected ProjectsPage.setProjects
           withProjectsPage projectsPage projects selected mode form log ui].
      rewrite pushToast_log, Hpp, Hp2.
      repeat split; try reflexivity; try assumption;
        apply (pushed_success "Project updated" w w2 Ht2 Hi2 eq_refl).
    + destruct (pushToast_pages
                  (UIContext.failure "Save failed" (err_message e)) w2) as (Hpf & _ & _).
      rewrite pushToast_log, Hpf, Hp2.
      repeat split; try reflexivity; try assumption;
        apply (pushed_failure "Save failed" (err_message e) w w2 Ht2 Hi2 eq_refl).
Qed.

(** Editing project 7 on the backend that answers everything with 204 and
    no content: the PUT returns [null], which replaces the project in the
    list and becomes the selection. Editing a project that has no [id]:
    the save sends nothing. *)
Lemma save_edit_outcome_witness :
  projects (projectsPage
              (snd (ProjectsPage.save Example.platformNoContent
                      (ProjectsForm.startEdit Example.project7 (Example.world "Q2")))))
    = [VNull]
  /\
  selected (projectsPage
              (snd (ProjectsPage.save Example.platformNoContent
                      (ProjectsForm.startEdit Example.project7 (Example.world "Q2")))))
    = VNull
  /\
  requestsOf
    (log (snd (ProjectsPage.save Example.platform
                 (ProjectsForm.startEdit (VObj [("name"%string, VStr "Draft")])
                    (Example.world "Q2"))))) = [].
Proof.
  destruct (save_edit_outcome Example.platformNoContent
              (ProjectsForm.startEdit Example.project7 (Example.world "Q2")) "Apollo")
    as (_ & _ & H);
    [reflexivity | vm_compute; discriminate | discriminate | reflexivity |].
  specialize (H eq_refl eq_refl). cbv zeta in H.
  change (answer _ _ _) with (@Normal value VNull) in H.
  destruct H as (_ & _ & Hp & Hsel & _).
  destruct (save_edit_outcome Example.platform
              (ProjectsForm.startEdit (VObj [("name"%string, VStr "Draft")])
                 (Example.world "Q2")) "Draft")
    as (_ & Hidle & _);
    [reflexivity | vm_compute; discriminate | discriminate | reflexivity |].
  split; [rewrite Hp; reflexivity|]. split; [exact Hsel|].
  rewrite Hidle; [reflexivity|right; reflexivity].
Defined.

(** ** Forms as the pages open them *)

Lemma startEdit_name (p : value) (w : World) :
  Js.get (form (projectsPage (ProjectsForm.startEdit p w))) "name" =
    Js.or (Js.get p "name") (VStr EmptyString).
Proof. reflexivity. Qed.

(** X16. A form that was just opened cannot be submitted by mistake, and
    one kind of project cannot be saved at all. Saving right after
    [startCreate], or after [startEdit] of a project without a truthy
    [name], attaches the name error and sends nothing; submitting right
    after [openInvite] attaches the email error and sends nothing. After
    [startEdit] of a project whose [name] is truthy but not a string (a
    number, say), [save] throws before it changes or sends anything: the
    call of [trim] fails outside the handler's [try], so no toast is shown
    either. *)
Theorem unsendable_forms (P : Platform) (w : World) (p : value) :
  ProjectsPage.save P (ProjectsForm.startCreate w) =
    (Normal tt,
     ProjectsPage.setErrors [("name", "Name must be at least 2 characters.")]%string
       (ProjectsForm.startCreate w))
  /\
  (truthy (Js.get p "name") = false ->
   ProjectsPage.save P (ProjectsForm.startEdit p w) =
     (Normal tt,
      ProjectsPage.setErrors [("name", "Name must be at least 2 characters.")]%string
        (ProjectsForm.startEdit p w)))
  /\
  (truthy (Js.get p "name") = true -> isString (Js.get p "name") = false ->
   exists e,
     ProjectsPage.save P (ProjectsForm.startEdit p w) =
       (Throw e, ProjectsForm.startEdit p w))
  /\
  UsersPage.submitInvite P (UsersForm.openInvite w) =
    (Normal tt,
     UsersPage.setErrors [("email", "Valid email required.")]%string
       (UsersForm.openInvite w)).
Proof.
  split; [reflexivity|]. split; [|split; [|reflexivity]].
  - intros Hf. unfold ProjectsPage.save, ProjectsPage.validateProject.
    rewrite startEdit_name. unfold Js.or. rewrite Hf. reflexivity.
  - intros Ht Hs. exists (newError "name.trim is not a function").
    unfold ProjectsPage.save, ProjectsPage.validateProject.
    rewrite startEdit_name. unfold Js.or. rewrite Ht. cbv iota. rewrite Ht. cbn [negb].
    destruct (Js.get p "name"); try reflexivity; discriminate.
Qed.

(** Project 3 came back from the backend with the number 42 as its name:
    editing and saving it throws, with nothing sent and no toast. *)
Lemma unsendable_forms_witness :
  exists e,
    ProjectsPage.save Example.platform
      (ProjectsForm.startEdit (VObj [("id"%string, VNum 3); ("name"%string, VNum 42)])
         (Example.world "Q2")) =
    (Throw e,
     ProjectsForm.startEdit (VObj [("id"%string, VNum 3); ("name"%string, VNum 42)])
       (Example.world "Q2")).
Proof.
  destruct (unsendable_forms Example.platform (Example.world "Q2")
              (VObj [("id"%string, VNum 3); ("name"%string, VNum 42)]))
    as (_ & _ & H & _).
  apply H; reflexivity.
Defined.

(** ** Archiving and deleting *)

Lemma lookup_setProp_same (k : string) (v : value) (props : list (string * value)) :
  Js.lookup k (Js.setProp k v props) = v.
Proof.
  induction props as [|[k' v'] props IH]; simpl.
  - now rewrite String.eqb_refl.
  - destruct (String.eqb k k') eqn:E; simpl; [now rewrite String.eqb_refl|].
    now rewrite E.
Qed.

(** X17. [archiveOrDelete] always completes. When the PATCH is answered
    with a 2xx status, it is the only request: [Project archived] is
    shown, and in a list of objects every project with the [id] of [p]
    gets the status [archived] while the others, the order and the
    selection stay as they were (the selection keeps the status it had,
    even when it is the project archived). When the PATCH fails and the
    DELETE that follows is answered with a 2xx status, [Project deleted]
    is shown, no project with that [id] remains in the list, and the
    selection is cleared exactly when it has that [id]. *)
Theorem archive_or_delete_success (P : Platform) (p : value) (w : World) :
  forallb isRecord (projects (projectsPage w)) = true ->
  let path := ("/projects/" ++ toString (Js.get p "id"))%string in
  let patch := Client.buildRequest P ProjectsPage.api "PATCH" path
                 (Client.withBody (VObj [("status"%string, VStr "archived")])) w in
  let delete := Client.buildRequest P ProjectsPage.api "DELETE" path
                  Client.noOptions w in
  let final := snd (ProjectsPage.archiveOrDelete P p w) in
  let same := fun x => strictEq (Js.get x "id") (Js.get p "id") in
  fst (ProjectsPage.archiveOrDelete P p w) = Normal tt /\
  (forall data, answer P w patch = Normal data ->
     requestsOf (log final) = requestsOf (log w) ++ [patch] /\
     pushed w final "success" "Project archived" EmptyString /\
     selected (projectsPage final) = selected (projectsPage w) /\
     projects (projectsPage final) =
       map (fun x => if same x then spread1 x "status" (VStr "archived") else x)
           (projects (projectsPage w)) /\
     Forall (fun x => same x = true -> Js.get x "status" = VStr "archived")
            (projects (projectsPage final))) /\
  (forall e data, answer P w patch = Throw e ->
     requestResult P (backend P (requestsOf (log w) ++ [patch]) delete) = Normal data ->
     requestsOf (log final) = requestsOf (log w) ++ [patch; delete] /\
     pushed w final "success" "Project deleted" EmptyString /\
     projects (projectsPage final) =
       filter (fun x => negb (same x)) (projects (projectsPage w)) /\
     Forall (fun x => same x = false) (projects (projectsPage final)) /\
     selected (projectsPage final) =
       (if same (selected (projectsPage w)) then VNull else selected (projectsPage w))).
Proof.
  intros Hrec path patch delete final same.
  destruct (page_request_run P "PATCH" path
              (Client.withBody (VObj [("status"%string, VStr "archived")])) w w
              eq_refl eq_refl) as (w1 & Hreq1 & Hs1 & Hl1).
  fold patch in Hreq1, Hl1.
  destruct (Client.request P ProjectsPage.api "DELETE" path Client.noOptions w1)
    as [c2 w2] eqn:Hreq2.
  destruct (page_request_answer_frame P _ _ _ _ _ _ Hreq2) as [Hs2 Hl2].
  pose proof (page_request_result P "DELETE" path Client.noOptions w1) as Hc2.
  rewrite Hreq2 in Hc2; cbn [fst] in Hc2.
  rewrite (buildRequest_auth P "DELETE" path Client.noOptions w w1
             (sameData_auth _ _ Hs1)) in Hc2, Hl2.
  fold delete in Hc2, Hl2. unfold answer in Hc2. rewrite Hl1 in Hc2, Hl2.
  rewrite <- app_assoc in Hl2. cbn [app] in Hl2.
  pose proof (sameData_trans _ _ _ Hs1 Hs2) as Hs.
  destruct (sameData_toasts _ _ Hs1) as [Ht1 Hi1].
  destruct (sameData_toasts _ _ Hs) as [Ht2 Hi2].
  assert (Hrun : ProjectsPage.archiveOrDelete P p w =
                 match answer P w patch with
                 | Normal _ =>
                     (Normal tt,
                      ProjectsPage.setProjects
                        (map (fun x => if same x
                                       then spread1 x "status" (VStr "archived") else x))
                        (snd (UIContext.pushToast
                                (UIContext.success "Project archived") w1)))
                 | Throw _ =>
                     match c2 with
                     | Normal _ =>
                         (Normal tt,
                          (if same (selected (projectsPage w))
                           then ProjectsPage.setSelected VNull
                           else fun x => x)
                            (ProjectsPage.setProjects
                               (filter (fun x => negb (same x)))
                               (snd (UIContext.pushToast
                                       (UIContext.success "Project deleted") w2))))
                     | Throw e2 =>
                         (Normal tt,
                          snd (UIContext.pushToast
                                 (UIContext.failure "Action failed" (err_message e2)) w2))
                     end
                 end).
  { unfold ProjectsPage.archiveOrDelete. fold path.
    unfold bind at 1. unfold tryCatch at 1. unfold bind at 1.
    unfold Client.api_patch. rewrite Hreq1.
    destruct (answer P w patch) as [d|e1].
    - reflexivity.
    - unfold ret at 1. cbv beta iota. unfold tryCatch, bind at 1.
      unfold Client.api_delete. rewrite Hreq2.
      destruct c2 as [d2|e2]; [|reflexivity].
      unfold ProjectsPage.pushToast, bind, modify, ret. unfold same.
      destruct (strictEq (Js.get (selected (projectsPage w)) "id") (Js.get p "id"));
        reflexivity. }
  split; [|split].
  - rewrite Hrun. destruct (answer P w patch); [reflexivity|].
    destruct c2; reflexivity.
  - intros data Ha. subst final. rewrite Hrun, Ha. cbn [snd].
    destruct (pushToast_pages (UIContext.success "Project archived") w1)
      as (Hpp & _ & _).
    cbn [ProjectsPage.setProjects withProjectsPage projectsPage projects selected log ui].
    rewrite pushToast_log, Hpp, (sameData_projectsPage _ _ Hs1).
    split; [exact Hl1|]. split; [|split; [reflexivity|split; [reflexivity|]]].
    + apply (pushed_success "Project archived" w w1 Ht1 Hi1 eq_refl).
    + apply Forall_forall. intros x Hin. apply in_map_iff in Hin.
      destruct Hin as (x0 & Hx & Hin0).
      assert (Hr : isRecord x0 = true).
      { rewrite forallb_forall in Hrec. now apply Hrec. }
      destruct x0 as [| | | | | |props]; try discriminate.
      destruct (same (VObj props)) eqn:Esame; subst x.
      * intros _. cbn [spread1 Js.get]. apply lookup_setProp_same.
      * intros Hx. congruence.
  - intros e data Ha Hd. subst final. rewrite Hrun, Ha. rewrite Hd in Hc2. subst c2.
    cbn [snd].
    destruct (pushToast_pages (UIContext.success "Project deleted") w2)
      as (Hpp & _ & _).
    assert (Hok := pushed_success "Project deleted" w w2 Ht2 Hi2 eq_refl).
    destruct (same (selected (projectsPage w)));
      cbn [ProjectsPage.setProjects ProjectsPage.setSelected withProjectsPage
           projectsPage projects selected log ui];
      rewrite pushToast_log, Hpp, (sameData_projectsPage _ _ Hs);
      (split; [exact Hl2|]); (split; [exact Hok|]); (split; [reflexivity|]);
      (split; [|reflexivity]);
      apply Forall_forall; intros x Hin; apply filter_In in Hin;
      destruct Hin as [_ Hx]; now apply negb_true_iff in Hx.
Qed.

(** Archiving project 7 on the backend that answers everything with 204
    marks it archived; on a backend that only knows DELETE it is removed
    from the list. *)
Lemma archive_or_delete_success_witness :
  projects (projectsPage
              (snd (ProjectsPage.archiveOrDelete Example.platformNoContent
                      Example.project7 (Example.world "Q2")))) =
    [VObj [("id", VNum 7); ("name", VStr "Apollo"); ("status", VStr "archived")]%string]
  /\
  projects (projectsPage
              (snd (ProjectsPage.archiveOrDelete Backends.platformDeleteOnly
                      Example.project7 (Example.world "Q2")))) = [].
Proof.
  destruct (archive_or_delete_success Example.platformNoContent Example.project7
              (Example.world "Q2")) as (_ & H & _); [reflexivity|].
  destruct (H VNull eq_refl) as (_ & _ & _ & Hp & _).
  destruct (archive_or_delete_success Backends.platformDeleteOnly Example.project7
              (Example.world "Q2")) as (_ & _ & H2); [reflexivity|].
  destruct (H2 (mkError "Method Not Allowed" (Some 405)
                  (Some (VStr "Method Not Allowed"))) VNull eq_refl eq_refl)
    as (_ & _ & Hp2 & _).
  split; [rewrite Hp|rewrite Hp2]; reflexivity.
Defined.

(** ** The two loaders of the users page *)

Section LoaderFacts.

Context (P : Platform).

Lemma usersRound_throw (f : value -> World -> World) (path : string) (w w' : World)
  (e : JsError) :
  getCall P path w = (Throw e, w') ->
  (data <- Client.api_get P UsersPage.api path Client.noOptions ;;
   modify (f data) ;; ret (Some tt)) w = (Throw e, w').
Proof. unfold getCall, bind; intros H. change UsersPage.api with ProjectsPage.api. now rewrite H. Qed.

Lemma usersRound_return (f : value -> World -> World) (path : string) (w w' : World)
  (data : value) :
  getCall P path w = (Normal data, w') ->
  (data <- Client.api_get P UsersPage.api path Client.noOptions ;;
   modify (f data) ;; ret (Some tt)) w = (Normal (Some tt), f data w').
Proof. unfold getCall, bind; intros H. change UsersPage.api with ProjectsPage.api. now rewrite H. Qed.

Lemma usersLoop_hit (f : value -> World -> World) (pre post : list string)
  (path : string) (l : option JsError) (data : value) (w w1 w2 : World) :
  allThrow (getCall P) pre None w = Some (l, w1) ->
  getCall P path w1 = (Normal data, w2) ->
  forOfTry (fun path =>
              data <- Client.api_get P UsersPage.api path Client.noOptions ;;
              modify (f data) ;; ret (Some tt))
           (pre ++ path :: post) None w = ((Some tt, l), f data w2).
Proof.
  intros Hpre Hhit.
  rewrite (forOfTry_allThrow _ pre (path :: post) None l w w1).
  - apply forOfTry_hit. now apply usersRound_return.
  - eapply allThrow_rounds; [|exact Hpre]. intros; now apply usersRound_throw.
Qed.

Lemma usersLoop_miss (f : value -> World -> World) (cs : list string)
  (l : option JsError) (w w1 : World) :
  allThrow (getCall P) cs None w = Some (l, w1) ->
  forOfTry (fun path =>
              data <- Client.api_get P UsersPage.api path Client.noOptions ;;
              modify (f data) ;; ret (Some tt))
           cs None w = ((None, l), w1).
Proof.
  intros H. rewrite <- (app_nil_r cs).
  rewrite (forOfTry_allThrow _ cs [] None l w w1); [reflexivity|].
  eapply allThrow_rounds; [|exact H]. intros; now apply usersRound_throw.
Qed.

End LoaderFacts.

(** X18. The users page loads its two lists differently. [loadRoles]
    never throws: it takes the first of [/roles] and [/api/roles] that
    answers, and when neither does it ends silently with the roles, the
    users and the toasts as they were. [loadUsers] takes the first of
    [/users] and [/api/users] that answers and requests nothing after it;
    when neither answers it throws the error of the last request. Each
    loader touches its own list only. *)
Theorem users_page_loaders (P : Platform) (w : World) :
  fst (UsersPage.loadRoles P w) = Normal tt
  /\
  (forall pre post path l data w1 w2,
      pre ++ path :: post = ["/roles"; "/api/roles"]%string ->
      allThrow (getCall P) pre None w = Some (l, w1) ->
      getCall P path w1 = (Normal data, w2) ->
      UsersPage.loadRoles P w =
        (Normal tt, UsersPage.setRoles (UsersPage.normalizeList data) w2) /\
      requestsOf (log w2) = requestsOf (log w) ++ map (sentByGet P w) (pre ++ [path]) /\
      users (usersPage w2) = users (usersPage w))
  /\
  (forall l w1,
      allThrow (getCall P) ["/roles"; "/api/roles"]%string None w = Some (l, w1) ->
      UsersPage.loadRoles P w = (Normal tt, w1) /\ sameData w w1)
  /\
  (forall pre post path l data w1 w2,
      pre ++ path :: post = ["/users"; "/api/users"]%string ->
      allThrow (getCall P) pre None w = Some (l, w1) ->
      getCall P path w1 = (Normal data, w2) ->
      UsersPage.loadUsers P w =
        (Normal tt, UsersPage.setUsers (fun _ => UsersPage.normalizeList data) w2) /\
      requestsOf (log w2) = requestsOf (log w) ++ map (sentByGet P w) (pre ++ [path]) /\
      roles (usersPage w2) = roles (usersPage w))
  /\
  (forall l w1,
      allThrow (getCall P) ["/users"; "/api/users"]%string None w = Some (l, w1) ->
      exists e, l = Some e /\ UsersPage.loadUsers P w = (Throw e, w1) /\ sameData w w1).
Proof.
  assert (Hframe : forall pre path l data w1 w2,
             allThrow (getCall P) pre None w = Some (l, w1) ->
             getCall P path w1 = (Normal data, w2) ->
             requestsOf (log w2) =
               requestsOf (log w) ++ map (sentByGet P w) (pre ++ [path]) /\
             usersPage w2 = usersPage w).
  { intros pre path l data w1 w2 Hpre Hhit.
    destruct (allThrow_requests P (fun _ => "GET"%string) (fun p => p)
                (fun _ => Client.noOptions) pre None l w w1 Hpre) as [Hl Hs].
    destruct (page_request_answer_frame P _ _ _ _ _ _ Hhit) as [Hs2 Hl2].
    split.
    - rewrite Hl2, Hl, map_app, <- app_assoc. simpl. unfold sentByGet.
      do 3 f_equal. apply buildRequest_auth. apply Hs.
    - rewrite (sameData_usersPage _ _ Hs2). apply (sameData_usersPage _ _ Hs). }
  split; [|split; [|split; [|split]]].
  - unfold UsersPage.loadRoles, bind, probe.
    destruct (forOfTry _ _ None w) as [r w']. reflexivity.
  - intros pre post path l data w1 w2 Heq Hpre Hhit.
    destruct (Hframe _ _ _ _ _ _ Hpre Hhit) as [Hl Hu].
    split; [|split; [exact Hl|now rewrite Hu]].
    unfold UsersPage.loadRoles. unfold bind at 1. unfold probe. rewrite <- Heq.
    rewrite (usersLoop_hit P (fun data => UsersPage.setRoles (UsersPage.normalizeList data))
               pre post path l data w w1 w2 Hpre Hhit).
    reflexivity.
  - intros l w1 Hall.
    destruct (allThrow_requests P (fun _ => "GET"%string) (fun p => p)
                (fun _ => Client.noOptions) _ None l w w1 Hall) as [_ Hs].
    split; [|exact Hs].
    unfold UsersPage.loadRoles. unfold bind at 1. unfold probe.
    rewrite (usersLoop_miss P (fun data => UsersPage.setRoles (UsersPage.normalizeList data))
               _ l w w1 Hall).
    reflexivity.
  - intros pre post path l data w1 w2 Heq Hpre Hhit.
    destruct (Hframe _ _ _ _ _ _ Hpre Hhit) as [Hl Hu].
    split; [|split; [exact Hl|now rewrite Hu]].
    unfold UsersPage.loadUsers. unfold bind at 1. unfold probe. rewrite <- Heq.
    rewrite (usersLoop_hit P
               (fun data => UsersPage.setUsers (fun _ => UsersPage.normalizeList data))
               pre post path l data w w1 w2 Hpre Hhit).
    reflexivity.
  - intros l w1 Hall.
    assert (Hne : ["/users"; "/api/users"]%string <> []) by discriminate.
    destruct (allThrow_nonempty (getCall P) _ None l w w1 Hne Hall) as [e ->].
    destruct (allThrow_requests P (fun _ => "GET"%string) (fun p => p)
                (fun _ => Client.noOptions) _ None (Some e) w w1 Hall) as [_ Hs].
    exists e. split; [reflexivity|]. split; [|exact Hs].
    unfold UsersPage.loadUsers. unfold bind at 1. unfold probe.
    rewrite (usersLoop_miss P
               (fun data => UsersPage.setUsers (fun _ => UsersPage.normalizeList data))
               _ (Some e) w w1 Hall).
    reflexivity.
Qed.

(** With the backend down, [loadRoles] ends silently after its two
    requests, and [loadUsers] throws the error of [/api/users]. *)
Lemma users_page_loaders_witness :
  fst (UsersPage.loadRoles Example.platformDown (Example.world "Q2")) = Normal tt
  /\
  map req_url
      (requestsOf (log (snd (UsersPage.loadRoles Example.platformDown
                               (Example.world "Q2")))))
    = ["/roles"; "/api/roles"]%string
  /\
  fst (UsersPage.loadUsers Example.platformDown (Example.world "Q2")) =
    Throw (mkError "Nope" (Some 503) (Some (VObj [("detail"%string, VStr "Nope")]))).
Proof.
  pose (P := Example.platformDown). pose (w := Example.world "Q2").
  pose (err := mkError "Nope" (Some 503) (Some (VObj [("detail"%string, VStr "Nope")]))).
  destruct (users_page_loaders P w) as (_ & _ & Hr & _ & Hu).
  pose (w1 := snd (forOfTry (fun p => x <- getCall P p ;; ret (@None unit))
                     ["/roles"; "/api/roles"]%string None w)).
  destruct (Hr (Some err) w1) as [Hrun _]; [vm_compute; reflexivity|].
  pose (w2 := snd (forOfTry (fun p => x <- getCall P p ;; ret (@None unit))
                     ["/users"; "/api/users"]%string None w)).
  destruct (Hu (Some err) w2) as (e & He & Hrun2 & _); [vm_compute; reflexivity|].
  inversion He; subst e.
  split; [exact (f_equal fst Hrun)|]. split.
  - exact (f_equal (fun r => map req_url (requestsOf (log (snd r)))) Hrun).
  - exact (f_equal fst Hrun2).
Defined.

(** ** The write handlers of the roles page *)

Section RolesFacts.

Context (P : Platform).

(** A request of a page's client that follows the requests [sent]. *)
Lemma page_request_next (method path : string) (o : Client.RequestOptions)
  (w0 w : World) (sent : list Request) :
  sameData w0 w ->
  requestsOf (log w) = requestsOf (log w0) ++ sent ->
  exists w',
    Client.request P ProjectsPage.api method path o w =
      (requestResult P
         (backend P (requestsOf (log w0) ++ sent)
                  (Client.buildRequest P ProjectsPage.api method path o w0)), w') /\
    sameData w0 w' /\
    requestsOf (log w') =
      requestsOf (log w0) ++ sent ++
      [Client.buildRequest P ProjectsPage.api method path o w0].
Proof.
  intros Hs Hl.
  destruct (Client.request P ProjectsPage.api method path o w) as [c w'] eqn:E.
  exists w'.
  destruct (page_request_answer_frame P _ _ _ _ _ _ E) as [Hs' Hr].
  pose proof (page_request_result P method path o w) as Hc.
  rewrite E in Hc; cbn [fst] in Hc.
  rewrite (buildRequest_auth P method path o w0 w (sameData_auth _ _ Hs)) in Hc, Hr.
  unfold answer in Hc. rewrite Hl in Hc, Hr.
  split; [now rewrite Hc|]. split.
  - eapply sameData_trans; eassumption.
  - now rewrite Hr, <- app_assoc.
Qed.

Lemma firstOk_hit (pre post : list (M value)) (fn : M value) (l : option JsError)
  (data : value) (w w1 w2 : World) :
  allThrow (fun f => f) pre None w = Some (l, w1) ->
  fn w1 = (Normal data, w2) ->
  RolesPage.firstOk (pre ++ fn :: post) w = (Normal (Some tt, l), w2).
Proof.
  intros Hpre Hhit. unfold RolesPage.firstOk, probe.
  rewrite (forOfTry_allThrow _ pre (fn :: post) None l w w1).
  - rewrite (forOfTry_hit _ fn post l w1 w2 tt); [reflexivity|].
    unfold bind. now rewrite Hhit.
  - eapply allThrow_rounds; [|exact Hpre].
    intros c0 w0 e w' H. unfold bind. now rewrite H.
Qed.

Lemma firstOk_miss (cs : list (M value)) (l : option JsError) (w w1 : World) :
  allThrow (fun f => f) cs None w = Some (l, w1) ->
  RolesPage.firstOk cs w = (Normal (None, l), w1).
Proof.
  intros H. unfold RolesPage.firstOk, probe. rewrite <- (app_nil_r cs).
  rewrite (forOfTry_allThrow _ cs [] None l w w1); [reflexivity|].
  eapply allThrow_rounds; [|exact H].
  intros c0 w0 e w' H0. unfold bind. now rewrite H0.
Qed.

(** A write of the roles page succeeds as soon as a candidate returns,
    whatever it returns. *)
Lemma saveWith_hit (pre post : list (M value)) (fn : M value) (l : option JsError)
  (data : value) (w w1 w2 : World) :
  allThrow (fun f => f) pre None w = Some (l, w1) ->
  fn w1 = (Normal data, w2) ->
  RolesPage.saveWith (pre ++ fn :: post) w =
    (Normal tt, snd (UIContext.pushToast (UIContext.success "Permissions saved") w2)).
Proof.
  intros Hpre Hhit. unfold RolesPage.saveWith, tryCatch. unfold bind at 1.
  now rewrite (firstOk_hit pre post fn l data w w1 w2 Hpre Hhit).
Qed.

Lemma saveWith_miss (cs : list (M value)) (e : JsError) (w w1 : World) :
  allThrow (fun f => f) cs None w = Some (Some e, w1) ->
  RolesPage.saveWith cs w =
    (Normal tt,
     snd (UIContext.pushToast (UIContext.failure "Save failed" (err_message e)) w1)).
Proof.
  intros H. unfold RolesPage.saveWith, tryCatch. unfold bind at 1.
  now rewrite (firstOk_miss cs (Some e) w w1 H).
Qed.

Lemma assignWith_hit (pre post : list (M value)) (fn : M value) (l : option JsError)
  (data : value) (w w1 w2 : World) :
  allThrow (fun f => f) pre None w = Some (l, w1) ->
  fn w1 = (Normal data, w2) ->
  RolesPage.assignWith (pre ++ fn :: post) w =
    (Normal tt, snd (UIContext.pushToast (UIContext.success "Role assigned") w2)).
Proof.
  intros Hpre Hhit. unfold RolesPage.assignWith, tryCatch. unfold bind at 1.
  now rewrite (firstOk_hit pre post fn l data w w1 w2 Hpre Hhit).
Qed.

Lemma assignWith_miss (cs : list (M value)) (e : JsError) (w w1 : World) :
  allThrow (fun f => f) cs None w = Some (Some e, w1) ->
  RolesPage.assignWith cs w =
    (Normal tt,
     snd (UIContext.pushToast (UIContext.failure "Assign failed" (err_message e)) w1)).
Proof.
  intros H. unfold RolesPage.assignWith, tryCatch. unfold bind at 1.
  now rewrite (firstOk_miss cs (Some e) w w1 H).
Qed.

End RolesFacts.

(** X19. [savePermissions] always completes. Without a selected role that
    has a truthy [id] it sends nothing. Otherwise it sends, as
    [permissions], the keys of [rolePerms] whose value is truthy, in their
    order: first by PUT to [/roles/<id>/permissions], and only when that
    fails by PATCH to [/roles/<id>]. The first of the two that is answered
    with a 2xx status ends the handler with the toast [Permissions saved],
    whatever the answer holds, an empty one included; when both fail, the
    toast [Save failed] carries the message of the PATCH's error. *)
Theorem save_permissions_outcome (P : Platform) (w : World) (selectedRole : value)
  (rolePerms : list (string * value)) :
  let id := Js.get selectedRole "id" in
  let keys := map fst (filter (fun kv => truthy (snd kv)) rolePerms) in
  let body := Client.withBody (VObj [("permissions"%string, VArr (map VStr keys))]) in
  let put := Client.buildRequest P RolesPage.api "PUT"
               ("/roles/" ++ toString id ++ "/permissions")%string body w in
  let patch := Client.buildRequest P RolesPage.api "PATCH"
                 ("/roles/" ++ toString id)%string body w in
  let final := snd (RolesPage.savePermissions P selectedRole rolePerms w) in
  fst (RolesPage.savePermissions P selectedRole rolePerms w) = Normal tt /\
  (truthy id = false -> final = w) /\
  (truthy id = true ->
   req_body put = Some (VObj [("permissions"%string, VArr (map VStr keys))]) /\
   req_body patch = req_body put /\
   match answer P w put with
   | Normal _ =>
       requestsOf (log final) = requestsOf (log w) ++ [put] /\
       pushed w final "success" "Permissions saved" EmptyString
   | Throw _ =>
       requestsOf (log final) = requestsOf (log w) ++ [put; patch] /\
       match requestResult P (backend P (requestsOf (log w) ++ [put]) patch) with
       | Normal _ => pushed w final "success" "Permissions saved" EmptyString
       | Throw e => pushed w final "error" "Save failed" (err_message e)
       end
   end).
Proof.
  intros id keys body put patch final.
  assert (Hidle : truthy id = false ->
                  RolesPage.savePermissions P selectedRole rolePerms w = (Normal tt, w)).
  { intros H. unfold RolesPage.savePermissions. fold id. rewrite H. reflexivity. }
  set (c1 := Client.api_put P RolesPage.api
               ("/roles/" ++ toString id ++ "/permissions")%string body).
  set (c2 := Client.api_patch P RolesPage.api ("/roles/" ++ toString id)%string body).
  assert (Hbusy : truthy id = true ->
                  RolesPage.savePermissions P selectedRole rolePerms w =
                    RolesPage.saveWith [c1; c2] w).
  { intros H. unfold RolesPage.savePermissions. fold id. rewrite H. reflexivity. }
  assert (H1 : exists w1,
             c1 w = (answer P w put, w1) /\ sameData w w1 /\
             requestsOf (log w1) = requestsOf (log w) ++ [put])
    by exact (page_request_run P "PUT" _ body w w eq_refl eq_refl).
  destruct H1 as (w1 & Hreq1 & Hs1 & Hl1).
  assert (H2 : exists w2,
             c2 w1 = (requestResult P (backend P (requestsOf (log w) ++ [put]) patch), w2)
             /\ sameData w w2 /\
             requestsOf (log w2) = requestsOf (log w) ++ [put; patch])
    by exact (page_request_next P "PATCH" _ body w w1 [put] Hs1 Hl1).
  destruct H2 as (w2 & Hreq2 & Hs2 & Hl2).
  destruct (sameData_toasts _ _ Hs1) as [Ht1 Hi1].
  destruct (sameData_toasts _ _ Hs2) as [Ht2 Hi2].
  assert (Hrun : truthy id = true ->
            RolesPage.savePermissions P selectedRole rolePerms w =
              match answer P w put with
              | Normal _ =>
                  (Normal tt,
                   snd (UIContext.pushToast (UIContext.success "Permissions saved") w1))
              | Throw _ =>
                  match requestResult P
                          (backend P (requestsOf (log w) ++ [put]) patch) with
                  | Normal _ =>
                      (Normal tt,
                       snd (UIContext.pushToast
                              (UIContext.success "Permissions saved") w2))
                  | Throw e =>
                      (Normal tt,
                       snd (UIContext.pushToast
                              (UIContext.failure "Save failed" (err_message e)) w2))
                  end
              end).
  { intros H. rewrite (Hbusy H).
    destruct (answer P w put) as [d1|e1] eqn:E1.
    - apply (saveWith_hit [] [c2] c1 None d1 w w w1); [reflexivity|exact Hreq1].
    - assert (Hpre : allThrow (fun f : M value => f) [c1] None w = Some (Some e1, w1)).
      { simpl. now rewrite Hreq1. }
      destruct (requestResult P (backend P (requestsOf (log w) ++ [put]) patch))
        as [d2|e2] eqn:E2.
      + apply (saveWith_hit [c1] [] c2 (Some e1) d2 w w1 w2 Hpre). exact Hreq2.
      + apply saveWith_miss. simpl. rewrite Hreq1. now rewrite Hreq2. }
  split; [|split].
  - destruct (truthy id) eqn:E.
    + rewrite (Hrun eq_refl). destruct (answer P w put); [reflexivity|].
      destruct (requestResult P _); reflexivity.
    + now rewrite Hidle.
  - intros H. subst final. now rewrite Hidle.
  - intros H. split; [reflexivity|]. split; [reflexivity|].
    subst final. rewrite (Hrun H).
    destruct (answer P w put) as [d1|e1]; cbn [snd].
    + rewrite pushToast_log. split; [exact Hl1|].
      apply (pushed_success "Permissions saved" w w1 Ht1 Hi1 eq_refl).
    + destruct (requestResult P _) as [d2|e2]; cbn [snd];
        rewrite pushToast_log; (split; [exact Hl2|]).
      * apply (pushed_success "Permissions saved" w w2 Ht2 Hi2 eq_refl).
      * apply (pushed_failure "Save failed" (err_message e2) w w2 Ht2 Hi2 eq_refl).
Qed.

(** Role 2 with [read] and [admin] ticked and [write] unticked. On the
    backend that answers 204 with no content the PUT alone is sent and the
    permissions count as saved; with the backend down both requests are
    sent and the toast carries the backend's [detail]. *)
Lemma save_permissions_outcome_witness :
  map (fun r => (req_method r, req_url r, req_body r))
      (requestsOf
         (log (snd (RolesPage.savePermissions Example.platformNoContent
                      (VObj [("id"%string, VNum 2)])
                      [("read", VBool true); ("write", VBool false);
                       ("admin", VBool true)]%string
                      (Example.world "Q2")))))
    = [("PUT", "/roles/2/permissions",
        Some (VObj [("permissions", VArr [VStr "read"; VStr "admin"])]))]%string
  /\
  map toast_title
      (toasts (ui (snd (RolesPage.savePermissions Example.platformNoContent
                          (VObj [("id"%string, VNum 2)])
                          [("read", VBool true); ("write", VBool false);
                           ("admin", VBool true)]%string
                          (Example.world "Q2")))))
    = ["Permissions saved"%string]
  /\
  map toast_description
      (toasts (ui (snd (RolesPage.savePermissions Example.platformDown
                          (VObj [("id"%string, VNum 2)]) []
                          (Example.world "Q2")))))
    = ["Nope"%string].
Proof.
  destruct (save_permissions_outcome Example.platformNoContent (Example.world "Q2")
              (VObj [("id"%string, VNum 2)])
              [("read", VBool true); ("write", VBool false);
               ("admin", VBool true)]%string) as (_ & _ & H).
  specialize (H eq_refl). cbv zeta in H. destruct H as (_ & _ & H).
  change (answer _ _ _) with (@Normal value VNull) in H.
  destruct H as (Hl & Ht & _).
  destruct (save_permissions_outcome Example.platformDown (Example.world "Q2")
              (VObj [("id"%string, VNum 2)]) []) as (_ & _ & H2).
  specialize (H2 eq_refl). cbv zeta in H2. destruct H2 as (_ & _ & H2).
  change (answer _ _ _)
    with (@Throw value (mkError "Nope" (Some 503)
                          (Some (VObj [("detail"%string, VStr "Nope")])))) in H2.
  destruct H2 as (_ & H2).
  change (requestResult _ _)
    with (@Throw value (mkError "Nope" (Some 503)
                          (Some (VObj [("detail"%string, VStr "Nope")])))) in H2.
  destruct H2 as (Hd & _).
  split; [rewrite Hl; reflexivity|].
  split; [rewrite Ht|rewrite Hd]; reflexivity.
Defined.

(** X20. [assignRoleToUser] always completes. Without a selected role
    that has a truthy [id], or without a chosen user, it sends nothing.
    Otherwise it sends the role's [id] as [roleId] by POST to
    [/users/<user>/roles], then by PUT to [/users/<user>/role], then by
    PATCH to [/users/<user>], each only when the one before failed. The
    first that is answered with a 2xx status ends the handler with the
    toast [Role assigned], whatever the answer holds; when all three
    fail, the toast [Assign failed] carries the message of the PATCH's
    error. *)
Theorem assign_role_outcome (P : Platform) (w : World)
  (selectedRole assignUserId : value) :
  let id := Js.get selectedRole "id" in
  let body := Client.withBody (VObj [("roleId"%string, id)]) in
  let u := toString assignUserId in
  let post := Client.buildRequest P RolesPage.api "POST"
                ("/users/" ++ u ++ "/roles")%string body w in
  let put := Client.buildRequest P RolesPage.api "PUT"
               ("/users/" ++ u ++ "/role")%string body w in
  let patch := Client.buildRequest P RolesPage.api "PATCH"
                 ("/users/" ++ u)%string body w in
  let final := snd (RolesPage.assignRoleToUser P selectedRole assignUserId w) in
  fst (RolesPage.assignRoleToUser P selectedRole assignUserId w) = Normal tt /\
  (truthy id = false \/ truthy assignUserId = false -> final = w) /\
  (truthy id = true -> truthy assignUserId = true ->
   req_body post = Some (VObj [("roleId"%string, id)]) /\
   match answer P w post with
   | Normal _ =>
       requestsOf (log final) = requestsOf (log w) ++ [post] /\
       pushed w final "success" "Role assigned" EmptyString
   | Throw _ =>
       match requestResult P (backend P (requestsOf (log w) ++ [post]) put) with
       | Normal _ =>
           requestsOf (log final) = requestsOf (log w) ++ [post; put] /\
           pushed w final "success" "Role assigned" EmptyString
       | Throw _ =>
           requestsOf (log final) = requestsOf (log w) ++ [post; put; patch] /\
           match requestResult P
                   (backend P (requestsOf (log w) ++ [post; put]) patch) with
           | Normal _ => pushed w final "success" "Role assigned" EmptyString
           | Throw e => pushed w final "error" "Assign failed" (err_message e)
           end
       end
   end).
Proof.
  intros id body u post put patch final.
  assert (Hidle : truthy id = false \/ truthy assignUserId = false ->
                  RolesPage.assignRoleToUser P selectedRole assignUserId w
                  = (Normal tt, w)).
  { intros H. unfold RolesPage.assignRoleToUser. fold id.
    destruct H as [H|H]; rewrite H; [|rewrite orb_true_r]; reflexivity. }
  set (c1 := Client.api_post P RolesPage.api ("/users/" ++ u ++ "/roles")%string body).
  set (c2 := Client.api_put P RolesPage.api ("/users/" ++ u ++ "/role")%string body).
  set (c3 := Client.api_patch P RolesPage.api ("/users/" ++ u)%string body).
  assert (Hbusy : truthy id = true -> truthy assignUserId = true ->
                  RolesPage.assignRoleToUser P selectedRole assignUserId w =
                    RolesPage.assignWith [c1; c2; c3] w).
  { intros H H'. unfold RolesPage.assignRoleToUser. fold id. rewrite H, H'. reflexivity. }
  assert (H1 : exists w1,
             c1 w = (answer P w post, w1) /\ sameData w w1 /\
             requestsOf (log w1) = requestsOf (log w) ++ [post])
    by exact (page_request_run P "POST" _ body w w eq_refl eq_refl).
  destruct H1 as (w1 & Hreq1 & Hs1 & Hl1).
  assert (H2 : exists w2,
             c2 w1 = (requestResult P (backend P (requestsOf (log w) ++ [post]) put), w2)
             /\ sameData w w2 /\
             requestsOf (log w2) = requestsOf (log w) ++ [post; put])
    by exact (page_request_next P "PUT" _ body w w1 [post] Hs1 Hl1).
  destruct H2 as (w2 & Hreq2 & Hs2 & Hl2).
  assert (H3 : exists w3,
             c3 w2 = (requestResult P
                        (backend P (requestsOf (log w) ++ [post; put]) patch), w3)
             /\ sameData w w3 /\
             requestsOf (log w3) = requestsOf (log w) ++ [post; put; patch])
    by exact (page_request_next P "PATCH" _ body w w2 [post; put] Hs2 Hl2).
  destruct H3 as (w3 & Hreq3 & Hs3 & Hl3).
  destruct (sameData_toasts _ _ Hs1) as [Ht1 Hi1].
  destruct (sameData_toasts _ _ Hs2) as [Ht2 Hi2].
  destruct (sameData_toasts _ _ Hs3) as [Ht3 Hi3].
  set (yes := fun x => (@Normal unit tt,
                 snd (UIContext.pushToast (UIContext.success "Role assigned") x))).
  assert (Hrun : truthy id = true -> truthy assignUserId = true ->
            RolesPage.assignRoleToUser P selectedRole assignUserId w =
              match answer P w post with
              | Normal _ => yes w1
              | Throw _ =>
                  match requestResult P
                          (backend P (requestsOf (log w) ++ [post]) put) with
                  | Normal _ => yes w2
                  | Throw _ =>
                      match requestResult P
                              (backend P (requestsOf (log w) ++ [post; put]) patch) with
                      | Normal _ => yes w3
                      | Throw e =>
                          (Normal tt,
                           snd (UIContext.pushToast
                                  (UIContext.failure "Assign failed" (err_message e))
                                  w3))
                      end
                  end
              end).
  { intros H H'. rewrite (Hbusy H H').
    destruct (answer P w post) as [d1|e1] eqn:E1.
    - apply (assignWith_hit [] [c2; c3] c1 None d1 w w w1); [reflexivity|exact Hreq1].
    - destruct (requestResult P (backend P (requestsOf (log w) ++ [post]) put))
        as [d2|e2] eqn:E2.
      + apply (assignWith_hit [c1] [c3] c2 (Some e1) d2 w w1 w2); [|exact Hreq2].
        simpl. now rewrite Hreq1.
      + destruct (requestResult P
                    (backend P (requestsOf (log w) ++ [post; put]) patch))
          as [d3|e3] eqn:E3.
        * apply (assignWith_hit [c1; c2] [] c3 (Some e2) d3 w w2 w3); [|exact Hreq3].
          simpl. rewrite Hreq1. now rewrite Hreq2.
        * apply assignWith_miss. simpl. rewrite Hreq1, Hreq2. now rewrite Hreq3. }
  split; [|split].
  - destruct (truthy id) eqn:E; [|rewrite Hidle; [reflexivity|now left]].
    destruct (truthy assignUserId) eqn:E'; [|rewrite Hidle; [reflexivity|now right]].
    rewrite (Hrun eq_refl eq_refl).
    destruct (answer P w post); [reflexivity|].
    destruct (requestResult P _); [reflexivity|].
    destruct (requestResult P _); reflexivity.
  - intros H. subst final. now rewrite Hidle.
  - intros H H'. split; [reflexivity|].
    subst final. rewrite (Hrun H H'). unfold yes.
    destruct (answer P w post) as [d1|e1]; cbn [snd].
    + rewrite pushToast_log. split; [exact Hl1|].
      apply (pushed_success "Role assigned" w w1 Ht1 Hi1 eq_refl).
    + destruct (requestResult P _) as [d2|e2]; cbn [snd].
      * rewrite pushToast_log. split; [exact Hl2|].
        apply (pushed_success "Role assigned" w w2 Ht2 Hi2 eq_refl).
      * destruct (requestResult P _) as [d3|e3]; cbn [snd];
          rewrite pushToast_log; (split; [exact Hl3|]).
        -- apply (pushed_success "Role assigned" w w3 Ht3 Hi3 eq_refl).
        -- apply (pushed_failure "Assign failed" (err_message e3) w w3 Ht3 Hi3 eq_refl).
Qed.

(** The example backend answers [/users/7/roles] and [/users/7/role] with
    its 404 page and [/users/7] with 200: assigning role 2 to user 7 sends
    all three requests, and the role counts as assigned. Without a chosen
    user nothing is sent. *)
Lemma assign_role_outcome_witness :
  map (fun r => (req_method r, req_url r))
      (requestsOf
         (log (snd (RolesPage.assignRoleToUser Example.platform
                      (VObj [("id"%string, VNum 2)]) (VStr "7") (Example.world "Q2")))))
    = [("POST", "/users/7/roles"); ("PUT", "/users/7/role"); ("PATCH", "/users/7")]%string
  /\
  map toast_title
      (toasts (ui (snd (RolesPage.assignRoleToUser Example.platform
                          (VObj [("id"%string, VNum 2)]) (VStr "7")
                          (Example.world "Q2")))))
    = ["Role assigned"%string]
  /\
  snd (RolesPage.assignRoleToUser Example.platform
         (VObj [("id"%string, VNum 2)]) (VStr EmptyString) (Example.world "Q2"))
    = Example.world "Q2".
Proof.
  destruct (assign_role_outcome Example.platform (Example.world "Q2")
              (VObj [("id"%string, VNum 2)]) (VStr "7")) as (_ & _ & H).
  specialize (H eq_refl eq_refl). cbv zeta in H. destruct H as (_ & H).
  change (answer _ _ _)
    with (@Throw value (mkError "Not Found" (Some 404) (Some (VStr "Not Found")))) in H.
  cbv iota in H.
  change (requestResult _ (backend _ (_ ++ [_]) _))
    with (@Throw value (mkError "Not Found" (Some 404) (Some (VStr "Not Found")))) in H.
  cbv iota in H. destruct H as (Hl & H).
  change (requestResult _ _) with (@Normal value (VObj [("id"%string, VNum 9)])) in H.
  destruct (assign_role_outcome Example.platform (Example.world "Q2")
              (VObj [("id"%string, VNum 2)]) (VStr EmptyString)) as (_ & Hidle & _).
  split; [rewrite Hl; reflexivity|].
  split; [destruct H as [Ht _]; rewrite Ht; reflexivity|].
  apply Hidle. right. reflexivity.
Defined.

(** ** The sign-in and registration forms *)

(** A relation between states that every round of a loop keeps is kept by
    the loop. *)
Lemma forOfTry_inv {C R : Type} (I : World -> World -> Prop)
  (body : C -> M (option R)) (cs : list C) (l : option JsError) (w : World) :
  (forall x, I x x) ->
  (forall x y z, I x y -> I y z -> I x z) ->
  (forall c x, I x (snd (body c x))) ->
  I w (snd (forOfTry body cs l w)).
Proof.
  intros Hrefl Htrans Hb; revert l w; induction cs as [|c cs IH]; intros l w; simpl.
  - apply Hrefl.
  - pose proof (Hb c w) as H.
    destruct (body c w) as [[[r|]|e] w'] eqn:E; cbn [snd] in *.
    + assumption.
    + eapply Htrans; [exact H|apply IH].
    + eapply Htrans; [exact H|apply IH].
Qed.

(** A loop that ends with a result ends in the state its last round
    left. *)
Lemma forOfTry_some {C R : Type} (body : C -> M (option R)) (cs : list C)
  (l l' : option JsError) (w w' : World) (r : R) :
  forOfTry body cs l w = ((Some r, l'), w') ->
  exists c w0, body c w0 = (Normal (Some r), w').
Proof.
  revert l w; induction cs as [|c cs IH]; intros l w; simpl; [discriminate|].
  destruct (body c w) as [[[r0|]|e] w1] eqn:E.
  - intros H; inversion H; subst. now exists c, w.
  - apply IH.
  - apply IH.
Qed.

(** A loop that ends without a result went through rounds that threw or
    fell through: what each of those keeps, the loop keeps. *)
Lemma forOfTry_none {C R : Type} (I : World -> World -> Prop)
  (body : C -> M (option R)) (cs : list C) (l l' : option JsError) (w w' : World) :
  (forall x, I x x) ->
  (forall x y z, I x y -> I y z -> I x z) ->
  (forall c x y, body c x = (Normal None, y) -> I x y) ->
  (forall c x y e, body c x = (Throw e, y) -> I x y) ->
  forOfTry body cs l w = ((None, l'), w') ->
  I w w'.
Proof.
  intros Hrefl Htrans Hn Ht; revert l w; induction cs as [|c cs IH]; intros l w; simpl.
  - intros H; inversion H; subst. apply Hrefl.
  - destruct (body c w) as [[[r0|]|e] w1] eqn:E; [discriminate| |].
    + intros H. eapply Htrans; [eapply Hn; exact E|eapply IH; exact H].
    + intros H. eapply Htrans; [eapply Ht; exact E|eapply IH; exact H].
Qed.

Lemma grows_refl (w : World) : grows w w.
Proof. exists []. now rewrite app_nil_r. Qed.

Lemma grows_trans (x y z : World) : grows x y -> grows y z -> grows x z.
Proof.
  intros [a Ha] [b Hb]. exists (a ++ b). now rewrite Hb, Ha, app_assoc.
Qed.


Lemma sessionOnly_refl (w : World) : sessionOnly w w.
Proof. unfold sessionOnly. repeat split. apply grows_refl. Qed.

Lemma sessionOnly_trans (x y z : World) :
  sessionOnly x y -> sessionOnly y z -> sessionOnly x z.
Proof.
  intros (a1 & a2 & a3 & a4) (b1 & b2 & b3 & b4).
  unfold sessionOnly. repeat split; try congruence.
  eapply grows_trans; eassumption.
Qed.

Lemma emit_session (e : Event) (w : World) : sessionOnly w (emit e w).
Proof. unfold sessionOnly. repeat split. now exists [e]. Qed.

Lemma sameSession_refl (w : World) : sameSession w w.
Proof. split; reflexivity. Qed.

Lemma sameSession_trans (x y z : World) :
  sameSession x y -> sameSession y z -> sameSession x z.
Proof. intros [a1 a2] [b1 b2]. split; congruence. Qed.

Section SessionFacts.

Context (P : Platform).

Lemma me_session (g : option (World -> value)) (w : World) :
  sessionOnly w (snd (AuthContext.bestEffortGetMe P (Client.mkOptions g None) w)) /\
  auth (snd (AuthContext.bestEffortGetMe P (Client.mkOptions g None) w)) = auth w.
Proof.
  rewrite bestEffortGetMe_eq; cbn [snd]. split.
  - apply (forOfTry_inv sessionOnly); [apply sessionOnly_refl|apply sessionOnly_trans|].
    intros c x. rewrite meRound_effect. apply emit_session.
  - apply (forOfTry_inv (fun x y => auth y = auth x)); [reflexivity|congruence|].
    intros c x. now rewrite meRound_effect.
Qed.

(** A round of [login] sends its POST and then either throws, with
    nothing else changed, or signs in. *)
Lemma loginAttempt_cases (c : string * value) (w : World) :
  let w1 := emit (Fetch (Client.buildRequest P AuthContext.api "POST" (fst c)
                           (Client.withBody (snd c)) w)) w in
  (exists e, AuthContext.loginAttempt P c w = (Throw e, w1)) \/
  (exists res final,
      AuthContext.loginAttempt P c w = (Normal (Some res), final) /\
      truthy (token (auth final)) = true /\ sessionOnly w1 final).
Proof.
  intros w1.
  pose proof (request_no_hook P (Some (fun w => token (auth w))) "POST" (fst c)
                (Client.withBody (snd c)) w) as Hw.
  change (Client.mkOptions (Some (fun w => token (auth w))) None)
    with AuthContext.api in Hw.
  fold w1 in Hw.
  destruct (Client.request P AuthContext.api "POST" (fst c) (Client.withBody (snd c)) w)
    as [[data|e] w'] eqn:E; cbn [snd] in Hw; subst w'.
  - set (jwt := AuthContext.normalizeAuthResponse data).
    assert (Hstep : AuthContext.loginAttempt P c w =
              (if negb (truthy jwt)
               then throw (newError "Login response did not include a token.")
               else
                 modify (TokenStorage.setToken jwt) ;;
                 modify (AuthContext.setTokenState jwt) ;;
                 me <- AuthContext.bestEffortGetMe P (AuthContext.apiFor jwt) ;;
                 modify (AuthContext.setUser me) ;;
                 ret (Some (VObj [("token"%string, jwt); ("user"%string, me)]))) w1).
    { unfold AuthContext.loginAttempt. unfold bind at 1. unfold Client.api_post.
      now rewrite E. }
    rewrite Hstep. clear Hstep.
    destruct (truthy jwt) eqn:Ht; cbn [negb].
    + right.
      set (w0 := AuthContext.setTokenState jwt (TokenStorage.setToken jwt w1)).
      destruct (me_session (Some (fun _ => jwt)) w0) as [Hs Ha].
      change (Client.mkOptions (Some (fun _ => jwt)) None)
        with (AuthContext.apiFor jwt) in Hs, Ha.
      destruct (AuthContext.bestEffortGetMe P (AuthContext.apiFor jwt) w0)
        as [[me|e] w2] eqn:Eme.
      * exists (VObj [("token"%string, jwt); ("user"%string, me)]),
               (AuthContext.setUser me w2).
        split; [|split].
        -- unfold bind at 1, modify at 1. unfold bind at 1, modify at 1. fold w0.
           unfold bind at 1. rewrite Eme. reflexivity.
        -- cbn [snd] in Ha. cbn [AuthContext.setUser withAuth auth token].
           rewrite Ha. exact Ht.
        -- cbn [snd] in Hs.
           assert (H0 : sessionOnly w1 w0).
           { unfold w0, AuthContext.setTokenState, TokenStorage.setToken, sessionOnly.
             destruct (storageOk w1); repeat split;
               exists []; rewrite app_nil_r; reflexivity. }
           eapply sessionOnly_trans; [exact H0|].
           eapply sessionOnly_trans; [exact Hs|].
           unfold sessionOnly. repeat split. exists []. now rewrite app_nil_r.
      * exfalso. rewrite bestEffortGetMe_eq in Eme. discriminate.
    + left. eexists. reflexivity.
  - left. exists e.
    unfold AuthContext.loginAttempt. unfold bind at 1. unfold Client.api_post.
    now rewrite E.
Qed.

End SessionFacts.

Section FormFacts.

Context (P : Platform).

(** A round of [register] sends its POST and then either throws, with
    nothing else changed, or ends the loop. *)
Lemma registerAttempt_cases (c : string * value) (w : World) :
  let w1 := emit (Fetch (Client.buildRequest P AuthContext.api "POST" (fst c)
                           (Client.withBody (snd c)) w)) w in
  (exists e, AuthProvider.registerAttempt P c w = (Throw e, w1)) \/
  (exists res final,
      AuthProvider.registerAttempt P c w = (Normal (Some res), final) /\
      sessionOnly w1 final).
Proof.
  intros w1.
  pose proof (request_no_hook P (Some (fun w => token (auth w))) "POST" (fst c)
                (Client.withBody (snd c)) w) as Hw.
  change (Client.mkOptions (Some (fun w => token (auth w))) None)
    with AuthContext.api in Hw.
  fold w1 in Hw.
  destruct (Client.request P AuthContext.api "POST" (fst c) (Client.withBody (snd c)) w)
    as [[data|e] w'] eqn:E; cbn [snd] in Hw; subst w'.
  - right. set (jwt := AuthContext.normalizeAuthResponse data).
    assert (Hstep : AuthProvider.registerAttempt P c w =
              ((if truthy jwt
                then
                  modify (TokenStorage.setToken jwt) ;;
                  modify (AuthContext.setTokenState jwt) ;;
                  me <- AuthContext.bestEffortGetMe P (AuthContext.apiFor jwt) ;;
                  modify (AuthContext.setUser me)
                else ret tt) ;;
               ret (Some (VObj [("token"%string, Js.or jwt VNull);
                                ("user"%string, VNull)]))) w1).
    { unfold AuthProvider.registerAttempt. unfold bind at 1. unfold Client.api_post.
      now rewrite E. }
    rewrite Hstep. clear Hstep.
    destruct (truthy jwt) eqn:Ht.
    + set (w0 := AuthContext.setTokenState jwt (TokenStorage.setToken jwt w1)).
      destruct (me_session P (Some (fun _ => jwt)) w0) as [Hs _].
      change (Client.mkOptions (Some (fun _ => jwt)) None)
        with (AuthContext.apiFor jwt) in Hs.
      destruct (AuthContext.bestEffortGetMe P (AuthContext.apiFor jwt) w0)
        as [[me|e] w2] eqn:Eme.
      * exists (VObj [("token"%string, Js.or jwt VNull); ("user"%string, VNull)]),
               (AuthContext.setUser me w2).
        split.
        -- unfold bind at 1. unfold bind at 1, modify at 1.
           unfold bind at 1, modify at 1. fold w0.
           unfold bind at 1. rewrite Eme. reflexivity.
        -- cbn [snd] in Hs.
           assert (H0 : sessionOnly w1 w0).
           { unfold w0, AuthContext.setTokenState, TokenStorage.setToken, sessionOnly.
             destruct (storageOk w1); repeat split;
               exists []; rewrite app_nil_r; reflexivity. }
           eapply sessionOnly_trans; [exact H0|].
           eapply sessionOnly_trans; [exact Hs|].
           unfold sessionOnly. repeat split. exists []. now rewrite app_nil_r.
      * exfalso. rewrite bestEffortGetMe_eq in Eme. discriminate.
    + exists (VObj [("token"%string, Js.or jwt VNull); ("user"%string, VNull)]), w1.
      split; [reflexivity|apply sessionOnly_refl].
  - left. exists e.
    unfold AuthProvider.registerAttempt. unfold bind at 1. unfold Client.api_post.
    now rewrite E.
Qed.

(** [login] and [register] in closed form. *)
Lemma loginWith_eq (cs : list (string * value)) (w : World) :
  AuthContext.loginWith P cs w =
    (match fst (fst (forOfTry (AuthContext.loginAttempt P) cs None w)) with
     | Some res => Normal res
     | None => Throw (orError (snd (fst (forOfTry (AuthContext.loginAttempt P) cs None w)))
                              "Login failed.")
     end,
     snd (forOfTry (AuthContext.loginAttempt P) cs None w)).
Proof.
  unfold AuthContext.loginWith. unfold bind at 1. unfold probe.
  destruct (forOfTry (AuthContext.loginAttempt P) cs None w) as [[[res|] l] w'];
    reflexivity.
Qed.

Lemma registerWith_eq (cs : list (string * value)) (w : World) :
  AuthProvider.registerWith P cs w =
    (match fst (fst (forOfTry (AuthProvider.registerAttempt P) cs None w)) with
     | Some res => Normal res
     | None => Throw (orError
                        (snd (fst (forOfTry (AuthProvider.registerAttempt P) cs None w)))
                        "Registration failed.")
     end,
     snd (forOfTry (AuthProvider.registerAttempt P) cs None w)).
Proof.
  unfold AuthProvider.registerWith. unfold bind at 1. unfold probe.
  destruct (forOfTry (AuthProvider.registerAttempt P) cs None w) as [[[res|] l] w'];
    reflexivity.
Qed.

Lemma loginAttempt_session (c : string * value) (w : World) :
  sessionOnly w (snd (AuthContext.loginAttempt P c w)).
Proof.
  destruct (loginAttempt_cases P c w) as [[e H]|(res & final & H & _ & Hs)];
    rewrite H; cbn [snd].
  - apply emit_session.
  - eapply sessionOnly_trans; [apply emit_session|exact Hs].
Qed.

Lemma registerAttempt_session (c : string * value) (w : World) :
  sessionOnly w (snd (AuthProvider.registerAttempt P c w)).
Proof.
  destruct (registerAttempt_cases c w) as [[e H]|(res & final & H & Hs)];
    rewrite H; cbn [snd].
  - apply emit_session.
  - eapply sessionOnly_trans; [apply emit_session|exact Hs].
Qed.

(** [login] touches the session, the storage and the log only; when it
    throws, session and storage are as before; when it returns, a truthy
    token is in the session. Its first request is the POST of the first
    candidate. *)
Lemma login_facts (cs : list (string * value)) (w : World) :
  sessionOnly w (snd (AuthContext.loginWith P cs w)) /\
  (forall e, fst (AuthContext.loginWith P cs w) = Throw e ->
             sameSession w (snd (AuthContext.loginWith P cs w))) /\
  (forall res, fst (AuthContext.loginWith P cs w) = Normal res ->
               truthy (token (auth (snd (AuthContext.loginWith P cs w)))) = true) /\
  (forall c rest, cs = c :: rest ->
     grows (emit (Fetch (Client.buildRequest P AuthContext.api "POST" (fst c)
                           (Client.withBody (snd c)) w)) w)
           (snd (AuthContext.loginWith P cs w))).
Proof.
  rewrite loginWith_eq; cbn [fst snd].
  split; [|split; [|split]].
  - apply (forOfTry_inv sessionOnly); [apply sessionOnly_refl|apply sessionOnly_trans|].
    apply loginAttempt_session.
  - intros e He.
    destruct (forOfTry (AuthContext.loginAttempt P) cs None w) as [[[res|] l] w'] eqn:E;
      cbn [fst snd] in *; [discriminate|].
    apply (forOfTry_none sameSession (AuthContext.loginAttempt P) cs None l w w'
             sameSession_refl sameSession_trans); [| |exact E].
    + intros c x y H.
      destruct (loginAttempt_cases P c x) as [[e0 H0]|(r0 & f0 & H0 & _)];
        rewrite H0 in H; discriminate.
    + intros c x y e0 H.
      destruct (loginAttempt_cases P c x) as [[e1 H0]|(r0 & f0 & H0 & _)];
        rewrite H0 in H; [|discriminate].
      inversion H; subst. split; reflexivity.
  - intros res Hres.
    destruct (forOfTry (AuthContext.loginAttempt P) cs None w) as [[[r|] l] w'] eqn:E;
      cbn [fst snd] in *; [|discriminate].
    destruct (forOfTry_some _ _ _ _ _ _ _ E) as (c & w0 & H).
    destruct (loginAttempt_cases P c w0) as [[e0 H0]|(r0 & f0 & H0 & Ht & _)];
      rewrite H0 in H; [discriminate|].
    inversion H; subst. exact Ht.
  - intros c rest ->. simpl.
    destruct (loginAttempt_cases P c w) as [[e0 H0]|(r0 & f0 & H0 & _ & Hs)];
      rewrite H0; cbn [snd].
    + apply (forOfTry_inv grows); [apply grows_refl|apply grows_trans|].
      intros c0 x. apply loginAttempt_session.
    + apply Hs.
Qed.

Lemma register_facts (cs : list (string * value)) (w : World) :
  sessionOnly w (snd (AuthProvider.registerWith P cs w)) /\
  (forall c rest, cs = c :: rest ->
     grows (emit (Fetch (Client.buildRequest P AuthContext.api "POST" (fst c)
                           (Client.withBody (snd c)) w)) w)
           (snd (AuthProvider.registerWith P cs w))).
Proof.
  rewrite registerWith_eq; cbn [fst snd].
  split.
  - apply (forOfTry_inv sessionOnly); [apply sessionOnly_refl|apply sessionOnly_trans|].
    apply registerAttempt_session.
  - intros c rest ->. simpl.
    destruct (registerAttempt_cases c w) as [[e0 H0]|(r0 & f0 & H0 & Hs)];
      rewrite H0; cbn [snd].
    + apply (forOfTry_inv grows); [apply grows_refl|apply grows_trans|].
      intros c0 x. apply registerAttempt_session.
    + apply Hs.
Qed.

End FormFacts.

Lemma pushToast_session (t : UIContext.ToastInput) (w : World) :
  sameSession w (snd (UIContext.pushToast t w)).
Proof.
  unfold sameSession, UIContext.pushToast; simpl.
  destruct (_ =? 0); split; reflexivity.
Qed.

Lemma short_password (p : string) (n : Z) :
  0 < n ->
  (Str.isEmpty p || (Str.length p <? n))%bool = (Str.length p <? n).
Proof.
  intros Hn. destruct p as [|c p]; [|reflexivity].
  cbn [Str.isEmpty orb]. symmetry. apply Z.ltb_lt. exact Hn.
Qed.

(** X21. Submitting the sign-in form. An address that fails the check, or
    a password shorter than 6, stops the submit: an error is shown in the
    form, nothing is sent, and the page stays. Otherwise the credentials
    are posted, first to [/auth/login], and the form is no longer
    submitting when the handler ends. When [login] returns, the session
    holds a truthy token, the page moves to [/projects] and the toast
    [Welcome back] is shown; when [login] throws, session and stored
    token are as before, the page stays, and the toast [Login failed]
    carries the error's message, or [Please try again.] when that is
    empty. *)
Theorem login_form_submit (P : Platform) (s : LoginPage.State) (w : World) :
  let s' := fst (LoginPage.onSubmit P s w) in
  let w' := snd (LoginPage.onSubmit P s w) in
  let sent := Client.buildRequest P AuthContext.api "POST" "/auth/login"
                (Client.withBody (VObj [("email"%string, VStr (LoginPage.email s));
                                        ("password"%string, VStr (LoginPage.password s))]))
                w in
  (LoginPage.emailValid s = false \/ Str.length (LoginPage.password s) < 6 ->
   w' = w /\ LoginPage.location s' = LoginPage.location s /\
   LoginPage.submitting s' = LoginPage.submitting s /\
   LoginPage.formError s' <> EmptyString)
  /\
  (LoginPage.emailValid s = true -> 6 <= Str.length (LoginPage.password s) ->
   LoginPage.submitting s' = false /\ LoginPage.formError s' = EmptyString /\
   (exists more, log w' = log w ++ Fetch sent :: more) /\
   match fst (AuthContext.login P (VStr (LoginPage.email s))
                (VStr (LoginPage.password s)) w) with
   | Normal _ =>
       LoginPage.location s' = Some "/projects"%string /\
       AuthContext.isAuthenticated w' = true /\
       pushed w w' "success" "Welcome back" "Signed in successfully."
   | Throw e =>
       LoginPage.location s' = LoginPage.location s /\
       sameSession w w' /\
       pushed w w' "error" "Login failed" (LoginPage.messageOr e "Please try again.")
   end).
Proof.
  intros s' w' sent. split.
  - intros Hbad. subst s' w'. unfold LoginPage.onSubmit.
    destruct (LoginPage.emailValid s) eqn:Ev; cbn [negb fst snd].
    + destruct Hbad as [Hbad|Hbad]; [discriminate|].
      rewrite (short_password _ 6 ltac:(lia)).
      apply Z.ltb_lt in Hbad. rewrite Hbad. cbn [fst snd].
      repeat split; discriminate.
    + repeat split; discriminate.
  - intros Hv Hlen. subst s' w'. unfold LoginPage.onSubmit.
    rewrite Hv, (short_password _ 6 ltac:(lia)). cbn [negb].
    apply Z.ltb_ge in Hlen. rewrite Hlen.
    pose proof (login_facts P
                  (AuthContext.loginCandidates (VStr (LoginPage.email s))
                     (VStr (LoginPage.password s))) w) as (Hs & Hthrow & Hret & Hfirst).
    specialize (Hfirst _ _ eq_refl). cbn [fst snd] in Hfirst. fold sent in Hfirst.
    fold (AuthContext.login P (VStr (LoginPage.email s)) (VStr (LoginPage.password s)))
      in Hs, Hthrow, Hret, Hfirst.
    destruct (AuthContext.login P (VStr (LoginPage.email s))
                (VStr (LoginPage.password s)) w) as [[res|e] w1] eqn:E;
      cbn [fst snd] in *.
    + destruct Hs as (Hui & _ & _ & _).
      destruct (pushToast_session
                  (UIContext.mkToastInput (Some "success"%string)
                     (Some "Welcome back"%string)
                     (Some "Signed in successfully."%string) None) w1) as [Ha _].
      split; [reflexivity|]. split; [reflexivity|]. split; [|split; [reflexivity|split]].
      * destruct Hfirst as [more Hm]. exists more.
        now rewrite pushToast_log, Hm, emit_log, <- app_assoc.
      * unfold AuthContext.isAuthenticated. rewrite Ha. now apply (Hret res).
      * apply (pushToast_pushed
                 (UIContext.mkToastInput (Some "success"%string)
                    (Some "Welcome back"%string)
                    (Some "Signed in successfully."%string) None) w w1);
          [now rewrite Hui|now rewrite Hui|reflexivity].
    + destruct Hs as (Hui & _ & _ & _).
      split; [reflexivity|]. split; [reflexivity|]. split; [|split; [reflexivity|split]].
      * destruct Hfirst as [more Hm]. exists more.
        now rewrite pushToast_log, Hm, emit_log, <- app_assoc.
      * eapply sameSession_trans; [apply (Hthrow e eq_refl)|apply pushToast_session].
      * apply pushed_failure; [now rewrite Hui|now rewrite Hui|reflexivity].
Qed.

(** On the example backend, whose [/auth/login] answers without a token
    and whose [/login] answers with one, a submit with a six-letter
    password signs in and moves to [/projects]; with five letters it
    sends nothing. *)
Lemma login_form_submit_witness :
  LoginPage.location
    (fst (LoginPage.onSubmit Example.platform
            (LoginPage.mkState "ann@corp.io" "secret" false EmptyString None)
            (Example.world "Q2"))) = Some "/projects"%string
  /\
  AuthContext.isAuthenticated
    (snd (LoginPage.onSubmit Example.platform
            (LoginPage.mkState "ann@corp.io" "secret" false EmptyString None)
            (Example.world "Q2"))) = true
  /\
  snd (LoginPage.onSubmit Example.platform
         (LoginPage.mkState "ann@corp.io" "secre" false EmptyString None)
         (Example.world "Q2")) = Example.world "Q2".
Proof.
  destruct (login_form_submit Example.platform
              (LoginPage.mkState "ann@corp.io" "secret" false EmptyString None)
              (Example.world "Q2")) as (_ & Hgood).
  destruct Hgood as (_ & _ & _ & H); [reflexivity | vm_compute; discriminate |].
  change (fst (AuthContext.login _ _ _ _))
    with (@Normal value (VObj [("token"%string, VStr "abc"); ("user"%string, VNull)]))
    in H.
  destruct H as (Hloc & Hauth & _).
  destruct (login_form_submit Example.platform
              (LoginPage.mkState "ann@corp.io" "secre" false EmptyString None)
              (Example.world "Q2")) as (Hbad & _).
  destruct Hbad as (Hw & _); [right; vm_compute; reflexivity|].
  split; [exact Hloc|]. split; [exact Hauth|exact Hw].
Defined.

Lemma short_name (n : string) :
  (Str.isEmpty n || (Str.length (Str.trim n) <? 2))%bool = (Str.length (Str.trim n) <? 2).
Proof. destruct n; reflexivity. Qed.

(** X22. Submitting the registration form. The checks run in the order
    name, address, password: a name shorter than 2 after trimming, an
    address that fails the check, or a password shorter than 8 stops the
    submit with an error in the form, nothing sent and the page staying;
    the name's error wins over the others. Otherwise the form is posted,
    first to [/auth/register], with the name trimmed and the address and
    password as typed, and the form is no longer submitting when the
    handler ends. When [register] returns, the page moves to [/login] and
    the toast [Account created] is shown; when it throws, the page stays
    and the toast [Registration failed] carries the error's message, or
    [Please try again.] when that is empty. *)
Theorem register_form_submit (P : Platform) (s : RegisterPage.State) (w : World) :
  let s' := fst (RegisterPage.onSubmit P s w) in
  let w' := snd (RegisterPage.onSubmit P s w) in
  let sent := Client.buildRequest P AuthContext.api "POST" "/auth/register"
                (Client.withBody
                   (VObj [("name"%string, VStr (Str.trim (RegisterPage.name s)));
                          ("email"%string, VStr (RegisterPage.email s));
                          ("password"%string, VStr (RegisterPage.password s))]))
                w in
  (Str.length (Str.trim (RegisterPage.name s)) < 2 \/
   RegisterPage.emailValid s = false \/
   Str.length (RegisterPage.password s) < 8 ->
   w' = w /\ RegisterPage.location s' = RegisterPage.location s /\
   RegisterPage.submitting s' = RegisterPage.submitting s /\
   RegisterPage.formError s' <> EmptyString)
  /\
  (Str.length (Str.trim (RegisterPage.name s)) < 2 ->
   RegisterPage.formError s' = "Please enter your name."%string)
  /\
  (2 <= Str.length (Str.trim (RegisterPage.name s)) ->
   RegisterPage.emailValid s = true ->
   8 <= Str.length (RegisterPage.password s) ->
   RegisterPage.submitting s' = false /\ RegisterPage.formError s' = EmptyString /\
   (exists more, log w' = log w ++ Fetch sent :: more) /\
   match fst (AuthProvider.register P (VStr (Str.trim (RegisterPage.name s)))
                (VStr (RegisterPage.email s)) (VStr (RegisterPage.password s)) w) with
   | Normal _ =>
       RegisterPage.location s' = Some "/login"%string /\
       pushed w w' "success" "Account created" "You can now sign in."
   | Throw e =>
       RegisterPage.location s' = RegisterPage.location s /\
       pushed w w' "error" "Registration failed"
              (LoginPage.messageOr e "Please try again.")
   end).
Proof.
  intros s' w' sent. split; [|split].
  - intros Hbad. subst s' w'. unfold RegisterPage.onSubmit. rewrite short_name.
    destruct (Z.ltb_spec (Str.length (Str.trim (RegisterPage.name s))) 2) as [Hn|Hn];
      cbn [fst snd]; [repeat split; discriminate|].
    destruct (RegisterPage.emailValid s) eqn:Ev; cbn [negb fst snd];
      [|repeat split; discriminate].
    rewrite (short_password _ 8 ltac:(lia)).
    destruct Hbad as [Hbad|[Hbad|Hbad]]; [lia|discriminate|].
    apply Z.ltb_lt in Hbad. rewrite Hbad. cbn [fst snd].
    repeat split; discriminate.
  - intros Hn. subst s'. unfold RegisterPage.onSubmit. rewrite short_name.
    apply Z.ltb_lt in Hn. rewrite Hn. reflexivity.
  - intros Hn Hv Hlen. subst s' w'. unfold RegisterPage.onSubmit.
    rewrite short_name, Hv, (short_password _ 8 ltac:(lia)). cbn [negb].
    apply Z.ltb_ge in Hn, Hlen. rewrite Hn, Hlen.
    pose proof (register_facts P
                  (AuthProvider.registerCandidates
                     (VStr (Str.trim (RegisterPage.name s)))
                     (VStr (RegisterPage.email s))
                     (VStr (RegisterPage.password s))) w) as (Hs & Hfirst).
    specialize (Hfirst _ _ eq_refl). cbn [fst snd] in Hfirst. fold sent in Hfirst.
    fold (AuthProvider.register P (VStr (Str.trim (RegisterPage.name s)))
            (VStr (RegisterPage.email s)) (VStr (RegisterPage.password s)))
      in Hs, Hfirst.
    destruct (AuthProvider.register P (VStr (Str.trim (RegisterPage.name s)))
                (VStr (RegisterPage.email s)) (VStr (RegisterPage.password s)) w)
      as [[res|e] w1] eqn:E; cbn [fst snd] in *.
    + destruct Hs as (Hui & _ & _ & _).
      split; [reflexivity|]. split; [reflexivity|]. split; [|split; [reflexivity|]].
      * destruct Hfirst as [more Hm]. exists more.
        now rewrite pushToast_log, Hm, emit_log, <- app_assoc.
      * apply (pushToast_pushed
                 (UIContext.mkToastInput (Some "success"%string)
                    (Some "Account created"%string)
                    (Some "You can now sign in."%string) None) w w1);
          [now rewrite Hui|now rewrite Hui|reflexivity].
    + destruct Hs as (Hui & _ & _ & _).
      split; [reflexivity|]. split; [reflexivity|]. split; [|split; [reflexivity|]].
      * destruct Hfirst as [more Hm]. exists more.
        now rewrite pushToast_log, Hm, emit_log, <- app_assoc.
      * apply pushed_failure; [now rewrite Hui|now rewrite Hui|reflexivity].
Qed.

(** A name typed with blanks around it is sent without them; the
    backend that answers 204 with no content registers at the first
    candidate, and the page moves to [/login]. A name of one letter and
    blanks is refused even with a bad address, for its own reason. *)
Lemma register_form_submit_witness :
  map (fun r => (req_url r, req_body r))
      (requestsOf
         (log (snd (RegisterPage.onSubmit Example.platformNoContent
                      (RegisterPage.mkState "  Ann " "ann@corp.io" "secret12" false
                         EmptyString None)
                      (Example.world "Q2")))))
    = [("/auth/register",
        Some (VObj [("name", VStr "Ann"); ("email", VStr "ann@corp.io");
                    ("password", VStr "secret12")]))]%string
  /\
  RegisterPage.location
    (fst (RegisterPage.onSubmit Example.platformNoContent
            (RegisterPage.mkState "  Ann " "ann@corp.io" "secret12" false
               EmptyString None)
            (Example.world "Q2"))) = Some "/login"%string
  /\
  RegisterPage.formError
    (fst (RegisterPage.onSubmit Example.platform
            (RegisterPage.mkState " A  " "nobody" "x" false EmptyString None)
            (Example.world "Q2"))) = "Please enter your name."%string.
Proof.
  destruct (register_form_submit Example.platformNoContent
              (RegisterPage.mkState "  Ann " "ann@corp.io" "secret12" false
                 EmptyString None)
              (Example.world "Q2")) as (_ & _ & Hgood).
  destruct Hgood as (_ & _ & _ & H);
    [vm_compute; discriminate | reflexivity | vm_compute; discriminate |].
  change (fst (AuthProvider.register _ _ _ _ _))
    with (@Normal value (VObj [("token"%string, VNull); ("user"%string, VNull)])) in H.
  destruct H as (Hloc & _).
  destruct (register_form_submit Example.platform
              (RegisterPage.mkState " A  " "nobody" "x" false EmptyString None)
              (Example.world "Q2")) as (_ & Hname & _).
  split; [reflexivity|]. split; [exact Hloc|].
  apply Hname. vm_compute. reflexivity.
Defined.

(** ** Inviting a user and changing a role: the answered case *)

(** X23. When a candidate of [submitInvite] is the first to answer, and
    answers with a truthy value, the handler ends there: the requests
    sent are the POSTs up to that candidate, each carrying the invite
    form; the answer is put in front of the user list, from which falsy
    entries are dropped; the invite form is closed; and [User
    invited/created] is shown. Likewise the first candidate of
    [updateUserRole] that answers with a truthy value replaces, in a list
    of objects, every user whose [id] is the given one, the order and the
    other users staying as they were, and [Role updated] is shown. *)
Theorem user_writes_success (P : Platform) (w : World) :
  (UsersPage.validateUser (inviteForm (usersPage w)) = [] ->
   forall pre post c l created w1 w2,
     pre ++ c :: post = UsersPage.inviteCandidates (inviteForm (usersPage w)) ->
     allThrow (inviteCall P) pre None (UsersPage.setErrors [] w) = Some (l, w1) ->
     inviteCall P c w1 = (Normal created, w2) ->
     truthy created = true ->
     exists final,
       UsersPage.submitInvite P w = (Normal tt, final) /\
       requestsOf (log final) =
         requestsOf (log w) ++ map (sentByPost P w) (pre ++ [c]) /\
       Forall (fun r => req_body r = Some (inviteForm (usersPage w)))
              (map (sentByPost P w) (pre ++ [c])) /\
       users (usersPage final) = created :: filter truthy (users (usersPage w)) /\
       inviteOpen (usersPage final) = false /\
       userErrors (usersPage final) = [] /\
       pushed w final "success" "User invited/created" EmptyString)
  /\
  (forallb isRecord (users (usersPage w)) = true ->
   forall userId roleId pre post fn l updated w1 w2,
     pre ++ fn :: post = UsersPage.roleCandidates P userId roleId ->
     allThrow (fun f => f) pre None w = Some (l, w1) ->
     fn w1 = (Normal updated, w2) ->
     truthy updated = true ->
     exists final,
       UsersPage.updateUserRole P userId roleId w = (Normal tt, final) /\
       users (usersPage final) =
         map (fun u => if strictEq (Js.get u "id") userId then updated else u)
             (users (usersPage w)) /\
       pushed w final "success" "Role updated" EmptyString).
Proof.
  split.
  - intros Hv pre post c l created w1 w2 Heq Hpre Hhit Ht.
    set (w0 := UsersPage.setErrors [] w) in *.
    pose proof (inviteWith_answer P pre post c l created w0 w1 w2 Hpre Hhit) as Hrun.
    rewrite Ht in Hrun.
    destruct (allThrow_requests P (fun _ => "POST"%string) fst
                (fun c => Client.withBody (snd c)) pre None l w0 w1 Hpre) as [Hl1 Hs1].
    destruct (page_request_answer_frame P _ _ _ _ _ _ Hhit) as [Hs2 Hl2].
    pose proof (sameData_trans _ _ _ Hs1 Hs2) as Hs.
    destruct (sameData_toasts _ _ Hs) as [Ht2 Hi2].
    change (toasts (ui w0)) with (toasts (ui w)) in Ht2.
    change (toastId (ui w0)) with (toastId (ui w)) in Hi2.
    destruct (pushToast_pages (UIContext.success "User invited/created") w2)
      as (_ & Hup & _).
    eexists. split; [|split; [|split; [|split; [|split; [|split]]]]].
    + unfold UsersPage.submitInvite. rewrite Hv. cbn [List.length Nat.eqb negb].
      fold w0. rewrite <- Heq. exact Hrun.
    + cbn [UsersPage.setInviteOpen UsersPage.setUsers withUsersPage log].
      rewrite pushToast_log, Hl2, Hl1, map_app, <- app_assoc. simpl.
      unfold sentByPost. f_equal. f_equal. f_equal.
      apply (buildRequest_auth P "POST" (fst c) (Client.withBody (snd c)) w0 w1).
      apply Hs1.
    + apply Forall_forall. intros r Hin. apply in_map_iff in Hin.
      destruct Hin as (c0 & <- & Hin).
      assert (Hc0 : In c0 (UsersPage.inviteCandidates (inviteForm (usersPage w)))).
      { rewrite <- Heq. apply in_app_iff. apply in_app_iff in Hin.
        destruct Hin as [Hin|[Hin|[]]]; [now left|right; now left]. }
      assert (Hb : snd c0 = inviteForm (usersPage w)).
      { destruct Hc0 as [<-|[<-|[<-|[]]]]; reflexivity. }
      unfold sentByPost, Client.buildRequest. cbn [req_body Client.withBody Client.body].
      rewrite Hb.
      unfold UsersPage.validateUser in Hv.
      destruct (inviteForm (usersPage w)) as [| | | | | |props]; try discriminate Hv.
      reflexivity.
    + cbn [UsersPage.setInviteOpen UsersPage.setUsers withUsersPage usersPage users].
      rewrite Hup, (sameData_usersPage _ _ Hs). cbn [filter]. now rewrite Ht.
    + reflexivity.
    + cbn [UsersPage.setInviteOpen UsersPage.setUsers withUsersPage usersPage userErrors].
      rewrite Hup, (sameData_usersPage _ _ Hs). reflexivity.
    + cbn [UsersPage.setInviteOpen UsersPage.setUsers withUsersPage ui].
      apply (pushed_success "User invited/created" w w2 Ht2 Hi2 eq_refl).
  - intros _ userId roleId pre post fn l updated w1 w2 Heq Hpre Hhit Ht.
    assert (Hs : sameData w w2).
    { unfold UsersPage.roleCandidates in Heq.
      destruct pre as [|a [|b [|c pre]]]; cbn [app] in Heq.
      - inversion Heq; subst. cbn in Hpre. inversion Hpre; subst.
        apply (page_request_answer_frame P _ _ _ _ _ _ Hhit).
      - inversion Heq; subst. cbn [allThrow] in Hpre.
        destruct (Client.api_put P UsersPage.api _ _ w) as [[r|e] wa] eqn:Ea;
          [discriminate|].
        inversion Hpre; subst.
        eapply sameData_trans;
          [apply (page_request_answer_frame P _ _ _ _ _ _ Ea)
          |apply (page_request_answer_frame P _ _ _ _ _ _ Hhit)].
      - inversion Heq; subst. cbn [allThrow] in Hpre.
        destruct (Client.api_put P UsersPage.api _ _ w) as [[r|e] wa] eqn:Ea;
          [discriminate|].
        destruct (Client.api_patch P UsersPage.api _ _ wa) as [[r|e'] wb] eqn:Eb;
          [discriminate|].
        inversion Hpre; subst.
        eapply sameData_trans;
          [apply (page_request_answer_frame P _ _ _ _ _ _ Ea)|].
        eapply sameData_trans;
          [apply (page_request_answer_frame P _ _ _ _ _ _ Eb)
          |apply (page_request_answer_frame P _ _ _ _ _ _ Hhit)].
      - exfalso. inversion Heq as [[Ha Hb Hc Hrest]].
        destruct pre; discriminate Hrest. }
    pose proof (updateRoleWith_answer userId pre post fn l updated w w1 w2 Hpre Hhit)
      as Hrun.
    rewrite Ht in Hrun.
    destruct (sameData_toasts _ _ Hs) as [Ht2 Hi2].
    destruct (pushToast_pages (UIContext.success "Role updated") w2) as (_ & Hup & _).
    eexists. split; [|split].
    + unfold UsersPage.updateUserRole. rewrite <- Heq. exact Hrun.
    + cbn [UsersPage.setUsers withUsersPage usersPage users].
      rewrite Hup, (sameData_usersPage _ _ Hs). reflexivity.
    + cbn [UsersPage.setUsers withUsersPage ui].
      apply (pushed_success "Role updated" w w2 Ht2 Hi2 eq_refl).
Qed.

(** The example backend does not know [/users/invite] and answers
    [/invite] with the new user: the invite is sent twice, the user is
    listed and the form closes. It answers the PATCH of [/users/7] with
    user 9, which then replaces user 7 in the list. *)
Lemma user_writes_success_witness :
  users (usersPage (snd (UsersPage.submitInvite Example.platform (Example.world "Q2"))))
    = [VObj [("id"%string, VNum 9)]]
  /\
  inviteOpen (usersPage (snd (UsersPage.submitInvite Example.platform
                                (Example.world "Q2")))) = false
  /\
  map req_url
      (requestsOf (log (snd (UsersPage.submitInvite Example.platform
                               (Example.world "Q2")))))
    = ["/users/invite"; "/invite"]%string
  /\
  users (usersPage
           (snd (UsersPage.updateUserRole Example.platform (VNum 7) (VStr "2")
                   (UsersPage.setUsers (fun _ => [Example.project7])
                      (Example.world "Q2")))))
    = [VObj [("id"%string, VNum 9)]].
Proof.
  pose (P := Example.platform). pose (w := Example.world "Q2").
  pose (f := inviteForm (usersPage w)).
  pose (err := mkError "Not Found" (Some 404) (Some (VStr "Not Found"))).
  destruct (user_writes_success P w) as (H & _).
  specialize (H eq_refl).
  pose (w1 := snd (inviteCall P ("/users/invite"%string, f) (UsersPage.setErrors [] w))).
  pose (w2 := snd (inviteCall P ("/invite"%string, f) w1)).
  destruct (H [("/users/invite"%string, f)] [("/users"%string, f)] ("/invite"%string, f)
              (Some err) (VObj [("id"%string, VNum 9)]) w1 w2)
    as (final & Hrun & Hl & _ & Hu & Ho & _);
    [reflexivity | vm_compute; reflexivity | vm_compute; reflexivity | reflexivity |].
  pose (wu := UsersPage.setUsers (fun _ => [Example.project7]) w).
  destruct (user_writes_success P wu) as (_ & H').
  specialize (H' eq_refl).
  pose (c1 := nth 0 (UsersPage.roleCandidates P (VNum 7) (VStr "2")) (ret VNull)).
  pose (c2 := nth 1 (UsersPage.roleCandidates P (VNum 7) (VStr "2")) (ret VNull)).
  pose (c3 := nth 2 (UsersPage.roleCandidates P (VNum 7) (VStr "2")) (ret VNull)).
  pose (u1 := snd (c1 wu)). pose (u2 := snd (c2 u1)).
  destruct (H' (VNum 7) (VStr "2") [c1] [c3] c2 (Some err)
              (VObj [("id"%string, VNum 9)]) u1 u2)
    as (final' & Hrun' & Hu' & _);
    [reflexivity | vm_compute; reflexivity | vm_compute; reflexivity | reflexivity |].
  assert (E : UsersPage.submitInvite Example.platform (Example.world "Q2")
              = (Normal tt, final)) by exact Hrun.
  assert (E' : UsersPage.updateUserRole Example.platform (VNum 7) (VStr "2")
                 (UsersPage.setUsers (fun _ => [Example.project7]) (Example.world "Q2"))
               = (Normal tt, final')) by exact Hrun'.
  rewrite E, E'. cbn [snd]. rewrite Hu, Ho, Hl, Hu'.
  repeat split.
Defined.

(** ** The route guard *)

Lemma init_session (P : Platform) (w : World) :
  fst (AuthProvider.init P w) = Normal tt /\
  initializing (auth (snd (AuthProvider.init P w))) = false /\
  token (auth (snd (AuthProvider.init P w))) = token (auth w).
Proof.
  unfold AuthProvider.init, tryFinally.
  destruct (truthy (token (auth w))) eqn:Ht; cbn [negb].
  - set (w0 := AuthProvider.setInitializing true w).
    destruct (me_session P (Some (fun w => token (auth w))) w0) as [_ Ha].
    change (Client.mkOptions (Some (fun w => token (auth w))) None)
      with AuthContext.api in Ha.
    unfold bind.
    destruct (AuthContext.bestEffortGetMe P AuthContext.api w0) as [[me|e] w1] eqn:E.
    + cbn [snd] in Ha. cbn. rewrite Ha. repeat split.
    + exfalso. rewrite bestEffortGetMe_eq in E. discriminate.
  - cbn. repeat split.
Qed.

(** X24. The guard of the protected pages follows the session. While
    [init] runs it shows the loading card; once [init] has ended it shows
    the pages exactly when the session holds a truthy token, whatever the
    backend answered to the profile requests, and sends to [/login]
    otherwise. After [logout] it never shows the pages. After a [login]
    that returned and the [init] run that the new token triggers, it
    shows the pages; a [login] that threw leaves what it shows as it
    was. *)
Theorem protected_route_gate (P : Platform) (w : World) :
  Routes.ProtectedRoute (AuthProvider.setInitializing true w) = Routes.LoadingSession
  /\
  Routes.ProtectedRoute (snd (AuthProvider.init P w)) =
    (if truthy (token (auth w)) then Routes.Outlet else Routes.NavigateTo "/login")
  /\
  Routes.ProtectedRoute (snd (AuthProvider.logout w)) =
    (if initializing (auth w) then Routes.LoadingSession else Routes.NavigateTo "/login")
  /\
  (forall email password,
      match fst (AuthContext.login P email password w) with
      | Normal _ =>
          Routes.ProtectedRoute
            (snd (AuthProvider.init P (snd (AuthContext.login P email password w))))
          = Routes.Outlet
      | Throw _ =>
          Routes.ProtectedRoute (snd (AuthContext.login P email password w))
          = Routes.ProtectedRoute w
      end).
Proof.
  assert (Hinit : forall x,
             Routes.ProtectedRoute (snd (AuthProvider.init P x)) =
               (if truthy (token (auth x)) then Routes.Outlet
                else Routes.NavigateTo "/login")).
  { intros x. destruct (init_session P x) as (_ & Hi & Ht).
    unfold Routes.ProtectedRoute, AuthContext.isAuthenticated. rewrite Hi, Ht.
    destruct (truthy (token (auth x))); reflexivity. }
  split; [reflexivity|]. split; [apply Hinit|]. split.
  - unfold Routes.ProtectedRoute, AuthContext.isAuthenticated, AuthProvider.logout,
      TokenStorage.clearToken, bind, modify.
    destruct (storageOk w); cbn; destruct (initializing (auth w)); reflexivity.
  - intros email password.
    destruct (login_facts P (AuthContext.loginCandidates email password) w)
      as (_ & Hthrow & Hret & _).
    fold (AuthContext.login P email password) in Hthrow, Hret.
    destruct (fst (AuthContext.login P email password w)) as [res|e] eqn:E.
    + rewrite Hinit, (Hret res eq_refl). reflexivity.
    + destruct (Hthrow e eq_refl) as [Ha _].
      unfold Routes.ProtectedRoute, AuthContext.isAuthenticated. now rewrite Ha.
Qed.

(** ** The profile requests, answer by answer *)

Section MeFacts.

Context (P : Platform).

(** A client that has no hook and whose token depends on the session
    only, as the provider's clients are. *)
Variable g : option (World -> value).
Hypothesis g_session :
  forall f w w', g = Some f -> auth w' = auth w -> f w' = f w.

Lemma hookless_buildRequest (method path : string) (o : Client.RequestOptions)
  (w w' : World) :
  auth w' = auth w ->
  Client.buildRequest P (Client.mkOptions g None) method path o w' =
    Client.buildRequest P (Client.mkOptions g None) method path o w.
Proof.
  intros Ha. unfold Client.buildRequest. cbn [Client.getToken].
  destruct g as [f|] eqn:Eg; [|reflexivity].
  now rewrite (g_session f w w' eq_refl Ha).
Qed.

Lemma meCall_effect (path : string) (w : World) :
  snd (meCall P (Client.mkOptions g None) path w) =
    emit (Fetch (Client.buildRequest P (Client.mkOptions g None) "GET" path
                   Client.noOptions w)) w.
Proof. unfold meCall, Client.api_get. apply request_no_hook. Qed.

(** A round of the loop misses when its call does. *)
Lemma meRound_miss (path : string) (w : World) :
  match meCall P (Client.mkOptions g None) path w with
  | (Throw e, w') => meRound P (Client.mkOptions g None) path w = (Throw e, w')
  | (Normal v, w') =>
      meRound P (Client.mkOptions g None) path w =
        (Normal (if truthy v then Some v else None), w')
  end.
Proof.
  unfold meRound, meCall, bind.
  destruct (Client.api_get P (Client.mkOptions g None) path Client.noOptions w)
    as [[v|e] w']; [|reflexivity].
  destruct (truthy v); reflexivity.
Qed.

(** Candidates that miss are skipped. *)
Lemma allMiss_loop (pre rest : list string) (l : option JsError) (w w1 : World) :
  allMiss (meCall P (Client.mkOptions g None)) pre w = Some w1 ->
  exists l',
    forOfTry (meRound P (Client.mkOptions g None)) (pre ++ rest) l w =
      forOfTry (meRound P (Client.mkOptions g None)) rest l' w1.
Proof.
  revert l w; induction pre as [|c pre IH]; intros l w H; cbn [allMiss app] in *.
  - inversion H; subst. now exists l.
  - pose proof (meRound_miss c w) as Hr. cbn [forOfTry].
    destruct (meCall P (Client.mkOptions g None) c w) as [[v|e] w'].
    + destruct (truthy v); [discriminate|]. rewrite Hr. now apply IH.
    + rewrite Hr. now apply IH.
Qed.

(** Candidates that miss leave their GETs in the log, in order, and
    nothing else. *)
Lemma allMiss_trace (cs : list string) (w w1 : World) :
  allMiss (meCall P (Client.mkOptions g None)) cs w = Some w1 ->
  requestsOf (log w1) =
    requestsOf (log w) ++
    map (fun p => Client.buildRequest P (Client.mkOptions g None) "GET" p
                    Client.noOptions w) cs
  /\ sameData w w1.
Proof.
  revert w; induction cs as [|c cs IH]; intros w H; cbn [allMiss] in H.
  - inversion H; subst. cbn [map]. rewrite app_nil_r.
    split; [reflexivity|apply sameData_refl].
  - pose proof (meCall_effect c w) as He.
    assert (Hnext : allMiss (meCall P (Client.mkOptions g None)) cs
                      (emit (Fetch (Client.buildRequest P (Client.mkOptions g None)
                                      "GET" c Client.noOptions w)) w) = Some w1).
    { destruct (meCall P (Client.mkOptions g None) c w) as [[v|e] w'];
        cbn [snd] in He; subst w'; [|exact H].
      destruct (truthy v); [discriminate|exact H]. }
    destruct (IH _ Hnext) as [Hl Hs].
    split.
    + rewrite Hl, emit_log, requestsOf_app, <- app_assoc. cbn [requestsOf app map].
      do 2 f_equal. apply map_ext. intros p.
      apply hookless_buildRequest. reflexivity.
    + eapply sameData_trans; [apply emit_sameData|exact Hs].
Qed.

(** The first truthy answer ends the loop and is returned. *)
Lemma me_hit (pre post : list string) (path : string) (me : value)
  (w w1 w2 : World) :
  pre ++ path :: post = AuthContext.meCandidates ->
  allMiss (meCall P (Client.mkOptions g None)) pre w = Some w1 ->
  meCall P (Client.mkOptions g None) path w1 = (Normal me, w2) ->
  truthy me = true ->
  AuthContext.bestEffortGetMe P (Client.mkOptions g None) w = (Normal me, w2) /\
  requestsOf (log w2) =
    requestsOf (log w) ++
    map (fun p => Client.buildRequest P (Client.mkOptions g None) "GET" p
                    Client.noOptions w) (pre ++ [path]) /\
  sameData w w2.
Proof.
  intros Heq Hpre Hhit Ht.
  destruct (allMiss_trace pre w w1 Hpre) as [Hl Hs].
  pose proof (meCall_effect path w1) as He. rewrite Hhit in He; cbn [snd] in He.
  split; [|split].
  - rewrite bestEffortGetMe_eq, <- Heq.
    destruct (allMiss_loop pre (path :: post) None w w1 Hpre) as [l' ->].
    pose proof (meRound_miss path w1) as Hr. rewrite Hhit, Ht in Hr.
    cbn [forOfTry]. rewrite Hr. reflexivity.
  - rewrite He, emit_log, requestsOf_app, Hl, map_app, <- app_assoc.
    cbn [requestsOf app map]. do 3 f_equal.
    apply hookless_buildRequest. apply Hs.
  - subst w2. eapply sameData_trans; [exact Hs|apply emit_sameData].
Qed.

(** When every candidate misses, the result is [null]. *)
Lemma me_miss (w w1 : World) :
  allMiss (meCall P (Client.mkOptions g None)) AuthContext.meCandidates w = Some w1 ->
  AuthContext.bestEffortGetMe P (Client.mkOptions g None) w = (Normal VNull, w1) /\
  requestsOf (log w1) =
    requestsOf (log w) ++
    map (fun p => Client.buildRequest P (Client.mkOptions g None) "GET" p
                    Client.noOptions w) AuthContext.meCandidates /\
  sameData w w1.
Proof.
  intros Hall. destruct (allMiss_trace _ w w1 Hall) as [Hl Hs].
  split; [|split; assumption].
  rewrite bestEffortGetMe_eq.
  destruct (allMiss_loop AuthContext.meCandidates [] None w w1 Hall) as [l' Hloop].
  rewrite app_nil_r in Hloop. rewrite Hloop. reflexivity.
Qed.

End MeFacts.

Lemma fixed_token_session (jwt : value) :
  forall (f : World -> value) (w w' : World),
    Some (fun _ : World => jwt) = Some f -> auth w' = auth w -> f w' = f w.
Proof. intros f w w' H _. inversion H; subst. reflexivity. Qed.

Lemma session_token_session :
  forall (f : World -> value) (w w' : World),
    Some (fun x : World => token (auth x)) = Some f -> auth w' = auth w -> f w' = f w.
Proof. intros f w w' H Ha. inversion H; subst. now rewrite Ha. Qed.

(** X10. [bestEffortGetMe] never throws and changes nothing but the log.
    It requests the candidate routes in order, each by a GET without body
    that carries the bearer token of its client. The first candidate that
    answers with a truthy value ends it: that value is returned, the
    candidates before it, which failed or answered with a falsy value,
    were each requested once, and none after it is requested. When all
    four candidates fail or answer with a falsy value, [null] is
    returned after the four requests. *)
Theorem profile_fetch_is_best_effort (P : Platform) (jwt : value) (w : World) :
  (exists me w',
      AuthContext.bestEffortGetMe P (AuthContext.apiFor jwt) w = (Normal me, w') /\
      sameData w w')
  /\
  (forall pre path post me w1 w2,
      pre ++ path :: post = AuthContext.meCandidates ->
      allMiss (meCall P (AuthContext.apiFor jwt)) pre w = Some w1 ->
      meCall P (AuthContext.apiFor jwt) path w1 = (Normal me, w2) ->
      truthy me = true ->
      AuthContext.bestEffortGetMe P (AuthContext.apiFor jwt) w = (Normal me, w2) /\
      requestsOf (log w2) =
        requestsOf (log w) ++
        map (fun p => Client.buildRequest P (AuthContext.apiFor jwt) "GET" p
                        Client.noOptions w) (pre ++ [path]))
  /\
  (forall w1,
      allMiss (meCall P (AuthContext.apiFor jwt)) AuthContext.meCandidates w = Some w1 ->
      AuthContext.bestEffortGetMe P (AuthContext.apiFor jwt) w = (Normal VNull, w1) /\
      requestsOf (log w1) =
        requestsOf (log w) ++
        map (fun p => Client.buildRequest P (AuthContext.apiFor jwt) "GET" p
                        Client.noOptions w) AuthContext.meCandidates)
  /\
  (forall path,
      let r := Client.buildRequest P (AuthContext.apiFor jwt) "GET" path
                 Client.noOptions w in
      req_method r = "GET"%string /\ req_body r = None /\
      header "Authorization" (req_headers r) =
        (if truthy jwt then Some ("Bearer " ++ toString jwt)%string else None)).
Proof.
  split; [|split; [|split]].
  - destruct (bestEffortGetMe_total P (Some (fun _ => jwt)) w) as (me & w' & H & Hs & _).
    exists me, w'. split; assumption.
  - intros pre path post me w1 w2 Heq Hpre Hhit Ht.
    destruct (me_hit P (Some (fun _ => jwt)) (fixed_token_session jwt)
                pre post path me w w1 w2 Heq Hpre Hhit Ht) as (H1 & H2 & _).
    split; assumption.
  - intros w1 Hall.
    destruct (me_miss P (Some (fun _ => jwt)) (fixed_token_session jwt) w w1 Hall)
      as (H1 & H2 & _).
    split; assumption.
  - intros path r. subst r. unfold Client.buildRequest.
    cbn [req_method req_body req_headers AuthContext.apiFor Client.getToken
         Client.noOptions Client.body Client.headers truthy].
    destruct (truthy jwt); repeat split.
Qed.

(** A backend that does not know [/auth/me] and answers [/me] with
    [null] and [/users/me] with the user: the user is returned after
    three requests, and [/api/me] is not requested. With the backend down
    the result is [null] after four. *)
Lemma profile_fetch_is_best_effort_witness :
  fst (AuthContext.bestEffortGetMe Backends.platformProfiles
         (AuthContext.apiFor (VStr "abc")) (Example.world "Q2"))
    = Normal (VObj [("id"%string, VNum 9)])
  /\
  map req_url
      (requestsOf
         (log (snd (AuthContext.bestEffortGetMe Backends.platformProfiles
                      (AuthContext.apiFor (VStr "abc")) (Example.world "Q2")))))
    = ["/auth/me"; "/me"; "/users/me"]%string
  /\
  fst (AuthContext.bestEffortGetMe Example.platformDown
         (AuthContext.apiFor (VStr "abc")) (Example.world "Q2")) = Normal VNull.
Proof.
  pose (c := AuthContext.apiFor (VStr "abc")). pose (w := Example.world "Q2").
  destruct (profile_fetch_is_best_effort Backends.platformProfiles (VStr "abc") w)
    as (_ & Hhit & _).
  pose (w1 := snd (meCall Backends.platformProfiles c "/me"
                     (snd (meCall Backends.platformProfiles c "/auth/me" w)))).
  pose (w2 := snd (meCall Backends.platformProfiles c "/users/me" w1)).
  destruct (Hhit ["/auth/me"; "/me"]%string "/users/me"%string ["/api/me"%string]
              (VObj [("id"%string, VNum 9)]) w1 w2)
    as [Hrun Hl];
    [reflexivity | vm_compute; reflexivity | vm_compute; reflexivity | reflexivity |].
  destruct (profile_fetch_is_best_effort Example.platformDown (VStr "abc") w)
    as (_ & _ & Hmiss & _).
  pose (w4 := snd (forOfTry (meRound Example.platformDown c)
                     AuthContext.meCandidates None w)).
  destruct (Hmiss w4) as [Hrun' _]; [vm_compute; reflexivity|].
  split; [exact (f_equal fst Hrun)|]. split; [|exact (f_equal fst Hrun')].
  assert (E : snd (AuthContext.bestEffortGetMe Backends.platformProfiles
                     (AuthContext.apiFor (VStr "abc")) (Example.world "Q2")) = w2)
    by exact (f_equal snd Hrun).
  rewrite E, Hl. reflexivity.
Defined.

(** X11. The start-up of the session needs a token and nothing else.
    Without a truthy token [init] asks the backend nothing and ends
    anonymous, with no profile and [initializing] off. With a truthy
    token it always completes, authenticated, with the token as it was
    and [initializing] off, whatever the backend answers; its requests
    are those of the profile fetch, made with the session's token: the
    profile is the first truthy answer, asked for candidate by candidate
    and no further, or [null] when all four candidates fail or answer
    with a falsy value. *)
Theorem init_needs_only_a_token (P : Platform) (w : World) :
  (truthy (token (auth w)) = false ->
   exists w',
     AuthProvider.init P w = (Normal tt, w') /\
     user (auth w') = VNull /\
     initializing (auth w') = false /\
     AuthContext.isAuthenticated w' = false /\
     log w' = log w)
  /\
  (truthy (token (auth w)) = true ->
   (exists w',
       AuthProvider.init P w = (Normal tt, w') /\
       initializing (auth w') = false /\
       token (auth w') = token (auth w) /\
       AuthContext.isAuthenticated w' = true)
   /\
   (forall pre path post me w1 w2,
       pre ++ path :: post = AuthContext.meCandidates ->
       allMiss (meCall P AuthContext.api) pre (AuthProvider.setInitializing true w)
         = Some w1 ->
       meCall P AuthContext.api path w1 = (Normal me, w2) ->
       truthy me = true ->
       exists w',
         AuthProvider.init P w = (Normal tt, w') /\
         user (auth w') = me /\
         requestsOf (log w') =
           requestsOf (log w) ++
           map (fun p => Client.buildRequest P AuthContext.api "GET" p
                           Client.noOptions w) (pre ++ [path]))
   /\
   (forall w1,
       allMiss (meCall P AuthContext.api) AuthContext.meCandidates
         (AuthProvider.setInitializing true w) = Some w1 ->
       exists w',
         AuthProvider.init P w = (Normal tt, w') /\
         user (auth w') = VNull /\
         requestsOf (log w') =
           requestsOf (log w) ++
           map (fun p => Client.buildRequest P AuthContext.api "GET" p
                           Client.noOptions w) AuthContext.meCandidates)).
Proof.
  split; intros Ht.
  - eexists. unfold AuthProvider.init, tryFinally. cbn [auth AuthProvider.setInitializing
      withAuth token]. rewrite Ht. cbn [negb modify].
    split; [reflexivity|].
    unfold AuthContext.isAuthenticated. cbn. rewrite Ht. repeat split.
  - set (w0 := AuthProvider.setInitializing true w).
    assert (Hrun : forall me w1,
               AuthContext.bestEffortGetMe P AuthContext.api w0 = (Normal me, w1) ->
               AuthProvider.init P w =
                 (Normal tt, AuthProvider.setInitializing false
                               (AuthContext.setUser me w1))).
    { intros me w1 H. unfold AuthProvider.init, tryFinally.
      cbn [auth AuthProvider.setInitializing withAuth token]. rewrite Ht. cbn [negb].
      fold w0. unfold bind. rewrite H. reflexivity. }
    assert (Hsent : forall p,
               Client.buildRequest P AuthContext.api "GET" p Client.noOptions w0 =
               Client.buildRequest P AuthContext.api "GET" p Client.noOptions w).
    { intros p. reflexivity. }
    split; [|split].
    + destruct (bestEffortGetMe_total P (Some (fun x => token (auth x))) w0)
        as (me & w1 & H & Hs & _).
      change (Client.mkOptions (Some (fun x => token (auth x))) None)
        with AuthContext.api in H.
      pose proof (sameData_auth _ _ Hs) as Hau.
      eexists. split; [apply (Hrun me w1 H)|].
      unfold AuthContext.isAuthenticated. cbn. rewrite Hau. cbn.
      repeat split. exact Ht.
    + intros pre path post me w1 w2 Heq Hpre Hhit Hme.
      destruct (me_hit P (Some (fun x => token (auth x))) session_token_session
                  pre post path me w0 w1 w2 Heq Hpre Hhit Hme) as (H1 & H2 & _).
      change (Client.mkOptions (Some (fun x => token (auth x))) None)
        with AuthContext.api in H1, H2.
      eexists. split; [apply (Hrun me w2 H1)|]. split; [reflexivity|].
      exact H2.
    + intros w1 Hall.
      destruct (me_miss P (Some (fun x => token (auth x))) session_token_session
                  w0 w1 Hall) as (H1 & H2 & _).
      change (Client.mkOptions (Some (fun x => token (auth x))) None)
        with AuthContext.api in H1, H2.
      eexists. split; [apply (Hrun VNull w1 H1)|]. split; [reflexivity|].
      exact H2.
Qed.

(** Signed out and with the backend down nothing is asked. With the
    stored token [t0] and the backend down the session is authenticated
    all the same, without a profile; on the backend that knows
    [/users/me] the profile is the user it answers, after three
    requests. *)
Lemma init_needs_only_a_token_witness :
  log (snd (AuthProvider.init Example.platformDown (Example.world "Q2"))) = []
  /\
  (exists w',
      AuthProvider.init Example.platformDown
        (withAuth (mkAuth (VStr "t0") VNull true) (Example.world "Q2"))
        = (Normal tt, w') /\
      AuthContext.isAuthenticated w' = true /\
      initializing (auth w') = false)
  /\
  (exists w',
      AuthProvider.init Backends.platformProfiles
        (withAuth (mkAuth (VStr "t0") VNull true) (Example.world "Q2"))
        = (Normal tt, w') /\
      user (auth w') = VObj [("id"%string, VNum 9)] /\
      map req_url (requestsOf (log w')) = ["/auth/me"; "/me"; "/users/me"]%string).
Proof.
  pose (ws := withAuth (mkAuth (VStr "t0") VNull true) (Example.world "Q2")).
  split; [|split].
  - destruct (init_needs_only_a_token Example.platformDown (Example.world "Q2"))
      as (H & _).
    destruct (H eq_refl) as (w' & Hrun & _ & _ & _ & Hl).
    rewrite Hrun. exact Hl.
  - destruct (init_needs_only_a_token Example.platformDown ws) as (_ & H).
    destruct (H eq_refl) as ((w' & Hrun & Hi & _ & Ha) & _).
    exists w'. split; [exact Hrun|]. split; assumption.
  - destruct (init_needs_only_a_token Backends.platformProfiles ws) as (_ & H).
    destruct (H eq_refl) as (_ & Hhit & _).
    pose (P := Backends.platformProfiles).
    pose (w1 := snd (meCall P AuthContext.api "/me"
                       (snd (meCall P AuthContext.api "/auth/me"
                               (AuthProvider.setInitializing true ws))))).
    pose (w2 := snd (meCall P AuthContext.api "/users/me" w1)).
    destruct (Hhit ["/auth/me"; "/me"]%string "/users/me"%string ["/api/me"%string]
                (VObj [("id"%string, VNum 9)]) w1 w2)
      as (w' & Hrun & Hu & Hl);
      [reflexivity | vm_compute; reflexivity | vm_compute; reflexivity | reflexivity |].
    exists w'. split; [exact Hrun|]. split; [exact Hu|].
    rewrite Hl. reflexivity.
Defined.

(** ** Failure of every candidate *)

Section AllFailFacts.

Context (P : Platform).







End AllFailFacts.



